(** * Undo.cpp: the editor's undo/redo history, embedded and verified

    A shallow embedding of [mptrack/Undo.cpp] (pattern, sample and
    instrument undo) together with the properties of its specification.

    Conventions of the embedding.
    - Index and length types ([PATTERNINDEX], [ROWINDEX], [SmpLength], ...)
      are integers in [Z].  Where the C++ computes in an unsigned type whose
      wrap-around can change the outcome, the reduction modulo [2 ^ bits] is
      written out with [wrap].
    - A [std::vector] is a [list] in the vector's order: [front] is the head,
      [push_back] appends, [back] is [last].
    - Code that dereferences a pointer returns an [option]: [None] stands for
      an access outside the buffer (undefined behaviour in the C++).
    - Types, constants and functions that [Undo.cpp] uses but that are declared
      in other files are fields of a class of externals, one per engine. *)

From Stdlib Require Import ZArith Lia.
From stdpp Require Import base option list strings.

Local Open Scope Z_scope.

(** ** Machine arithmetic and raw buffers *)

(** Reduction of an unsigned result to a [bits]-bit type. *)
Definition wrap (bits x : Z) : Z := x mod 2 ^ bits.

Section Buffers.
Context {A : Type}.

(** [read_at buf off n]: the [n] elements at [buf + off], when they all lie
    inside [buf]. *)
Definition read_at (buf : list A) (off n : Z) : option (list A) :=
  if (0 <=? off) && (0 <=? n) && (off + n <=? Z.of_nat (length buf))
  then Some (take (Z.to_nat n) (drop (Z.to_nat off) buf))
  else None.

(** [write_at buf off src]: [buf] with [src] stored at [buf + off], when the
    destination range lies inside [buf]. *)
Definition write_at (buf : list A) (off : Z) (src : list A) : option (list A) :=
  if (0 <=? off) && (off + Z.of_nat (length src) <=? Z.of_nat (length buf))
  then Some (take (Z.to_nat off) buf ++ src
             ++ drop (Z.to_nat off + length src) buf)
  else None.

(** The row loops of the pattern engine: [n] times, copy [w] elements from
    [src + soff] to [dst + doff], then advance the two cursors by their
    strides ([std::copy] / [std::move] over a range of cells). *)
Fixpoint copy_rows (n : nat) (src : list A) (soff sstride : Z)
         (dst : list A) (doff dstride : Z) (w : Z) : option (list A) :=
  match n with
  | O => Some dst
  | S n' =>
      row ← read_at src soff w;
      dst' ← write_at dst doff row;
      copy_rows n' src (soff + sstride) sstride dst' (doff + dstride) dstride w
  end.
End Buffers.

(** ** Pattern undo *)

Module CPatternUndo.

(** What the pattern engine takes from the rest of the program. *)
Class Externals := {
  (** width of [ROWINDEX], the unsigned type of row numbers and row counts *)
  ROWINDEX_bits : Z;
  (** maximum number of steps of one undo buffer *)
  MAX_UNDO_LEVEL : Z;
  PATTERNINDEX_INVALID : Z;
  CHANNELINDEX_INVALID : Z;
  (** a pattern cell and its value-initialised state *)
  ModCommand : Type;
  ModCommand_Empty : ModCommand;
  (** a channel header (pan / volume / ... settings) and its reset state *)
  ModChannelSettings : Type;
  ModChannelSettings_Reset : ModChannelSettings;
  (** whether [content.resize(n)] obtains its memory (it throws otherwise) *)
  content_resize_ok : Z -> bool;
  (** whether [Patterns.Insert(pat, rows)] succeeds *)
  Patterns_Insert_ok : Z -> Z -> bool;
}.

Section Engine.
Context `{Ext : Externals}.

(** One pattern: its row count and its cells, row-major, one row being
    [GetNumChannels()] cells wide. *)
Record CPattern := {
  m_Rows : Z;
  m_ModCommands : list ModCommand;
}.

(** The part of the sound file that the pattern engine reads and writes.
    A slot of [Patterns] that holds no pattern is [None]. *)
Record CSoundFile := {
  m_nChannels : Z;
  ChnSettings : list ModChannelSettings;
  Patterns : list (option CPattern);
}.

(** The document: the sound file and the number of [UpdateAllViews] calls
    made with the undo hint. *)
Record CModDoc := {
  sndFile : CSoundFile;
  updates : nat;
}.

Record UndoInfo := {
  pattern : Z;
  numPatternRows : Z;
  firstChannel : Z;
  firstRow : Z;
  numChannels : Z;
  numRows : Z;
  content : list ModCommand;
  channelInfo : list ModChannelSettings;
  linkToPrevious : bool;
  description : string;
}.

Abbreviation undobuf_t := (list UndoInfo) (only parsing).

Record CPatternUndo := {
  UndoBuffer : undobuf_t;
  RedoBuffer : undobuf_t;
}.

Definition GetNumChannels (snd : CSoundFile) : Z := m_nChannels snd.

(** [Patterns[pat]] when [Patterns.IsValidPat(pat)]. *)
Definition GetPattern (snd : CSoundFile) (pat : Z) : option CPattern :=
  if 0 <=? pat then mjoin (Patterns snd !! Z.to_nat pat) else None.


Definition SetPattern (snd : CSoundFile) (pat : Z) (p : CPattern) : CSoundFile :=
  {| m_nChannels := m_nChannels snd;
     ChnSettings := ChnSettings snd;
     Patterns := <[Z.to_nat pat := Some p]>
                   (resize (Nat.max (length (Patterns snd)) (S (Z.to_nat pat)))
                           None (Patterns snd)) |}.

(** Modelled from the spec: [CPatternContainer::Insert] is not part of
    Undo.cpp; "if the target pattern doesn't exist, creates it with the
    snapshot's row count".  The new pattern is empty. *)
Definition Patterns_Insert (snd : CSoundFile) (pat rows : Z) : option CSoundFile :=
  if Patterns_Insert_ok pat rows
  then Some (SetPattern snd pat
               {| m_Rows := rows;
                  m_ModCommands :=
                    replicate (Z.to_nat (rows * GetNumChannels snd)) ModCommand_Empty |})
  else None.

(** Modelled from the spec: [CPattern::Resize] is not part of Undo.cpp;
    "otherwise resizes it to match".  Rows are cut or added at the end. *)
Definition CPattern_Resize (nch : Z) (p : CPattern) (rows : Z) : CPattern :=
  {| m_Rows := rows;
     m_ModCommands := resize (Z.to_nat (rows * nch)) ModCommand_Empty (m_ModCommands p) |}.

(** Modelled from the spec: [CModDoc::ReArrangeChannels] is not part of
    Undo.cpp; "reconciles channel count by inserting/removing channels
    (mapping old->new indices, truncating or padding)".  New channel [i] is
    old channel [channels[i]], or a fresh channel when that is
    [CHANNELINDEX_INVALID]. *)
Definition rearrange_row {C : Type} (fresh : C) (channels : list Z) (row : list C) : list C :=
  (fun c => if c =? CHANNELINDEX_INVALID then fresh
            else default fresh (row !! Z.to_nat c)) <$> channels.

(** Modelled from the spec: the same mapping on each row of a pattern
    ("truncating or padding"). *)
Definition rearrange_pattern (nch : Z) (channels : list Z) (p : CPattern) : CPattern :=
  {| m_Rows := m_Rows p;
     m_ModCommands :=
       mjoin (rearrange_row ModCommand_Empty channels
                <$> reshape (replicate (Z.to_nat (m_Rows p)) (Z.to_nat nch))
                            (m_ModCommands p)) |}.

(** Modelled from the spec: the mapping applied to the channel settings and
    to every pattern; the document has one channel per entry of [channels]. *)
Definition ReArrangeChannels (channels : list Z) (snd : CSoundFile) : CSoundFile :=
  {| m_nChannels := Z.of_nat (length channels);
     ChnSettings :=
       rearrange_row ModChannelSettings_Reset channels (ChnSettings snd)
       ++ drop (length channels) (ChnSettings snd);
     Patterns := option_map (rearrange_pattern (m_nChannels snd) channels)
                   <$> Patterns snd |}.

Definition UpdateAllViews (doc : CModDoc) : CModDoc :=
  {| sndFile := sndFile doc; updates := S (updates doc) |}.

Definition with_sndFile (doc : CModDoc) (snd : CSoundFile) : CModDoc :=
  {| sndFile := snd; updates := updates doc |}.

(** The checks and the clamping of the rectangle that open [PrepareBuffer]:
    [None] when the request is rejected, else the clamped [(numChns, numRows)].
    [firstRow + numRows] is a [ROWINDEX] sum; [firstChn + numChns] is computed
    in [int], the channel index type being narrower. *)
Definition ClampRect (snd : CSoundFile) (pat firstChn firstRow numChns numRows : Z)
  : option (Z * Z) :=
  match GetPattern snd pat with
  | None => None
  | Some p =>
      let nRows := m_Rows p in
      if (nRows <=? firstRow) || (numChns <? 1) || (numRows <? 1)
         || (GetNumChannels snd <=? firstChn)
      then None
      else
        let numRows :=
          if nRows <=? wrap ROWINDEX_bits (firstRow + numRows)
          then wrap ROWINDEX_bits (nRows - firstRow) else numRows in
        let numChns :=
          if GetNumChannels snd <=? firstChn + numChns
          then GetNumChannels snd - firstChn else numChns in
        Some (numChns, numRows)
  end.

(** "Remove an undo step if there are too many." *)
Definition EvictOldest (buffer : undobuf_t) : undobuf_t :=
  if MAX_UNDO_LEVEL <=? Z.of_nat (length buffer)
  then drop (Z.to_nat (Z.of_nat (length buffer) - MAX_UNDO_LEVEL + 1)) buffer
  else buffer.

(** [CPatternUndo::PrepareBuffer].  The result is [None] when a cell outside a
    buffer is accessed; else the returned [bool], the buffer and the document. *)
Definition PrepareBuffer (doc : CModDoc) (buffer : undobuf_t)
           (pat firstChn firstRow numChns numRows : Z) (descr : string)
           (link storeChannelInfo : bool)
  : option (bool * undobuf_t * CModDoc) :=
  let snd := sndFile doc in
  match ClampRect snd pat firstChn firstRow numChns numRows,
        GetPattern snd pat with
  | Some (numChns, numRows), Some p =>
      let buffer := EvictOldest buffer in
      let size := wrap ROWINDEX_bits (numRows * numChns) in
      if negb (content_resize_ok size) then Some (false, buffer, doc)
      else
        cells ← copy_rows (Z.to_nat numRows)
                  (m_ModCommands p) (firstRow * GetNumChannels snd + firstChn)
                  (GetNumChannels snd)
                  (replicate (Z.to_nat size) ModCommand_Empty) 0 numChns numChns;
        info ← (if storeChannelInfo
                then read_at (ChnSettings snd) 0 (GetNumChannels snd)
                else Some []);
        let undo :=
          {| pattern := pat;
             numPatternRows := m_Rows p;
             firstChannel := firstChn;
             firstRow := firstRow;
             numChannels := numChns;
             numRows := numRows;
             content := cells;
             channelInfo := info;
             linkToPrevious := link;
             description := descr |} in
        Some (true, buffer ++ [undo], UpdateAllViews doc)
  | _, _ => Some (false, buffer, doc)
  end.

(** [CPatternUndo::PrepareUndo]. *)
Definition PrepareUndo (doc : CModDoc) (u : CPatternUndo)
           (pat firstChn firstRow numChns numRows : Z) (descr : string)
           (link storeChannelInfo : bool)
  : option (bool * CPatternUndo * CModDoc) :=
  '(ok, buffer, doc') ← PrepareBuffer doc (UndoBuffer u) pat firstChn firstRow
                           numChns numRows descr link storeChannelInfo;
  if ok : bool
  then Some (true, {| UndoBuffer := buffer; RedoBuffer := [] |}, doc')
  else Some (false, {| UndoBuffer := buffer; RedoBuffer := RedoBuffer u |}, doc').

(** "Add or remove channels" and replace the channel settings by the saved
    ones: the block of [Undo] guarded by [!undo.channelInfo.empty()].
    [UpdateChannelMuteStatus] acts on the player, of which the model holds
    nothing. *)
Definition RestoreChannels (snd : CSoundFile) (undo : UndoInfo) : option CSoundFile :=
  match channelInfo undo with
  | [] => Some snd
  | info =>
      let snd1 :=
        if bool_decide (Z.of_nat (length info) = GetNumChannels snd) then snd
        else
          let copyCount := Z.min (GetNumChannels snd) (Z.of_nat (length info)) in
          ReArrangeChannels
            ((Z.of_nat <$> seq 0 (Z.to_nat copyCount))
             ++ replicate (length info - Z.to_nat copyCount)%nat CHANNELINDEX_INVALID)
            snd in
      settings ← write_at (ChnSettings snd1) 0 info;
      Some {| m_nChannels := m_nChannels snd1;
              ChnSettings := settings;
              Patterns := Patterns snd1 |}
  end.

(** The copy of the saved cells back into pattern [p], clipped to the row
    count of [p]. *)
Definition RestoreCells (nch : Z) (p : CPattern) (undo : UndoInfo) : option CPattern :=
  let rows := Z.min (numRows undo) (m_Rows p) in
  cells ← copy_rows (Z.to_nat rows) (content undo) 0 (numChannels undo)
            (m_ModCommands p) (firstRow undo * nch + firstChannel undo) nch
            (numChannels undo);
  Some {| m_Rows := m_Rows p; m_ModCommands := cells |}.

(** The body of [CPatternUndo::Undo(fromBuf, toBuf, linkedFromPrevious)] for
    the step [undo = fromBuf.back()], up to its last statement: the pattern
    index to return, the two buffers, the document, and the local
    [linkToPrevious] that decides whether the function calls itself. *)
Definition UndoStep (doc : CModDoc) (fromBuf toBuf : undobuf_t)
           (linkedFromPrevious : bool) (undo : UndoInfo)
  : option (Z * undobuf_t * undobuf_t * CModDoc * bool) :=
  '(_, toBuf, doc) ← PrepareBuffer doc toBuf (pattern undo)
                       (firstChannel undo) (firstRow undo)
                       (numChannels undo) (numRows undo)
                       (description undo) linkedFromPrevious
                       (negb (bool_decide (channelInfo undo = [])));
  snd ← RestoreChannels (sndFile doc) undo;
  let nPattern := pattern undo in
  if firstChannel undo + numChannels undo <=? GetNumChannels snd then
    let created :=
      match GetPattern snd nPattern with
      | None => Patterns_Insert snd nPattern (numPatternRows undo)
      | Some p =>
          if bool_decide (m_Rows p = numPatternRows undo) then Some snd
          else Some (SetPattern snd nPattern
                       (CPattern_Resize (GetNumChannels snd) p (numPatternRows undo)))
      end in
    match created with
    | None =>
        Some (PATTERNINDEX_INVALID, removelast fromBuf, toBuf,
              with_sndFile doc snd, false)
    | Some snd =>
        p ← GetPattern snd nPattern;
        p' ← RestoreCells (GetNumChannels snd) p undo;
        Some (nPattern, removelast fromBuf, toBuf,
              UpdateAllViews (with_sndFile doc (SetPattern snd nPattern p')),
              linkToPrevious undo)
    end
  else
    Some (nPattern, removelast fromBuf, toBuf,
          UpdateAllViews (with_sndFile doc snd), false).

(** [CPatternUndo::Undo(fromBuf, toBuf, linkedFromPrevious)].  Each call of the
    C++ removes one step of [fromBuf] before it calls itself; [fuel] bounds
    the depth of the recursion. *)
Fixpoint UndoFromTo (fuel : nat) (doc : CModDoc) (fromBuf toBuf : undobuf_t)
         (linkedFromPrevious : bool)
  : option (Z * undobuf_t * undobuf_t * CModDoc) :=
  match last fromBuf with
  | None => Some (PATTERNINDEX_INVALID, fromBuf, toBuf, doc)
  | Some undo =>
      match fuel with
      | O => None
      | S fuel' =>
          '(nPattern, fromBuf, toBuf, doc, link) ←
            UndoStep doc fromBuf toBuf linkedFromPrevious undo;
          if link : bool
          then UndoFromTo fuel' doc fromBuf toBuf true
          else Some (nPattern, fromBuf, toBuf, doc)
      end
  end.

(** [CPatternUndo::Undo()] and [CPatternUndo::Redo()]. *)
Definition Undo (doc : CModDoc) (u : CPatternUndo)
  : option (Z * CPatternUndo * CModDoc) :=
  '(pat, fromBuf, toBuf, doc') ←
    UndoFromTo (length (UndoBuffer u)) doc (UndoBuffer u) (RedoBuffer u) false;
  Some (pat, {| UndoBuffer := fromBuf; RedoBuffer := toBuf |}, doc').

Definition Redo (doc : CModDoc) (u : CPatternUndo)
  : option (Z * CPatternUndo * CModDoc) :=
  '(pat, fromBuf, toBuf, doc') ←
    UndoFromTo (length (RedoBuffer u)) doc (RedoBuffer u) (UndoBuffer u) false;
  Some (pat, {| UndoBuffer := toBuf; RedoBuffer := fromBuf |}, doc').

(** [CPatternUndo::RemoveLastUndoStep]. *)
Definition RemoveLastUndoStep (u : CPatternUndo) : CPatternUndo :=
  {| UndoBuffer := removelast (UndoBuffer u); RedoBuffer := RedoBuffer u |}.

(** [CPatternUndo::ClearUndo]. *)
Definition ClearUndo (u : CPatternUndo) : CPatternUndo :=
  {| UndoBuffer := []; RedoBuffer := [] |}.

(** The body of the loop of [RearrangePatterns(buffer, newIndex)] for one
    step.  [PATTERNINDEX] is unsigned: [step.pattern] is not negative. *)
Definition RearrangePattern (newIndex : list Z) (step : UndoInfo) : UndoInfo :=
  if pattern step <? Z.of_nat (length newIndex)
  then {| pattern := default (pattern step) (newIndex !! Z.to_nat (pattern step));
          numPatternRows := numPatternRows step;
          firstChannel := firstChannel step;
          firstRow := firstRow step;
          numChannels := numChannels step;
          numRows := numRows step;
          content := content step;
          channelInfo := channelInfo step;
          linkToPrevious := linkToPrevious step;
          description := description step |}
  else step.

(** [CPatternUndo::RearrangePatterns(buffer, newIndex)]. *)
Definition RearrangePatternsIn (buffer : undobuf_t) (newIndex : list Z) : undobuf_t :=
  RearrangePattern newIndex <$> buffer.

(** [CPatternUndo::RearrangePatterns(newIndex)]. *)
Definition RearrangePatterns (u : CPatternUndo) (newIndex : list Z) : CPatternUndo :=
  {| UndoBuffer := RearrangePatternsIn (UndoBuffer u) newIndex;
     RedoBuffer := RearrangePatternsIn (RedoBuffer u) newIndex |}.

End Engine.

Abbreviation undobuf_t := (list UndoInfo) (only parsing).

End CPatternUndo.

(** ** Sample undo *)

Module CSampleUndo.

(** The kinds of change an undo step of a sample can describe. *)
Inductive sampleUndoTypes :=
| sundo_none
| sundo_invert
| sundo_reverse
| sundo_unsign
| sundo_insert
| sundo_update
| sundo_delete
| sundo_replace.

Global Instance sampleUndoTypes_eq_dec : EqDecision sampleUndoTypes.
Proof. solve_decision. Defined.

(** A sample header with its data.  [pData] is the raw sample buffer
    ([None] for a null pointer).  The header fields that Undo.cpp never looks
    at (loop points, volume, ...) are left out: the struct assignments of the
    C++ copy them along with these. *)
Record ModSample := {
  nLength : Z;
  uFlags : Z;
  pData : option (list Byte.byte);
}.

(** What the sample engine takes from the rest of the program. *)
Class Externals := {
  (** number of sample slots; slot 0 is not a sample *)
  MAX_SAMPLES : nat;
  (** maximum number of steps of one sample's undo buffer *)
  MAX_UNDO_LEVEL : Z;
  (** width of [SmpLength], the unsigned type of sample positions *)
  SmpLength_bits : Z;
  (** the bits of [uFlags] that Undo.cpp sets, clears or tests *)
  SMP_KEEPONDISK : Z;
  SMP_MODIFIED : Z;
  GetBytesPerSample : ModSample -> Z;
  HasSampleData : ModSample -> bool;
  (** whether [ModSample::AllocateSample(numFrames, bytesPerSample)] returns a
      buffer rather than a null pointer *)
  AllocateSample_ok : Z -> Z -> bool;
  (** [ctrlSmp::InvertSample], [ReverseSample] and [UnsignSample] on the
      frames [start, end) of a sample *)
  InvertSample : ModSample -> Z -> Z -> ModSample;
  ReverseSample : ModSample -> Z -> Z -> ModSample;
  UnsignSample : ModSample -> Z -> Z -> ModSample;
  (** [ctrlSmp::ReplaceSample(sample, pNewSample, newLength, sndFile)] *)
  ReplaceSample : ModSample -> option (list Byte.byte) -> Z -> ModSample;
  PrecomputeLoops : ModSample -> ModSample;
}.

(** [FlagSet]: [operator[]] (test), [set] and [reset] of one flag. *)
Definition flag_test (flags flag : Z) : bool := negb (Z.land flags flag =? 0).
Definition flag_set (flags flag : Z) : Z := Z.lor flags flag.
Definition flag_reset (flags flag : Z) : Z := Z.land flags (Z.lnot flag).

Definition with_uFlags (s : ModSample) (flags : Z) : ModSample :=
  {| nLength := nLength s; uFlags := flags; pData := pData s |}.

Definition with_pData (s : ModSample) (p : option (list Byte.byte)) : ModSample :=
  {| nLength := nLength s; uFlags := uFlags s; pData := p |}.

Section Engine.
Context `{Ext : Externals}.

(** The configured size of the sample undo buffer, in bytes
    ([TrackerSettings::Instance().m_SampleUndoBufferSize]). *)
Variable SampleUndoBufferSize : Z.

(** [SmpLength] arithmetic. *)
Definition smp_sub (a b : Z) : Z := wrap SmpLength_bits (a - b).
Definition smp_mul (a b : Z) : Z := wrap SmpLength_bits (a * b).

Record CSoundFile := {
  Samples : nat -> ModSample;
  m_szNames : nat -> string;
}.

(** The document: the sound file, the number of [UpdateAllViews] calls made
    with the undo hint, and the modified flag set by [SetModified]. *)
Record CModDoc := {
  sndFile : CSoundFile;
  updates : nat;
  modified : bool;
}.

(** One undo step.  [OldSample] is the saved header; its [pData] is a stale
    copy of the pointer and is never followed.  [samplePtr] is the buffer the
    step owns ([None] for a null pointer). *)
Record UndoInfo := {
  OldSample : ModSample;
  oldName : string;
  description : string;
  changeType : sampleUndoTypes;
  changeStart : Z;
  changeEnd : Z;
  samplePtr : option (list Byte.byte);
}.

(** One vector of steps per sample; sample [smp] has slot [smp - 1]. *)
Abbreviation undobuf_t := (list (list UndoInfo)) (only parsing).

Record CSampleUndo := {
  UndoBuffer : undobuf_t;
  RedoBuffer : undobuf_t;
}.

(** Which of the two members a [undobuf_t &] parameter refers to. *)
Inductive bufsel := SelUndo | SelRedo.

Definition other (sel : bufsel) : bufsel :=
  match sel with SelUndo => SelRedo | SelRedo => SelUndo end.

Definition get_buf (sel : bufsel) (u : CSampleUndo) : undobuf_t :=
  match sel with SelUndo => UndoBuffer u | SelRedo => RedoBuffer u end.

Definition set_buf (sel : bufsel) (u : CSampleUndo) (b : undobuf_t) : CSampleUndo :=
  match sel with
  | SelUndo => {| UndoBuffer := b; RedoBuffer := RedoBuffer u |}
  | SelRedo => {| UndoBuffer := UndoBuffer u; RedoBuffer := b |}
  end.

(** [buffer[smp - 1]]; the empty vector stands in where there is no slot. *)
Definition steps (buffer : undobuf_t) (smp : nat) : list UndoInfo :=
  default [] (buffer !! (smp - 1)%nat).

Definition GetSample (snd : CSoundFile) (smp : nat) : ModSample := Samples snd smp.

Definition SetSample (snd : CSoundFile) (smp : nat) (s : ModSample) (name : string)
  : CSoundFile :=
  {| Samples := fun i => if (i =? smp)%nat then s else Samples snd i;
     m_szNames := fun i => if (i =? smp)%nat then name else m_szNames snd i |}.

Definition UpdateAllViews (doc : CModDoc) : CModDoc :=
  {| sndFile := sndFile doc; updates := S (updates doc); modified := modified doc |}.

Definition SetModified (doc : CModDoc) : CModDoc :=
  {| sndFile := sndFile doc; updates := updates doc; modified := true |}.

Definition with_sndFile (doc : CModDoc) (snd : CSoundFile) : CModDoc :=
  {| sndFile := snd; updates := updates doc; modified := modified doc |}.

(** [CSampleUndo::SampleBufferExists]. *)
Definition SampleBufferExists (buffer : undobuf_t) (smp : nat) : bool :=
  if (smp =? 0)%nat || (MAX_SAMPLES <=? smp)%nat then false
  else (smp <=? length buffer)%nat.

(** [CSampleUndo::DeleteStep]: frees the step's buffer and erases the step. *)
Definition DeleteStep (buffer : undobuf_t) (smp : nat) (step : nat) : undobuf_t :=
  if negb (SampleBufferExists buffer smp)
     || (length (steps buffer smp) <=? step)%nat
  then buffer
  else alter (delete step) (smp - 1)%nat buffer.

(** [CSampleUndo::ClearUndo(buffer, smp)]: one [DeleteStep] per step held. *)
Definition ClearUndo (buffer : undobuf_t) (smp : nat) : undobuf_t :=
  if negb (SampleBufferExists buffer smp) then buffer
  else Nat.iter (length (steps buffer smp)) (fun b => DeleteStep b smp 0) buffer.

(** The bytes a step accounts for: [(changeEnd - changeStart) *
    OldSample.GetBytesPerSample()], a [SmpLength] product. *)
Definition stepBytes (s : UndoInfo) : Z :=
  smp_mul (smp_sub (changeEnd s) (changeStart s)) (GetBytesPerSample (OldSample s)).

(** [CSampleUndo::GetBufferCapacity].  The sum is a [size_t]; it counts
    buffers that exist in memory together and is not reduced. *)
Definition stepCapacity (s : UndoInfo) : Z :=
  if samplePtr s is Some _ then stepBytes s else 0.

Definition GetBufferCapacity (buffer : undobuf_t) : Z :=
  foldr (fun smp sum => foldr (fun step sum => stepCapacity step + sum) sum smp)
        0 buffer.

(** Position and value of the first step that owns a buffer (the inner loop
    of [RestrictBufferSize(buffer, capacity)]). *)
Fixpoint firstOwned (i : nat) (stack : list UndoInfo) : option (nat * UndoInfo) :=
  match stack with
  | [] => None
  | s :: rest => if samplePtr s is Some _ then Some (i, s) else firstOwned (S i) rest
  end.

(** One round of the [smp] loop of [RestrictBufferSize(buffer, capacity)]. *)
Definition RestrictSlot (buffer : undobuf_t) (smp : nat) (capacity : Z)
  : undobuf_t * Z :=
  match firstOwned 0 (steps buffer smp) with
  | Some (i, s) =>
      (Nat.iter (S i) (fun b => DeleteStep b smp 0) buffer, capacity - stepBytes s)
  | None => (buffer, capacity)
  end.

Fixpoint RestrictSlots (smps : list nat) (buffer : undobuf_t) (capacity : Z)
  : undobuf_t * Z :=
  match smps with
  | [] => (buffer, capacity)
  | smp :: rest =>
      if capacity <=? SampleUndoBufferSize then (buffer, capacity)
      else let '(buffer, capacity) := RestrictSlot buffer smp capacity in
           RestrictSlots rest buffer capacity
  end.

(** [CSampleUndo::RestrictBufferSize(buffer, capacity)]. *)
Definition RestrictBuffer (buffer : undobuf_t) (capacity : Z) : undobuf_t * Z :=
  RestrictSlots (seq 1 (length buffer)) buffer capacity.

(** The [while] loop of [CSampleUndo::RestrictBufferSize()]; [None] when
    [fuel] rounds do not end it. *)
Fixpoint RestrictRounds (fuel : nat) (u : CSampleUndo) (capacity : Z)
  : option CSampleUndo :=
  if capacity <=? SampleUndoBufferSize then Some u
  else match fuel with
       | O => None
       | S fuel' =>
           let '(ub, capacity) := RestrictBuffer (UndoBuffer u) capacity in
           let '(rb, capacity) := RestrictBuffer (RedoBuffer u) capacity in
           RestrictRounds fuel' {| UndoBuffer := ub; RedoBuffer := rb |} capacity
       end.

Definition countSteps (buffer : undobuf_t) : nat :=
  foldr (fun smp n => (length smp + n)%nat) 0%nat buffer.

(** [CSampleUndo::RestrictBufferSize()].  Every round that starts above the
    limit erases a step, so one round per step held is enough. *)
Definition RestrictBufferSize (u : CSampleUndo) : option CSampleUndo :=
  RestrictRounds (countSteps (UndoBuffer u) + countSteps (RedoBuffer u))
                 u (GetBufferCapacity (UndoBuffer u) + GetBufferCapacity (RedoBuffer u)).

(** "Remove an undo step if there are too many": the [while] loop at the head
    of [PrepareBuffer]; [None] when [fuel] rounds do not end it. *)
Fixpoint EvictWhileFull (fuel : nat) (buffer : undobuf_t) (smp : nat)
  : option undobuf_t :=
  if MAX_UNDO_LEVEL <=? Z.of_nat (length (steps buffer smp))
  then match fuel with
       | O => None
       | S fuel' => EvictWhileFull fuel' (DeleteStep buffer smp 0) smp
       end
  else Some buffer.

(** The range of the step: forced for [sundo_replace] and [sundo_none]. *)
Definition ForcedRange (oldSample : ModSample) (changeType : sampleUndoTypes)
           (changeStart changeEnd : Z) : Z * Z :=
  match changeType with
  | sundo_replace => (0, nLength oldSample)
  | sundo_none => (0, 0)
  | _ => (changeStart, changeEnd)
  end.

(** Whether a step of this kind saves sample data. *)
Definition savesData (changeType : sampleUndoTypes) : bool :=
  match changeType with
  | sundo_update | sundo_delete | sundo_replace => true
  | _ => false
  end.

(** Modelled from the spec: [ModSample::AllocateSample] is not part of
    Undo.cpp; "allocate ... a raw sample buffer of given length and
    bytes-per-frame".  The buffer is zeroed. *)
Definition AllocateSample (numFrames bytesPerSample : Z) : option (list Byte.byte) :=
  if AllocateSample_ok numFrames bytesPerSample
  then Some (replicate (Z.to_nat (numFrames * bytesPerSample)) Byte.x00)
  else None.

(** [memcpy(dst + doff, src + soff, n)]; a null pointer cannot be read or
    written. *)
Definition memcpy (dst : option (list Byte.byte)) (doff : Z)
           (src : option (list Byte.byte)) (soff n : Z) : option (list Byte.byte) :=
  d ← dst; s ← src; bytes ← read_at s soff n; write_at d doff bytes.

(** [memset(dst + doff, 0, n)]. *)
Definition memset0 (dst : option (list Byte.byte)) (doff n : Z)
  : option (list Byte.byte) :=
  d ← dst;
  if 0 <=? n then write_at d doff (replicate (Z.to_nat n) Byte.x00) else None.

(** [CSampleUndo::PrepareBuffer]; [sel] names the buffer passed in.  The
    result is [None] when memory outside a buffer is accessed or a loop does
    not end; else the returned [bool], the two buffers and the document. *)
Definition PrepareBuffer (doc : CModDoc) (u : CSampleUndo) (sel : bufsel)
           (smp : nat) (changeType : sampleUndoTypes) (descr : string)
           (changeStart changeEnd : Z)
  : option (bool * CSampleUndo * CModDoc) :=
  if (smp =? 0)%nat || (MAX_SAMPLES <=? smp)%nat then Some (false, u, doc)
  else if SampleUndoBufferSize =? 0 then Some (false, u, doc)
  else
    let buffer := get_buf sel u in
    let buffer := if (length buffer <? smp)%nat then resize smp [] buffer else buffer in
    buffer ← EvictWhileFull (length (steps buffer smp)) buffer smp;
    let u := set_buf sel u buffer in
    let oldSample := GetSample (sndFile doc) smp in
    let '(changeStart, changeEnd) :=
      ForcedRange oldSample changeType changeStart changeEnd in
    if (nLength oldSample <? changeStart) || (changeEnd <? changeStart)
    then Some (false, u, doc)
    else
      u ← RestrictBufferSize u;
      let finish (ptr : option (list Byte.byte)) :=
        let undo :=
          {| OldSample := oldSample;
             oldName := m_szNames (sndFile doc) smp;
             description := descr;
             changeType := changeType;
             changeStart := changeStart;
             changeEnd := changeEnd;
             samplePtr := ptr |} in
        Some (true,
              set_buf sel u (alter (fun s => s ++ [undo]) (smp - 1)%nat (get_buf sel u)),
              UpdateAllViews doc) in
      if savesData changeType && HasSampleData oldSample then
        let bytesPerSample := GetBytesPerSample oldSample in
        let changeLen := smp_sub changeEnd changeStart in
        match AllocateSample changeLen bytesPerSample with
        | None => Some (false, u, doc)
        | Some fresh =>
            ptr ← memcpy (Some fresh) 0 (pData oldSample)
                    (smp_mul changeStart bytesPerSample)
                    (smp_mul changeLen bytesPerSample);
            finish (Some ptr)
        end
      else finish None.

(** [CSampleUndo::PrepareUndo]. *)
Definition PrepareUndo (doc : CModDoc) (u : CSampleUndo) (smp : nat)
           (changeType : sampleUndoTypes) (descr : string)
           (changeStart changeEnd : Z)
  : option (bool * CSampleUndo * CModDoc) :=
  '(ok, u, doc) ← PrepareBuffer doc u SelUndo smp changeType descr
                     changeStart changeEnd;
  if ok : bool
  then Some (true, set_buf SelRedo u (ClearUndo (RedoBuffer u) smp), doc)
  else Some (false, u, doc).

(** The kind under which undoing a step captures the current state: "some
    action types need to be adjusted". *)
Definition redoType (changeType : sampleUndoTypes) : sampleUndoTypes :=
  match changeType with
  | sundo_delete => sundo_insert
  | sundo_insert => sundo_delete
  | other => other
  end.

(** What the [switch] of [Undo] hands on: a [return false], or the data of
    the live sample, the new buffer if any, and the step (whose buffer
    [sundo_replace] takes away). *)
Inductive restored :=
| RestoreFailed
| Restored (pCurrentSample pNewSample : option (list Byte.byte))
           (replace : bool) (undo : UndoInfo).

(** The [switch (undo.changeType)] of [CSampleUndo::Undo]. *)
Definition RestoreData (sample : ModSample) (undo : UndoInfo) : option restored :=
  let pCurrentSample := pData sample in
  let bytesPerSample := GetBytesPerSample (OldSample undo) in
  let changeLen := smp_sub (changeEnd undo) (changeStart undo) in
  let keep (s : ModSample) := Some (Restored (pData s) None false undo) in
  match changeType undo with
  | sundo_none => keep sample
  | sundo_invert => keep (InvertSample sample (changeStart undo) (changeEnd undo))
  | sundo_reverse => keep (ReverseSample sample (changeStart undo) (changeEnd undo))
  | sundo_unsign => keep (UnsignSample sample (changeStart undo) (changeEnd undo))
  | sundo_insert =>
      moved ← memcpy pCurrentSample (smp_mul (changeStart undo) bytesPerSample)
                pCurrentSample (smp_mul (changeEnd undo) bytesPerSample)
                (smp_mul (smp_sub (nLength sample) (changeEnd undo)) bytesPerSample);
      cleaned ← memset0 (Some moved)
                  (smp_mul (nLength (OldSample undo)) bytesPerSample)
                  (smp_mul (smp_sub (nLength sample) (nLength (OldSample undo)))
                           bytesPerSample);
      Some (Restored (Some cleaned) None false undo)
  | sundo_update =>
      if nLength sample <? changeEnd undo then Some RestoreFailed
      else
        updated ← memcpy pCurrentSample (smp_mul (changeStart undo) bytesPerSample)
                    (samplePtr undo) 0 (smp_mul changeLen bytesPerSample);
        Some (Restored (Some updated) None false undo)
  | sundo_delete =>
      match AllocateSample (nLength (OldSample undo)) bytesPerSample with
      | None => Some RestoreFailed
      | Some fresh =>
          n1 ← memcpy (Some fresh) 0 pCurrentSample 0
                 (smp_mul (changeStart undo) bytesPerSample);
          n2 ← memcpy (Some n1) (smp_mul (changeStart undo) bytesPerSample)
                 (samplePtr undo) 0 (smp_mul changeLen bytesPerSample);
          n3 ← memcpy (Some n2) (smp_mul (changeEnd undo) bytesPerSample)
                 pCurrentSample (smp_mul (changeStart undo) bytesPerSample)
                 (smp_mul (smp_sub (nLength (OldSample undo)) (changeEnd undo))
                          bytesPerSample);
          Some (Restored pCurrentSample (Some n3) true undo)
      end
  | sundo_replace =>
      Some (Restored pCurrentSample (samplePtr undo) true
              {| OldSample := OldSample undo;
                 oldName := oldName undo;
                 description := description undo;
                 changeType := changeType undo;
                 changeStart := changeStart undo;
                 changeEnd := changeEnd undo;
                 samplePtr := None |})
  end.

(** "Restore old sample header" and the flag updates that follow it. *)
Definition RestoreHeader (keepOnDisk : bool) (undo : UndoInfo)
           (pCurrentSample pNewSample : option (list Byte.byte)) (replace : bool)
  : ModSample :=
  let sample := with_pData (OldSample undo) pCurrentSample in
  let sample :=
    if replace then ReplaceSample sample pNewSample (nLength (OldSample undo))
    else sample in
  let sample := PrecomputeLoops sample in
  let sample :=
    if bool_decide (changeType undo = sundo_none) then sample
    else with_uFlags sample (flag_set (uFlags sample) SMP_MODIFIED) in
  if keepOnDisk then sample
  else with_uFlags sample (flag_reset (uFlags sample) SMP_KEEPONDISK).

(** [CSampleUndo::Undo(fromBuf, toBuf, smp)]; [from] names [fromBuf], and
    [toBuf] is the other buffer. *)
Definition UndoFromTo (doc : CModDoc) (u : CSampleUndo) (from : bufsel) (smp : nat)
  : option (bool * CSampleUndo * CModDoc) :=
  if negb (SampleBufferExists (get_buf from u) smp) then Some (false, u, doc)
  else
    match last (steps (get_buf from u) smp) with
    | None => Some (false, u, doc)
    | Some undo =>
        let u := set_buf from u (alter (fun s => removelast s) (smp - 1)%nat (get_buf from u)) in
        '(_, u, doc) ← PrepareBuffer doc u (other from) smp
                          (redoType (changeType undo)) (description undo)
                          (changeStart undo) (changeEnd undo);
        let sample := GetSample (sndFile doc) smp in
        let keepOnDisk := flag_test (uFlags sample) SMP_KEEPONDISK in
        r ← RestoreData sample undo;
        match r with
        | RestoreFailed => Some (false, u, doc)
        | Restored pCurrentSample pNewSample replace undo =>
            let sample := RestoreHeader keepOnDisk undo pCurrentSample pNewSample replace in
            let doc := with_sndFile doc (SetSample (sndFile doc) smp sample (oldName undo)) in
            let fromBuf := alter (fun s => s ++ [undo]) (smp - 1)%nat (get_buf from u) in
            let fromBuf := DeleteStep fromBuf smp (length (steps fromBuf smp) - 1)%nat in
            Some (true, set_buf from u fromBuf, SetModified (UpdateAllViews doc))
        end
    end.

(** [CSampleUndo::Undo(smp)] and [CSampleUndo::Redo(smp)]. *)
Definition Undo (doc : CModDoc) (u : CSampleUndo) (smp : nat) :=
  UndoFromTo doc u SelUndo smp.

Definition Redo (doc : CModDoc) (u : CSampleUndo) (smp : nat) :=
  UndoFromTo doc u SelRedo smp.

(** [CSampleUndo::RemoveLastUndoStep]; [CanUndo(smp)] holds when sample
    [smp] has a step on [UndoBuffer]. *)
Definition RemoveLastUndoStep (u : CSampleUndo) (smp : nat) : CSampleUndo :=
  if negb (SampleBufferExists (UndoBuffer u) smp)
     || bool_decide (steps (UndoBuffer u) smp = [])
  then u
  else set_buf SelUndo u
         (DeleteStep (UndoBuffer u) smp (length (steps (UndoBuffer u) smp) - 1)%nat).

(** Modelled from the spec: the queries "can undo" and "can redo" of a
    sample, which are declared with the class; they hold when the sample has
    a buffer and the buffer holds a step. *)
Definition CanUndo (u : CSampleUndo) (smp : nat) : bool :=
  SampleBufferExists (UndoBuffer u) smp
  && negb (bool_decide (steps (UndoBuffer u) smp = [])).

Definition CanRedo (u : CSampleUndo) (smp : nat) : bool :=
  SampleBufferExists (RedoBuffer u) smp
  && negb (bool_decide (steps (RedoBuffer u) smp = [])).

(** [CSampleUndo::GetUndoName] and [CSampleUndo::GetRedoName]: "Get name of
    next undo item".  [None] stands for [back()] of an empty vector. *)
Definition GetUndoName (u : CSampleUndo) (smp : nat) : option string :=
  if negb (CanUndo u smp) then Some EmptyString
  else description <$> last (steps (UndoBuffer u) smp).

Definition GetRedoName (u : CSampleUndo) (smp : nat) : option string :=
  if negb (CanRedo u smp) then Some EmptyString
  else description <$> last (steps (RedoBuffer u) smp).

End Engine.

Abbreviation undobuf_t := (list (list UndoInfo)) (only parsing).

End CSampleUndo.

(** ** Instrument undo *)

Module CInstrumentUndo.

(** The envelope an undo step is about; [ENV_MAXTYPES] stands for the whole
    instrument. *)
Inductive EnvelopeType := ENV_VOLUME | ENV_PANNING | ENV_PITCH | ENV_MAXTYPES.

Global Instance EnvelopeType_eq_dec : EqDecision EnvelopeType.
Proof. solve_decision. Defined.

(** [envType < ENV_MAXTYPES]. *)
Definition is_envelope (envType : EnvelopeType) : bool :=
  match envType with ENV_MAXTYPES => false | _ => true end.

(** What the instrument engine takes from the rest of the program. *)
Class Externals := {
  (** number of instrument slots; slot 0 is not an instrument *)
  MAX_INSTRUMENTS : nat;
  (** maximum number of steps of one instrument's undo buffer *)
  MAX_UNDO_LEVEL : Z;
  (** an envelope curve, and the envelope of a default-constructed instrument *)
  InstrumentEnvelope : Type;
  InstrumentEnvelope_default : InstrumentEnvelope;
  (** the note-to-sample table of a default-constructed instrument *)
  Keyboard_default : list nat;
}.

Section Engine.
Context `{Ext : Externals}.

(** An instrument: the note-to-sample table [Keyboard] and the three
    envelopes.  The fields that Undo.cpp never looks at are left out: the
    struct assignments of the C++ copy them along with these. *)
Record ModInstrument := {
  Keyboard : list nat;
  VolEnv : InstrumentEnvelope;
  PanEnv : InstrumentEnvelope;
  PitchEnv : InstrumentEnvelope;
}.

(** A default-constructed [ModInstrument]. *)
Definition ModInstrument_default : ModInstrument :=
  {| Keyboard := Keyboard_default;
     VolEnv := InstrumentEnvelope_default;
     PanEnv := InstrumentEnvelope_default;
     PitchEnv := InstrumentEnvelope_default |}.

(** [ModInstrument::GetEnvelope(envType)], read and assigned. *)
Definition GetEnvelope (instr : ModInstrument) (envType : EnvelopeType)
  : InstrumentEnvelope :=
  match envType with
  | ENV_PANNING => PanEnv instr
  | ENV_PITCH => PitchEnv instr
  | _ => VolEnv instr
  end.

Definition SetEnvelope (instr : ModInstrument) (envType : EnvelopeType)
           (env : InstrumentEnvelope) : ModInstrument :=
  match envType with
  | ENV_PANNING =>
      {| Keyboard := Keyboard instr; VolEnv := VolEnv instr;
         PanEnv := env; PitchEnv := PitchEnv instr |}
  | ENV_PITCH =>
      {| Keyboard := Keyboard instr; VolEnv := VolEnv instr;
         PanEnv := PanEnv instr; PitchEnv := env |}
  | _ =>
      {| Keyboard := Keyboard instr; VolEnv := env;
         PanEnv := PanEnv instr; PitchEnv := PitchEnv instr |}
  end.

(** [Instruments[ins]] is [None] for a null pointer. *)
Record CSoundFile := {
  Instruments : nat -> option ModInstrument;
}.

Record CModDoc := {
  sndFile : CSoundFile;
  updates : nat;
  modified : bool;
}.

Record UndoInfo := {
  instr : ModInstrument;
  description : string;
  editedEnvelope : EnvelopeType;
}.

(** One vector of steps per instrument; instrument [ins] has slot [ins - 1]. *)
Abbreviation undobuf_t := (list (list UndoInfo)) (only parsing).

Record CInstrumentUndo := {
  UndoBuffer : undobuf_t;
  RedoBuffer : undobuf_t;
}.

Definition steps (buffer : undobuf_t) (ins : nat) : list UndoInfo :=
  default [] (buffer !! (ins - 1)%nat).

Definition SetInstrument (snd : CSoundFile) (ins : nat) (i : ModInstrument)
  : CSoundFile :=
  {| Instruments := fun k => if (k =? ins)%nat then Some i else Instruments snd k |}.

Definition UpdateAllViews (doc : CModDoc) : CModDoc :=
  {| sndFile := sndFile doc; updates := S (updates doc); modified := modified doc |}.

Definition SetModified (doc : CModDoc) : CModDoc :=
  {| sndFile := sndFile doc; updates := updates doc; modified := true |}.

(** [CInstrumentUndo::InstrumentBufferExists]. *)
Definition InstrumentBufferExists (buffer : undobuf_t) (ins : nat) : bool :=
  if (ins =? 0)%nat || (MAX_INSTRUMENTS <=? ins)%nat then false
  else (ins <=? length buffer)%nat.

(** [CInstrumentUndo::ClearUndo(buffer, ins)]. *)
Definition ClearUndo (buffer : undobuf_t) (ins : nat) : undobuf_t :=
  if negb (InstrumentBufferExists buffer ins) then buffer
  else alter (fun _ => []) (ins - 1)%nat buffer.

(** [CInstrumentUndo::DeleteStep]. *)
Definition DeleteStep (buffer : undobuf_t) (ins : nat) (step : nat) : undobuf_t :=
  if negb (InstrumentBufferExists buffer ins)
     || (length (steps buffer ins) <=? step)%nat
  then buffer
  else alter (delete step) (ins - 1)%nat buffer.

(** "Remove undo steps if there are too many." *)
Definition EvictOldest (insBuffer : list UndoInfo) : list UndoInfo :=
  if MAX_UNDO_LEVEL <=? Z.of_nat (length insBuffer)
  then drop (Z.to_nat (Z.of_nat (length insBuffer) - MAX_UNDO_LEVEL + 1)) insBuffer
  else insBuffer.

(** [CInstrumentUndo::PrepareBuffer]: the returned [bool], the buffer and the
    document. *)
Definition PrepareBuffer (doc : CModDoc) (buffer : undobuf_t) (ins : nat)
           (descr : string) (envType : EnvelopeType)
  : bool * undobuf_t * CModDoc :=
  if (ins =? 0)%nat || (MAX_INSTRUMENTS <=? ins)%nat then (false, buffer, doc)
  else
    match Instruments (sndFile doc) ins with
    | None => (false, buffer, doc)
    | Some live =>
        let buffer := if (length buffer <? ins)%nat then resize ins [] buffer else buffer in
        let undo :=
          {| instr :=
               if is_envelope envType
               then SetEnvelope ModInstrument_default envType (GetEnvelope live envType)
               else live;
             description := descr;
             editedEnvelope := envType |} in
        (true,
         alter (fun insBuffer => EvictOldest insBuffer ++ [undo]) (ins - 1)%nat buffer,
         UpdateAllViews doc)
    end.

(** [CInstrumentUndo::PrepareUndo]. *)
Definition PrepareUndo (doc : CModDoc) (u : CInstrumentUndo) (ins : nat)
           (descr : string) (envType : EnvelopeType)
  : bool * CInstrumentUndo * CModDoc :=
  let '(ok, buffer, doc') := PrepareBuffer doc (UndoBuffer u) ins descr envType in
  if ok : bool
  then (true, {| UndoBuffer := buffer; RedoBuffer := ClearUndo (RedoBuffer u) ins |}, doc')
  else (false, {| UndoBuffer := buffer; RedoBuffer := RedoBuffer u |}, doc').

(** The read [sndFile.Instruments[ins]].  The array has [MAX_INSTRUMENTS]
    entries: [None] stands for a read past its end, [Some None] for a null
    pointer. *)
Definition InstrumentAt (snd : CSoundFile) (ins : nat) : option (option ModInstrument) :=
  if (MAX_INSTRUMENTS <=? ins)%nat then None else Some (Instruments snd ins).

(** [CInstrumentUndo::Undo(fromBuf, toBuf, ins)].  [Instruments[ins]] is
    read before the instrument number is checked: the result is [None] when
    that read is past the end of the array. *)
Definition UndoFromTo (doc : CModDoc) (fromBuf toBuf : undobuf_t) (ins : nat)
  : option (bool * undobuf_t * undobuf_t * CModDoc) :=
  instrument ← InstrumentAt (sndFile doc) ins;
  match instrument with
  | None => Some (false, fromBuf, toBuf, doc)
  | Some live =>
      if negb (InstrumentBufferExists fromBuf ins)
      then Some (false, fromBuf, toBuf, doc)
      else
        match last (steps fromBuf ins) with
        | None => Some (false, fromBuf, toBuf, doc)
        | Some undo =>
            let '(_, toBuf, doc) :=
              PrepareBuffer doc toBuf ins (description undo) (editedEnvelope undo) in
            let restored :=
              if is_envelope (editedEnvelope undo)
              then SetEnvelope live (editedEnvelope undo)
                     (GetEnvelope (instr undo) (editedEnvelope undo))
              else instr undo in
            let doc :=
              {| sndFile := SetInstrument (sndFile doc) ins restored;
                 updates := updates doc;
                 modified := modified doc |} in
            Some (true,
                  DeleteStep fromBuf ins (length (steps fromBuf ins) - 1)%nat,
                  toBuf,
                  SetModified (UpdateAllViews doc))
        end
  end.

(** [CInstrumentUndo::Undo(ins)] and [CInstrumentUndo::Redo(ins)]. *)
Definition Undo (doc : CModDoc) (u : CInstrumentUndo) (ins : nat)
  : option (bool * CInstrumentUndo * CModDoc) :=
  '(ok, fromBuf, toBuf, doc') ← UndoFromTo doc (UndoBuffer u) (RedoBuffer u) ins;
  Some (ok, {| UndoBuffer := fromBuf; RedoBuffer := toBuf |}, doc').

Definition Redo (doc : CModDoc) (u : CInstrumentUndo) (ins : nat)
  : option (bool * CInstrumentUndo * CModDoc) :=
  '(ok, fromBuf, toBuf, doc') ← UndoFromTo doc (RedoBuffer u) (UndoBuffer u) ins;
  Some (ok, {| UndoBuffer := toBuf; RedoBuffer := fromBuf |}, doc').

(** Modelled from the spec: the query "can undo" of an instrument, which is
    declared with the class; it holds when the instrument has a buffer and
    the buffer holds a step. *)
Definition CanUndo (u : CInstrumentUndo) (ins : nat) : bool :=
  InstrumentBufferExists (UndoBuffer u) ins
  && negb (bool_decide (steps (UndoBuffer u) ins = [])).

(** [CInstrumentUndo::RemoveLastUndoStep]. *)
Definition RemoveLastUndoStep (u : CInstrumentUndo) (ins : nat) : CInstrumentUndo :=
  if negb (CanUndo u ins)
  then u
  else {| UndoBuffer :=
            DeleteStep (UndoBuffer u) ins (length (steps (UndoBuffer u) ins) - 1)%nat;
          RedoBuffer := RedoBuffer u |}.

(** Modelled from the spec: the query "can redo" of an instrument, the
    counterpart of [CanUndo] on the redo buffer. *)
Definition CanRedo (u : CInstrumentUndo) (ins : nat) : bool :=
  InstrumentBufferExists (RedoBuffer u) ins
  && negb (bool_decide (steps (RedoBuffer u) ins = [])).

(** [CInstrumentUndo::GetUndoName] and [CInstrumentUndo::GetRedoName]: "Get
    name of next undo item".  [None] stands for [back()] of an empty
    vector. *)
Definition GetUndoName (u : CInstrumentUndo) (ins : nat) : option string :=
  if negb (CanUndo u ins) then Some EmptyString
  else description <$> last (steps (UndoBuffer u) ins).

Definition GetRedoName (u : CInstrumentUndo) (ins : nat) : option string :=
  if negb (CanRedo u ins) then Some EmptyString
  else description <$> last (steps (RedoBuffer u) ins).

(** The new value of one [Keyboard] entry in [RearrangeSamples]. *)
Definition RearrangeEntry (newIndex : list nat) (sample : nat) : nat :=
  if (sample <? length newIndex)%nat then default 0%nat (newIndex !! sample)
  else 0%nat.

Definition RearrangeStep (newIndex : list nat) (i : UndoInfo) : UndoInfo :=
  if is_envelope (editedEnvelope i) then i
  else {| instr :=
            {| Keyboard := RearrangeEntry newIndex <$> Keyboard (instr i);
               VolEnv := VolEnv (instr i);
               PanEnv := PanEnv (instr i);
               PitchEnv := PitchEnv (instr i) |};
          description := description i;
          editedEnvelope := editedEnvelope i |}.

(** [CInstrumentUndo::RearrangeSamples(buffer, ins, newIndex)]; here too
    [Instruments[ins]] is read first, and the result is [None] when that read
    is past the end of the array. *)
Definition RearrangeSamples (doc : CModDoc) (buffer : undobuf_t) (ins : nat)
           (newIndex : list nat) : option undobuf_t :=
  instrument ← InstrumentAt (sndFile doc) ins;
  match instrument with
  | None => Some buffer
  | Some _ =>
      if negb (InstrumentBufferExists buffer ins)
         || bool_decide (steps buffer ins = [])
      then Some buffer
      else Some (alter (fmap (RearrangeStep newIndex)) (ins - 1)%nat buffer)
  end.

End Engine.

Abbreviation undobuf_t := (list (list UndoInfo)) (only parsing).

End CInstrumentUndo.

(** ** A reference configuration

    Concrete externals on which the engines can be run: cells and channel
    settings are integers, samples are 8-bit or 16-bit, mono or stereo, and
    the limits are those of the tracker.  [mem] tells whether memory can be
    obtained. *)

Module Host.

Definition pattern (mem : bool) : CPatternUndo.Externals :=
  {| CPatternUndo.ROWINDEX_bits := 32;
     CPatternUndo.MAX_UNDO_LEVEL := 100000;
     CPatternUndo.PATTERNINDEX_INVALID := 65535;
     CPatternUndo.CHANNELINDEX_INVALID := 65535;
     CPatternUndo.ModCommand := Z;
     CPatternUndo.ModCommand_Empty := 0;
     CPatternUndo.ModChannelSettings := Z;
     CPatternUndo.ModChannelSettings_Reset := 0;
     CPatternUndo.content_resize_ok := fun _ => mem;
     CPatternUndo.Patterns_Insert_ok := fun _ _ => mem |}.

Definition CHN_16BIT : Z := 1.
Definition CHN_STEREO : Z := 64.

Definition on_bytes (f : list Byte.byte -> list Byte.byte) (start len : Z)
           (data : list Byte.byte) : list Byte.byte :=
  take (Z.to_nat start) data
  ++ f (take (Z.to_nat len) (drop (Z.to_nat start) data))
  ++ drop (Z.to_nat (start + len)) data.

Definition byte_map (f : N -> N) (b : Byte.byte) : Byte.byte :=
  default Byte.x00 (Byte.of_N (f (Byte.to_N b) mod 256)%N).

Definition bytes_per_sample (s : CSampleUndo.ModSample) : Z :=
  (if CSampleUndo.flag_test (CSampleUndo.uFlags s) CHN_16BIT then 2 else 1)
  * (if CSampleUndo.flag_test (CSampleUndo.uFlags s) CHN_STEREO then 2 else 1).

(** Modelled from the spec: the self-inverse transforms of [ctrlSmp] are not
    part of Undo.cpp; "invert bits, reverse order, toggle signedness".  They
    are given here for 8-bit mono data. *)
Definition transform (f : list Byte.byte -> list Byte.byte)
           (s : CSampleUndo.ModSample) (start stop : Z) : CSampleUndo.ModSample :=
  CSampleUndo.with_pData s (on_bytes f start (stop - start) <$> CSampleUndo.pData s).

Definition sample (mem : bool) : CSampleUndo.Externals :=
  {| CSampleUndo.MAX_SAMPLES := 4000;
     CSampleUndo.MAX_UNDO_LEVEL := 100000;
     CSampleUndo.SmpLength_bits := 32;
     CSampleUndo.SMP_KEEPONDISK := 8192;
     CSampleUndo.SMP_MODIFIED := 4096;
     CSampleUndo.GetBytesPerSample := bytes_per_sample;
     CSampleUndo.HasSampleData := fun s =>
       bool_decide (is_Some (CSampleUndo.pData s))
       && negb (CSampleUndo.nLength s =? 0);
     CSampleUndo.AllocateSample_ok := fun _ _ => mem;
     CSampleUndo.InvertSample := transform (fmap (byte_map (fun n => 255 - n)%N));
     CSampleUndo.ReverseSample := transform reverse;
     CSampleUndo.UnsignSample := transform (fmap (byte_map (fun n => n + 128)%N));
     CSampleUndo.ReplaceSample := fun s pNew len =>
       {| CSampleUndo.nLength := len;
          CSampleUndo.uFlags := CSampleUndo.uFlags s;
          CSampleUndo.pData := pNew |};
     CSampleUndo.PrecomputeLoops := fun s => s |}.

Definition instrument : CInstrumentUndo.Externals :=
  {| CInstrumentUndo.MAX_INSTRUMENTS := 256;
     CInstrumentUndo.MAX_UNDO_LEVEL := 100000;
     CInstrumentUndo.InstrumentEnvelope := list (Z * Z);
     CInstrumentUndo.InstrumentEnvelope_default := [];
     CInstrumentUndo.Keyboard_default := replicate 128 0%nat |}.

End Host.

(** ** Concrete documents and histories

    Small inputs on the reference configuration, on which the engines are run
    below. *)

Module PatternScenario.
Import CPatternUndo.

Section WithMemory.
Variable mem : bool.
Local Instance host : Externals := Host.pattern mem.

(** A pattern of [rows] rows and [nch] channels whose cells are numbered. *)
Definition numbered (rows nch : nat) : CPattern :=
  {| m_Rows := Z.of_nat rows;
     m_ModCommands := Z.of_nat <$> seq 1 (rows * nch) |}.

(** A document with [nch] channels whose only pattern has [rows] rows. *)
Definition document (rows nch : nat) : CModDoc :=
  {| sndFile := {| m_nChannels := Z.of_nat nch;
                   ChnSettings := replicate 127 0;
                   Patterns := [Some (numbered rows nch)] |};
     updates := 0 |}.

Definition empty : CPatternUndo := {| UndoBuffer := []; RedoBuffer := [] |}.

End WithMemory.

(** The step captured on a 16 x 10 pattern for the rectangle of 4 rows and 8
    channels at row 2, channel 1, without channel settings. *)
Definition captured_step (link : bool) : @UndoInfo (Host.pattern true) :=
  Eval vm_compute in
    match @PrepareBuffer (Host.pattern true) (document true 16 10) [] 0 1 2 8 4
            EmptyString link false with
    | Some (_, [undo], _) => undo
    | _ => {| pattern := 0; numPatternRows := 0; firstChannel := 0; firstRow := 0;
              numChannels := 0; numRows := 0; content := []; channelInfo := [];
              linkToPrevious := false; description := EmptyString |}
    end.

End PatternScenario.

Module SampleScenario.
Import CSampleUndo.

Definition no_sample : ModSample := {| nLength := 0; uFlags := 0; pData := None |}.

(** The history and the document that an operation returns. *)
Definition result_state (r : option (bool * CSampleUndo * CModDoc)) (u : CSampleUndo)
  : CSampleUndo :=
  match r with Some (_, u', _) => u' | None => u end.

Definition result_doc (r : option (bool * CSampleUndo * CModDoc)) (doc : CModDoc)
  : CModDoc :=
  match r with Some (_, _, doc') => doc' | None => doc end.

(** An 8-bit mono sample holding the given bytes. *)
Definition sample_of (flags : Z) (data : list Byte.byte) : ModSample :=
  {| nLength := Z.of_nat (length data); uFlags := flags; pData := Some data |}.

(** A document whose sample 1 is [s]. *)
Definition document (s : ModSample) : CModDoc :=
  {| sndFile := {| Samples := fun i => if (i =? 1)%nat then s else no_sample;
                   m_szNames := fun _ => EmptyString |};
     updates := 0;
     modified := false |}.

Definition two_bytes : ModSample := sample_of 0 [Byte.x01; Byte.x02].

(** A step of kind [kind] for frames [[start, stop)] of a sample that had
    header [old]. *)
Definition step_of (old : ModSample) (kind : sampleUndoTypes) (start stop : Z)
           (ptr : option (list Byte.byte)) : UndoInfo :=
  {| OldSample := old;
     oldName := EmptyString;
     description := EmptyString;
     changeType := kind;
     changeStart := start;
     changeEnd := stop;
     samplePtr := ptr |}.

(** A history whose only step is [undo], on the undo buffer of sample 1. *)
Definition one_step (undo : UndoInfo) : CSampleUndo :=
  {| UndoBuffer := [[undo]]; RedoBuffer := [] |}.

(** The history after one [PrepareUndo] of kind [sundo_replace] on the
    two-byte sample. *)
Definition after_replace : CSampleUndo :=
  one_step (step_of two_bytes sundo_replace 0 2 (Some [Byte.x01; Byte.x02])).

(** A step of kind [sundo_update] taken when the sample had two bytes, and the
    history once its [Undo] has failed on the emptied sample. *)
Definition update_step : UndoInfo :=
  step_of two_bytes sundo_update 0 2 (Some [Byte.x01; Byte.x02]).

Definition after_failed_undo : CSampleUndo :=
  {| UndoBuffer := [[]];
     RedoBuffer := [[step_of no_sample sundo_update 0 2 None]] |}.

(** A step of kind [sundo_delete] for the first byte of the two-byte sample,
    and the sample once that byte is deleted. *)
Definition delete_step : UndoInfo :=
  step_of two_bytes sundo_delete 0 1 (Some [Byte.x01]).

Definition one_byte : ModSample := sample_of 0 [Byte.x02].

(** A step of kind [sundo_none] whose saved header has the keep-on-disk flag. *)
Definition kept_step : UndoInfo :=
  step_of (sample_of 8192 [Byte.x01; Byte.x02]) sundo_none 0 0 None.

End SampleScenario.

Module InstrumentScenario.
Import CInstrumentUndo.

Local Instance host : Externals := Host.instrument.

Definition instrument_with (keyboard : list nat) : ModInstrument :=
  {| Keyboard := keyboard; VolEnv := []; PanEnv := []; PitchEnv := [] |}.

(** A document whose instrument 1 is [i], if any. *)
Definition document (i : option ModInstrument) : CModDoc :=
  {| sndFile := {| Instruments := fun k => if (k =? 1)%nat then i else None |};
     updates := 0;
     modified := false |}.

(** A buffer whose instrument 1 has one snapshot of the whole instrument and
    one of its volume envelope. *)
Definition two_snapshots : list (list UndoInfo) :=
  [[ {| instr := instrument_with [5; 1]%nat;
        description := EmptyString;
        editedEnvelope := ENV_MAXTYPES |};
     {| instr := instrument_with [5; 1]%nat;
        description := EmptyString;
        editedEnvelope := ENV_VOLUME |} ]].

End InstrumentScenario.

(** Further inputs: an edited pattern, steps taken by hand, and a document
    that has lost its instrument. *)
Module PatternEdits.
Import CPatternUndo.

Section WithMemory.
Variable mem : bool.
Local Instance host : Externals := Host.pattern mem.

(** The numbered pattern with cell [i] emptied. *)
Definition edited (rows nch i : nat) : CPattern :=
  {| m_Rows := Z.of_nat rows;
     m_ModCommands := <[i := 0]> (Z.of_nat <$> seq 1 (rows * nch)) |}.

Definition edited_document (rows nch i : nat) : CModDoc :=
  {| sndFile := {| m_nChannels := Z.of_nat nch;
                   ChnSettings := replicate 127 0;
                   Patterns := [Some (edited rows nch i)] |};
     updates := 0 |}.

(** A step for the first cell of pattern [pat], taken when the pattern had 16
    rows, that holds the channel settings [info]. *)
Definition cell_step (pat : Z) (info : list Z) : UndoInfo :=
  {| pattern := pat;
     numPatternRows := 16;
     firstChannel := 0;
     firstRow := 0;
     numChannels := 1;
     numRows := 1;
     content := [0];
     channelInfo := info;
     linkToPrevious := false;
     description := EmptyString |}.

End WithMemory.
End PatternEdits.

Module InstrumentEdits.
Import CInstrumentUndo.

Local Existing Instance InstrumentScenario.host.

Definition played : ModInstrument := InstrumentScenario.instrument_with [5; 1]%nat.

Definition replaced : ModInstrument := InstrumentScenario.instrument_with [7]%nat.

(** The history in which instrument 1 has the two snapshots. *)
Definition history : CInstrumentUndo :=
  {| UndoBuffer := InstrumentScenario.two_snapshots; RedoBuffer := [] |}.

(** The more recent of the two snapshots. *)
Definition volume_step : UndoInfo :=
  {| instr := played; description := EmptyString; editedEnvelope := ENV_VOLUME |}.

(** What an undo point for the whole of instrument 1 returns on the empty
    history. *)
Definition undo_point : bool * CInstrumentUndo * CModDoc :=
  PrepareUndo (InstrumentScenario.document (Some played))
    {| UndoBuffer := []; RedoBuffer := [] |} 1%nat EmptyString ENV_MAXTYPES.

(** An undo point for the volume envelope of instrument 1, with a name. *)
Definition named_undo_point : bool * CInstrumentUndo * CModDoc :=
  PrepareUndo (InstrumentScenario.document (Some played))
    {| UndoBuffer := []; RedoBuffer := [] |} 1%nat "Envelope" ENV_VOLUME.

End InstrumentEdits.

(** ** Vocabulary of the properties *)

Module PatternSpec.
Import CPatternUndo.

Section WithExternals.
Context `{Ext : Externals}.

(** Bounds of the data model: no pattern has more than [maxRows] rows and no
    document more than [maxChannels] channels. *)
Variables maxRows maxChannels : Z.

(** A pattern of a document with [nch] channels holds [m_Rows * nch] cells. *)
Definition wf_pattern (nch : Z) (p : CPattern) : Prop :=
  0 <= m_Rows p <= maxRows
  /\ Z.of_nat (length (m_ModCommands p)) = m_Rows p * nch.

Definition wf_sndFile (snd : CSoundFile) : Prop :=
  0 <= GetNumChannels snd <= maxChannels
  /\ GetNumChannels snd <= Z.of_nat (length (ChnSettings snd))
  /\ forall pat p, GetPattern snd pat = Some p -> wf_pattern (GetNumChannels snd) p.

(** The invariant of a step: its rectangle lies in the pattern it was taken
    from, and it holds one cell per cell of the rectangle. *)
Definition wf_undo (u : UndoInfo) : Prop :=
  0 <= pattern u
  /\ 0 <= firstRow u /\ 1 <= numRows u
  /\ firstRow u + numRows u <= numPatternRows u <= maxRows
  /\ 0 <= firstChannel u /\ 1 <= numChannels u
  /\ firstChannel u + numChannels u <= maxChannels
  /\ Z.of_nat (length (content u)) = numRows u * numChannels u
  /\ Z.of_nat (length (channelInfo u)) <= maxChannels.

(** The step that [PrepareBuffer] pushes. *)
Definition captured (pat : Z) (p : CPattern) (fc fr nc nr : Z)
           (cells : list ModCommand) (info : list ModChannelSettings)
           (link : bool) (descr : string) : UndoInfo :=
  {| pattern := pat;
     numPatternRows := m_Rows p;
     firstChannel := fc;
     firstRow := fr;
     numChannels := nc;
     numRows := nr;
     content := cells;
     channelInfo := info;
     linkToPrevious := link;
     description := descr |}.

(** The channel count of the document once the channel block of [Undo] has
    run for [undo]. *)
Definition channelsAfter (nch : Z) (undo : UndoInfo) : Z :=
  match channelInfo undo with [] => nch | info => Z.of_nat (length info) end.

(** The pattern that receives the saved cells: the live pattern, resized to
    the recorded row count if it has another, or a new pattern. *)
Definition PatternToFill (snd : CSoundFile) (undo : UndoInfo) : CPattern :=
  match GetPattern snd (pattern undo) with
  | None =>
      {| m_Rows := numPatternRows undo;
         m_ModCommands :=
           replicate (Z.to_nat (numPatternRows undo * GetNumChannels snd)) ModCommand_Empty |}
  | Some p =>
      if bool_decide (m_Rows p = numPatternRows undo) then p
      else CPattern_Resize (GetNumChannels snd) p (numPatternRows undo)
  end.


(** The pattern of the step exists or can be created. *)
Definition Creatable (snd : CSoundFile) (undo : UndoInfo) : Prop :=
  is_Some (GetPattern snd (pattern undo))
  \/ Patterns_Insert_ok (pattern undo) (numPatternRows undo) = true.

(** [p'] differs from [p] at most in the rows and channels of the rectangle of
    [undo], the rows being clipped to the row count of [p]. *)
Definition SameOutside (nch : Z) (undo : UndoInfo) (p p' : CPattern) : Prop :=
  m_Rows p' = m_Rows p
  /\ length (m_ModCommands p') = length (m_ModCommands p)
  /\ forall r c, 0 <= r -> 0 <= c < nch ->
       ~ (firstRow undo <= r < firstRow undo + Z.min (numRows undo) (m_Rows p)
          /\ firstChannel undo <= c < firstChannel undo + numChannels undo) ->
       m_ModCommands p' !! Z.to_nat (r * nch + c) = m_ModCommands p !! Z.to_nat (r * nch + c).

End WithExternals.
End PatternSpec.

Module SampleSpec.
Import CSampleUndo.

Section WithExternals.
Context `{Ext : Externals}.

(** The configured size of the sample undo buffer. *)
Variable budget : Z.

(** The bytes of the buffers owned by a list of steps, and the largest one. *)
Definition total (l : list UndoInfo) : Z :=
  foldr (fun s acc => stepCapacity s + acc) 0 l.

Definition largest (l : list UndoInfo) : Z :=
  foldr (fun s m => Z.max (stepCapacity s) m) 0 l.

(** Every step of every sample, of both buffers. *)
Definition allSteps (u : CSampleUndo) : list UndoInfo :=
  concat (UndoBuffer u) ++ concat (RedoBuffer u).

(** The bytes held by the two buffers, as [RestrictBufferSize] counts them. *)
Definition heldBytes (u : CSampleUndo) : Z :=
  GetBufferCapacity (UndoBuffer u) + GetBufferCapacity (RedoBuffer u).

(** Every slot of the buffer belongs to a sample below [MAX_SAMPLES]. *)
Definition SlotsOk (b : undobuf_t) : Prop := (length b <= MAX_SAMPLES - 1)%nat.

(** The buffers are within the budget once the largest one is set aside. *)
Definition WithinBudgetButOne (l : list UndoInfo) : Prop :=
  total l <= budget + largest l.

Definition Inv (u : CSampleUndo) : Prop :=
  SlotsOk (UndoBuffer u) /\ SlotsOk (RedoBuffer u) /\ WithinBudgetButOne (allSteps u).

(** [buffer.resize(smp)] when [smp > buffer.size()]. *)
Definition grown (b : undobuf_t) (smp : nat) : undobuf_t :=
  if (length b <? smp)%nat then resize smp [] b else b.

Definition forced (doc : CModDoc) (smp : nat) (kind : sampleUndoTypes) (s e : Z) : Z * Z :=
  ForcedRange (GetSample (sndFile doc) smp) kind s e.

(** The step that [PrepareBuffer] pushes. *)
Definition captured (doc : CModDoc) (smp : nat) (kind : sampleUndoTypes)
           (descr : string) (s e : Z) (ptr : option (list Byte.byte)) : UndoInfo :=
  {| OldSample := GetSample (sndFile doc) smp;
     oldName := m_szNames (sndFile doc) smp;
     description := descr;
     changeType := kind;
     changeStart := (forced doc smp kind s e).1;
     changeEnd := (forced doc smp kind s e).2;
     samplePtr := ptr |}.

(** The four ways in which [PrepareBuffer] returns. *)
Inductive Prepared (doc : CModDoc) (u : CSampleUndo) (sel : bufsel) (smp : nat)
          (kind : sampleUndoTypes) (descr : string) (s e : Z)
  : bool -> CSampleUndo -> CModDoc -> Prop :=
| prepared_rejected :
    smp = 0%nat \/ (MAX_SAMPLES <= smp)%nat \/ budget = 0 ->
    Prepared doc u sel smp kind descr s e false u doc
| prepared_bad_range b2 :
    (0 < smp < MAX_SAMPLES)%nat -> budget <> 0 ->
    EvictWhileFull (length (steps (grown (get_buf sel u) smp) smp))
                   (grown (get_buf sel u) smp) smp = Some b2 ->
    nLength (GetSample (sndFile doc) smp) < (forced doc smp kind s e).1
    \/ (forced doc smp kind s e).2 < (forced doc smp kind s e).1 ->
    Prepared doc u sel smp kind descr s e false (set_buf sel u b2) doc
| prepared_no_memory b2 u3 :
    (0 < smp < MAX_SAMPLES)%nat -> budget <> 0 ->
    EvictWhileFull (length (steps (grown (get_buf sel u) smp) smp))
                   (grown (get_buf sel u) smp) smp = Some b2 ->
    (forced doc smp kind s e).1 <= nLength (GetSample (sndFile doc) smp) ->
    (forced doc smp kind s e).1 <= (forced doc smp kind s e).2 ->
    RestrictBufferSize budget (set_buf sel u b2) = Some u3 ->
    savesData kind = true -> HasSampleData (GetSample (sndFile doc) smp) = true ->
    AllocateSample_ok (smp_sub (forced doc smp kind s e).2 (forced doc smp kind s e).1)
                      (GetBytesPerSample (GetSample (sndFile doc) smp)) = false ->
    Prepared doc u sel smp kind descr s e false u3 doc
| prepared_captured b2 u3 ptr :
    (0 < smp < MAX_SAMPLES)%nat -> budget <> 0 ->
    EvictWhileFull (length (steps (grown (get_buf sel u) smp) smp))
                   (grown (get_buf sel u) smp) smp = Some b2 ->
    (forced doc smp kind s e).1 <= nLength (GetSample (sndFile doc) smp) ->
    (forced doc smp kind s e).1 <= (forced doc smp kind s e).2 ->
    RestrictBufferSize budget (set_buf sel u b2) = Some u3 ->
    (if savesData kind && HasSampleData (GetSample (sndFile doc) smp)
     then AllocateSample_ok (smp_sub (forced doc smp kind s e).2
                                     (forced doc smp kind s e).1)
                            (GetBytesPerSample (GetSample (sndFile doc) smp)) = true
          /\ is_Some ptr
     else ptr = None) ->
    Prepared doc u sel smp kind descr s e true
      (set_buf sel u3
         (alter (fun st => st ++ [captured doc smp kind descr s e ptr])
                (smp - 1)%nat (get_buf sel u3)))
      (UpdateAllViews doc).

(** One operation of the engine, on whatever the document holds by then. *)
Inductive step : CSampleUndo -> CSampleUndo -> Prop :=
| step_PrepareUndo doc u smp kind descr s e ok u' doc' :
    PrepareUndo budget doc u smp kind descr s e = Some (ok, u', doc') -> step u u'
| step_Undo doc u smp ok u' doc' :
    Undo budget doc u smp = Some (ok, u', doc') -> step u u'
| step_Redo doc u smp ok u' doc' :
    Redo budget doc u smp = Some (ok, u', doc') -> step u u'.

Definition initial : CSampleUndo := {| UndoBuffer := []; RedoBuffer := [] |}.

(** The states of the engine after any sequence of operations, the document
    being edited at will in between. *)
Inductive reachable : CSampleUndo -> Prop :=
| reachable_initial : reachable initial
| reachable_step u u' : reachable u -> step u u' -> reachable u'.

End WithExternals.
End SampleSpec.

Module InstrumentSpec.
Import CInstrumentUndo.

Section WithExternals.
Context `{Ext : Externals}.

(** What a step of kind [envType] is about is the same in [i] and in [j]:
    the envelope [envType], or the whole instrument. *)
Definition SameSubject (envType : EnvelopeType) (i j : ModInstrument) : Prop :=
  if is_envelope envType then GetEnvelope i envType = GetEnvelope j envType
  else i = j.

(** What a step of kind [envType] is not about is the same in [i] and in
    [j]: the note table and the other envelopes, or nothing. *)
Definition SameRest (envType : EnvelopeType) (i j : ModInstrument) : Prop :=
  if is_envelope envType
  then Keyboard i = Keyboard j
       /\ forall e, is_envelope e = true -> e <> envType ->
            GetEnvelope i e = GetEnvelope j e
  else True.

(** No instrument has more than [MAX_UNDO_LEVEL] steps in a buffer. *)
Definition Bounded (u : CInstrumentUndo) : Prop :=
  forall k, Z.of_nat (length (steps (UndoBuffer u) k)) <= MAX_UNDO_LEVEL
            /\ Z.of_nat (length (steps (RedoBuffer u) k)) <= MAX_UNDO_LEVEL.

(** One operation of the engine, on whatever the document holds by then. *)
Inductive step : CInstrumentUndo -> CInstrumentUndo -> Prop :=
| step_PrepareUndo doc u ins descr envType ok u' doc' :
    PrepareUndo doc u ins descr envType = (ok, u', doc') -> step u u'
| step_Undo doc u ins ok u' doc' :
    Undo doc u ins = Some (ok, u', doc') -> step u u'
| step_Redo doc u ins ok u' doc' :
    Redo doc u ins = Some (ok, u', doc') -> step u u'
| step_RemoveLastUndoStep u ins :
    step u (RemoveLastUndoStep u ins)
| step_RearrangeSamples doc u ins newIndex undoBuf redoBuf :
    RearrangeSamples doc (UndoBuffer u) ins newIndex = Some undoBuf ->
    RearrangeSamples doc (RedoBuffer u) ins newIndex = Some redoBuf ->
    step u {| UndoBuffer := undoBuf; RedoBuffer := redoBuf |}.

Definition initial : CInstrumentUndo := {| UndoBuffer := []; RedoBuffer := [] |}.

(** The states of the engine after any sequence of operations, the document
    being edited at will in between. *)
Inductive reachable : CInstrumentUndo -> Prop :=
| reachable_initial : reachable initial
| reachable_step u u' : reachable u -> step u u' -> reachable u'.

End WithExternals.
End InstrumentSpec.

Module PatternCells.
Import CPatternUndo.

Section WithExternals.
Context `{Ext : Externals}.

(** The cell of row [r] and channel [c] of a pattern that is [nch] channels
    wide. *)
Definition cell (nch : Z) (p : CPattern) (r c : Z) : option ModCommand :=
  m_ModCommands p !! Z.to_nat (r * nch + c).

(** The step holds, row by row, the cells that [p] has in the rectangle of
    the step. *)
Definition HoldsRect (nch : Z) (undo : UndoInfo) (p : CPattern) : Prop :=
  forall i j, 0 <= i < numRows undo -> 0 <= j < numChannels undo ->
    content undo !! Z.to_nat (i * numChannels undo + j)
    = cell nch p (firstRow undo + i) (firstChannel undo + j).

(** [p] and [q] have the same cells outside the rectangle of [nr] rows and
    [nc] channels at row [fr], channel [fc]. *)
Definition SameOutsideRect (nch fc fr nc nr : Z) (p q : CPattern) : Prop :=
  forall r c, 0 <= r -> 0 <= c < nch ->
    ~ (fr <= r < fr + nr /\ fc <= c < fc + nc) ->
    cell nch q r c = cell nch p r c.

(** Neither buffer has more than [MAX_UNDO_LEVEL] steps. *)
Definition Bounded (u : CPatternUndo) : Prop :=
  Z.of_nat (length (UndoBuffer u)) <= MAX_UNDO_LEVEL
  /\ Z.of_nat (length (RedoBuffer u)) <= MAX_UNDO_LEVEL.

(** One operation of the engine, on whatever the document holds by then. *)
Inductive step : CPatternUndo -> CPatternUndo -> Prop :=
| step_PrepareUndo doc u pat fc fr nc nr descr link store ok u' doc' :
    PrepareUndo doc u pat fc fr nc nr descr link store = Some (ok, u', doc') ->
    step u u'
| step_Undo doc u pat u' doc' :
    Undo doc u = Some (pat, u', doc') -> step u u'
| step_Redo doc u pat u' doc' :
    Redo doc u = Some (pat, u', doc') -> step u u'
| step_RemoveLastUndoStep u :
    step u (RemoveLastUndoStep u)
| step_RearrangePatterns u newIndex :
    step u (RearrangePatterns u newIndex)
| step_ClearUndo u :
    step u (ClearUndo u).

Definition initial : CPatternUndo := {| UndoBuffer := []; RedoBuffer := [] |}.

(** The states of the engine after any sequence of operations, the document
    being edited at will in between. *)
Inductive reachable : CPatternUndo -> Prop :=
| reachable_initial : reachable initial
| reachable_step u u' : reachable u -> step u u' -> reachable u'.

End WithExternals.
End PatternCells.

Module SampleData.
Import CSampleUndo.

Section WithExternals.
Context `{Ext : Externals}.

(** A sample header that makes sense: the length and the frame size are
    positive, the byte count fits a [SmpLength], and the data, if any, has
    [nLength] frames of [GetBytesPerSample] bytes. *)
Definition wf_sample (s : ModSample) : Prop :=
  0 <= nLength s /\ 0 < GetBytesPerSample s
  /\ nLength s * GetBytesPerSample s < 2 ^ SmpLength_bits
  /\ forall d, pData s = Some d ->
       Z.of_nat (length d) = nLength s * GetBytesPerSample s.

(** [b'] is [b] less some of the oldest steps of each sample. *)
Definition Trimmed (b b' : undobuf_t) : Prop :=
  length b' = length b
  /\ forall k, exists n, steps b' k = drop n (steps b k).

(** No sample has more than [MAX_UNDO_LEVEL] steps in a buffer. *)
Definition Bounded (u : CSampleUndo) : Prop :=
  forall k, Z.of_nat (length (steps (UndoBuffer u) k)) <= MAX_UNDO_LEVEL
            /\ Z.of_nat (length (steps (RedoBuffer u) k)) <= MAX_UNDO_LEVEL.

(** The step owns a buffer with the bytes that [data] has in the frames of
    the step. *)
Definition HoldsFrames (undo : UndoInfo) (data : list Byte.byte) : Prop :=
  samplePtr undo
  = Some (take (Z.to_nat ((changeEnd undo - changeStart undo)
                          * GetBytesPerSample (OldSample undo)))
            (drop (Z.to_nat (changeStart undo * GetBytesPerSample (OldSample undo)))
               data)).

(** The flags that [Undo] leaves on a sample whose header gives [flags]:
    [SMP_MODIFIED] is set unless the step is of kind [sundo_none], and
    [SMP_KEEPONDISK] is cleared unless the live sample had it. *)
Definition FlagsAfterUndo (keepOnDisk : bool) (changeType : sampleUndoTypes)
           (flags : Z) : Z :=
  let flags :=
    if bool_decide (changeType = sundo_none) then flags
    else flag_set flags SMP_MODIFIED in
  if keepOnDisk then flags else flag_reset flags SMP_KEEPONDISK.

End WithExternals.
End SampleData.

(** * Properties *)

(** ** Raw buffers *)

Section BufferLemmas.
Context {A : Type}.
Implicit Types buf src dst : list A.

Lemma read_at_Some buf off n l :
  read_at buf off n = Some l <->
  0 <= off /\ 0 <= n /\ off + n <= Z.of_nat (length buf)
  /\ l = take (Z.to_nat n) (drop (Z.to_nat off) buf).
Proof.
  unfold read_at.
  destruct (Z.leb_spec 0 off), (Z.leb_spec 0 n),
    (Z.leb_spec (off + n) (Z.of_nat (length buf))); simpl;
    split; try (intros [= <-]; done); try (intros (? & ? & ? & ->); done); lia.
Qed.

Lemma read_at_length buf off n l :
  read_at buf off n = Some l -> Z.of_nat (length l) = n.
Proof.
  intros (? & ? & ? & ->)%read_at_Some. rewrite length_take, length_drop. lia.
Qed.

Lemma write_at_Some buf off src l :
  write_at buf off src = Some l <->
  0 <= off /\ off + Z.of_nat (length src) <= Z.of_nat (length buf)
  /\ l = take (Z.to_nat off) buf ++ src ++ drop (Z.to_nat off + length src) buf.
Proof.
  unfold write_at.
  destruct (Z.leb_spec 0 off),
    (Z.leb_spec (off + Z.of_nat (length src)) (Z.of_nat (length buf))); simpl;
    split; try (intros [= <-]; done); try (intros (? & ? & ->); done); lia.
Qed.

Lemma write_at_length buf off src l :
  write_at buf off src = Some l -> length l = length buf.
Proof.
  intros (? & ? & ->)%write_at_Some.
  rewrite !length_app, length_take, length_drop. lia.
Qed.

Lemma write_at_frame buf off src l (j : nat) :
  write_at buf off src = Some l ->
  ~ (off <= Z.of_nat j < off + Z.of_nat (length src)) ->
  l !! j = buf !! j.
Proof.
  intros (? & ? & ->)%write_at_Some Hout.
  destruct (decide (Z.of_nat j < off)).
  - rewrite lookup_app_l by (rewrite length_take; lia).
    apply lookup_take_lt. lia.
  - rewrite lookup_app_r by (rewrite length_take; lia).
    rewrite lookup_app_r by (rewrite length_take; lia).
    rewrite lookup_drop. f_equal. rewrite length_take. lia.
Qed.

(** Every access of a run of [copy_rows] that ends is inside its buffer. *)
Lemma copy_rows_inside n src soff sstride dst doff dstride w d :
  copy_rows n src soff sstride dst doff dstride w = Some d ->
  length d = length dst
  /\ forall i, (i < n)%nat ->
       0 <= w
       /\ 0 <= soff + Z.of_nat i * sstride
       /\ soff + Z.of_nat i * sstride + w <= Z.of_nat (length src)
       /\ 0 <= doff + Z.of_nat i * dstride
       /\ doff + Z.of_nat i * dstride + w <= Z.of_nat (length dst).
Proof.
  revert soff dst doff. induction n as [|n IH]; intros soff dst doff; simpl.
  - intros [= <-]. split; [done|]. lia.
  - destruct (read_at src soff w) as [row|] eqn:Hr; simpl; [|done].
    destruct (write_at dst doff row) as [dst'|] eqn:Hw; simpl; [|done].
    intros (Hlen & Hin)%IH.
    pose proof (read_at_length _ _ _ _ Hr) as Hrow.
    pose proof (write_at_length _ _ _ _ Hw) as Hd.
    apply read_at_Some in Hr as (? & ? & ? & _).
    apply write_at_Some in Hw as (? & ? & _).
    split; [congruence|].
    intros [|i] Hi; [lia|].
    specialize (Hin i ltac:(lia)). rewrite Hd in Hin. lia.
Qed.

(** A run of [copy_rows] whose accesses are inside the buffers ends. *)
Lemma copy_rows_ends n src soff sstride dst doff dstride w :
  0 <= w ->
  (forall i, (i < n)%nat ->
     0 <= soff + Z.of_nat i * sstride
     /\ soff + Z.of_nat i * sstride + w <= Z.of_nat (length src)
     /\ 0 <= doff + Z.of_nat i * dstride
     /\ doff + Z.of_nat i * dstride + w <= Z.of_nat (length dst)) ->
  is_Some (copy_rows n src soff sstride dst doff dstride w).
Proof.
  intros Hw. revert soff dst doff. induction n as [|n IH]; intros soff dst doff Hin; simpl.
  - by eexists.
  - pose proof (Hin 0%nat ltac:(lia)) as H0.
    destruct (read_at src soff w) as [row|] eqn:Hr; simpl.
    2:{ unfold read_at in Hr.
        destruct (Z.leb_spec 0 soff), (Z.leb_spec 0 w),
          (Z.leb_spec (soff + w) (Z.of_nat (length src))); simpl in Hr; (done || lia). }
    pose proof (read_at_length _ _ _ _ Hr) as Hrow.
    destruct (write_at dst doff row) as [dst'|] eqn:Hwr; simpl.
    2:{ unfold write_at in Hwr.
        destruct (Z.leb_spec 0 doff),
          (Z.leb_spec (doff + Z.of_nat (length row)) (Z.of_nat (length dst)));
          simpl in Hwr; (done || lia). }
    apply IH. intros i Hi. specialize (Hin (S i) ltac:(lia)).
    rewrite (write_at_length _ _ _ _ Hwr). lia.
Qed.

(** What [copy_rows] leaves alone. *)
Lemma copy_rows_frame n src soff sstride dst doff dstride w d (j : nat) :
  copy_rows n src soff sstride dst doff dstride w = Some d ->
  (forall i, (i < n)%nat ->
     ~ (doff + Z.of_nat i * dstride <= Z.of_nat j < doff + Z.of_nat i * dstride + w)) ->
  d !! j = dst !! j.
Proof.
  revert soff dst doff. induction n as [|n IH]; intros soff dst doff; simpl.
  - by intros [= <-].
  - destruct (read_at src soff w) as [row|] eqn:Hr; simpl; [|done].
    destruct (write_at dst doff row) as [dst'|] eqn:Hw; simpl; [|done].
    intros Hrun Hout.
    rewrite (IH _ _ _ Hrun).
    + eapply write_at_frame; [done|].
      rewrite (read_at_length _ _ _ _ Hr).
      specialize (Hout 0%nat ltac:(lia)). lia.
    + intros i Hi. specialize (Hout (S i) ltac:(lia)). lia.
Qed.
End BufferLemmas.

(** ** Pattern undo *)

Module PatternProofs.
Import CPatternUndo PatternSpec.

Section WithExternals.
Context `{Ext : Externals}.

(** The bounds of the data model, and the number of cells of a pattern fits a
    [ROWINDEX]. *)
Variables maxRows maxChannels : Z.
Hypothesis cells_fit : maxRows * maxChannels < 2 ^ ROWINDEX_bits.

Local Abbreviation wf_pattern := (PatternSpec.wf_pattern maxRows).
Local Abbreviation wf_sndFile := (PatternSpec.wf_sndFile maxRows maxChannels).
Local Abbreviation wf_undo := (PatternSpec.wf_undo maxRows maxChannels).

Lemma wrap_small x : 0 <= x < 2 ^ ROWINDEX_bits -> wrap ROWINDEX_bits x = x.
Proof. intros H. unfold wrap. by apply Z.mod_small. Qed.

Lemma wrap_le x : 0 <= x -> 0 <= wrap ROWINDEX_bits x <= x.
Proof.
  intros Hx. unfold wrap.
  destruct (Z.eq_dec (2 ^ ROWINDEX_bits) 0) as [->|Hne].
  - rewrite Z.mod_0_r. lia.
  - assert (0 < 2 ^ ROWINDEX_bits).
    { pose proof (Z.pow_nonneg 2 ROWINDEX_bits). lia. }
    split; [by apply Z.mod_pos_bound|]. apply Z.mod_le; lia.
Qed.

(** *** The pattern container *)

Lemma GetPattern_nonneg snd pat p : GetPattern snd pat = Some p -> 0 <= pat.
Proof. unfold GetPattern. destruct (Z.leb_spec 0 pat); [done|discriminate]. Qed.

Lemma GetPattern_SetPattern snd pat p pat' :
  0 <= pat ->
  GetPattern (SetPattern snd pat p) pat'
  = if decide (pat' = pat) then Some p else GetPattern snd pat'.
Proof.
  intros Hpat. unfold GetPattern, SetPattern. simpl.
  destruct (Z.leb_spec 0 pat') as [Hp'|Hp']; [|case_decide; [lia|done]].
  set (l := Patterns snd). set (n := Z.to_nat pat).
  assert (n < length (resize (Nat.max (length l) (S n)) None l))%nat as Hn.
  { rewrite length_resize. lia. }
  case_decide as Heq.
  - subst pat'. by rewrite list_lookup_insert_eq.
  - rewrite list_lookup_insert_ne by lia.
    rewrite resize_ge by lia.
    destruct (decide (Z.to_nat pat' < length l)%nat).
    + by rewrite lookup_app_l.
    + rewrite lookup_app_r by lia. rewrite (lookup_ge_None_2 l) by lia.
      destruct (replicate _ _ !! _) as [o|] eqn:Hrep; [|done].
      by apply lookup_replicate in Hrep as [-> _].
Qed.

Lemma insert_resize_twice {B} (l : list B) (n : nat) (d x y : B) :
  <[n := x]> (resize (Nat.max (length (<[n := y]> (resize (Nat.max (length l) (S n)) d l)))
                              (S n)) d
                (<[n := y]> (resize (Nat.max (length l) (S n)) d l)))
  = <[n := x]> (resize (Nat.max (length l) (S n)) d l).
Proof.
  rewrite length_insert, length_resize.
  rewrite resize_ge by (rewrite length_insert, length_resize; lia).
  rewrite length_insert, length_resize.
  replace (_ - _)%nat with 0%nat by lia. simpl. rewrite app_nil_r.
  apply list_insert_insert_eq.
Qed.

Lemma SetPattern_SetPattern snd pat q p :
  SetPattern (SetPattern snd pat q) pat p = SetPattern snd pat p.
Proof. unfold SetPattern. simpl. f_equal. apply insert_resize_twice. Qed.

Lemma wf_SetPattern snd pat p :
  0 <= pat -> wf_sndFile snd -> wf_pattern (GetNumChannels snd) p ->
  wf_sndFile (SetPattern snd pat p).
Proof.
  intros Hpat (Hch & Hset & Hpats) Hp. split; [done|]. split; [done|].
  intros pat' p'. rewrite GetPattern_SetPattern by done.
  case_decide; [by intros [= <-]|]. apply Hpats.
Qed.

(** A document given by the list of its patterns. *)
Lemma wf_sndFile_intro snd :
  0 <= GetNumChannels snd <= maxChannels ->
  GetNumChannels snd <= Z.of_nat (length (ChnSettings snd)) ->
  Forall (fun o => match o with
                   | Some p => wf_pattern (GetNumChannels snd) p
                   | None => True
                   end) (Patterns snd) ->
  wf_sndFile snd.
Proof.
  intros Hch Hset Hall. split; [done|]. split; [done|].
  intros pat p. unfold GetPattern. destruct (0 <=? pat); [|done].
  destruct (Patterns snd !! Z.to_nat pat) as [o|] eqn:Hl; [|done].
  simpl. intros ->. by apply (Forall_lookup_1 _ _ _ _ Hall Hl).
Qed.

(** *** The rectangle *)

Lemma ClampRect_Some snd pat fc fr nc nr nc' nr' :
  ClampRect snd pat fc fr nc nr = Some (nc', nr') <->
  exists p, GetPattern snd pat = Some p
    /\ fr < m_Rows p /\ 1 <= nc /\ 1 <= nr /\ fc < GetNumChannels snd
    /\ nc' = Z.min nc (GetNumChannels snd - fc)
    /\ nr' = if m_Rows p <=? wrap ROWINDEX_bits (fr + nr)
             then wrap ROWINDEX_bits (m_Rows p - fr) else nr.
Proof.
  unfold ClampRect. destruct (GetPattern snd pat) as [p|]; [|split; [done|by intros (? & ? & _)]].
  destruct (Z.leb_spec (m_Rows p) fr), (Z.ltb_spec nc 1), (Z.ltb_spec nr 1),
    (Z.leb_spec (GetNumChannels snd) fc); simpl;
    try (split; [done|intros (? & [= <-] & ?); lia]).
  split.
  - intros [= <- <-]. exists p. repeat split; try done; try lia.
    destruct (Z.leb_spec (GetNumChannels snd) (fc + nc)); lia.
  - intros (? & [= <-] & _ & _ & _ & _ & -> & ->). do 2 f_equal.
    destruct (Z.leb_spec (GetNumChannels snd) (fc + nc)); lia.
Qed.

Lemma ClampRect_None snd pat fc fr nc nr :
  ClampRect snd pat fc fr nc nr = None <->
  GetPattern snd pat = None
  \/ exists p, GetPattern snd pat = Some p
       /\ (m_Rows p <= fr \/ nc < 1 \/ nr < 1 \/ GetNumChannels snd <= fc).
Proof.
  unfold ClampRect. destruct (GetPattern snd pat) as [p|]; [|split; [by left|done]].
  destruct (Z.leb_spec (m_Rows p) fr), (Z.ltb_spec nc 1), (Z.ltb_spec nr 1),
    (Z.leb_spec (GetNumChannels snd) fc); simpl;
    try (split; [intros _; right; exists p; split; [done|lia]|done]).
  split; [done|]. intros [|(? & [= <-] & ?)]; [done|lia].
Qed.

Lemma rows_fit : forall rows nch, 0 <= rows <= maxRows -> 1 <= nch <= maxChannels ->
  rows < 2 ^ ROWINDEX_bits.
Proof. intros rows nch Hr Hc. nia. Qed.


(** *** [PrepareBuffer] *)

Lemma PrepareBuffer_cases doc (buf : undobuf_t) pat fc fr nc nr descr link store ok buf' doc' :
  PrepareBuffer doc buf pat fc fr nc nr descr link store = Some (ok, buf', doc') ->
  match ClampRect (sndFile doc) pat fc fr nc nr with
  | None => ok = false /\ buf' = buf /\ doc' = doc
  | Some (nc', nr') =>
      if content_resize_ok (wrap ROWINDEX_bits (nr' * nc')) then
        ok = true /\ doc' = UpdateAllViews doc
        /\ exists p cells info,
            GetPattern (sndFile doc) pat = Some p
            /\ copy_rows (Z.to_nat nr') (m_ModCommands p)
                 (fr * GetNumChannels (sndFile doc) + fc) (GetNumChannels (sndFile doc))
                 (replicate (Z.to_nat (wrap ROWINDEX_bits (nr' * nc'))) ModCommand_Empty)
                 0 nc' nc' = Some cells
            /\ (if store
                then read_at (ChnSettings (sndFile doc)) 0 (GetNumChannels (sndFile doc))
                     = Some info
                else info = [])
            /\ buf' = EvictOldest buf ++ [captured pat p fc fr nc' nr' cells info link descr]
      else ok = false /\ buf' = EvictOldest buf /\ doc' = doc
  end.
Proof.
  unfold PrepareBuffer.
  destruct (ClampRect (sndFile doc) pat fc fr nc nr) as [[nc' nr']|] eqn:Hc;
    [|by intros [= <- <- <-]].
  destruct (GetPattern (sndFile doc) pat) as [p|] eqn:Hp.
  2:{ apply ClampRect_Some in Hc as (p & Hp' & _). congruence. }
  destruct (content_resize_ok _); simpl; [|by intros [= <- <- <-]].
  destruct (copy_rows _ _ _ _ _ _ _ _) as [cells|] eqn:Hcopy; simpl; [|done].
  destruct store.
  - destruct (read_at _ _ _) as [info|] eqn:Hinfo; simpl; [|done].
    intros [= <- <- <-]. repeat split. by exists p, cells, info.
  - simpl. intros [= <- <- <-]. repeat split. by exists p, cells, [].
Qed.

Lemma PrepareBuffer_sndFile doc (buf : undobuf_t) pat fc fr nc nr descr link store ok buf' doc' :
  PrepareBuffer doc buf pat fc fr nc nr descr link store = Some (ok, buf', doc') ->
  sndFile doc' = sndFile doc /\ (updates doc <= updates doc')%nat.
Proof.
  intros H%PrepareBuffer_cases.
  destruct (ClampRect _ _ _ _ _ _) as [[nc' nr']|].
  - destruct (content_resize_ok _).
    + destruct H as (_ & -> & _). simpl. split; [done|lia].
    + by destruct H as (_ & _ & ->).
  - by destruct H as (_ & _ & ->).
Qed.

(** A step that was captured describes a rectangle of its pattern. *)
Lemma captured_wf snd pat p fc fr nc nr nc' nr' cells info link descr :
  wf_sndFile snd -> 0 <= fc -> 0 <= fr ->
  ClampRect snd pat fc fr nc nr = Some (nc', nr') ->
  GetPattern snd pat = Some p ->
  copy_rows (Z.to_nat nr') (m_ModCommands p) (fr * GetNumChannels snd + fc)
    (GetNumChannels snd)
    (replicate (Z.to_nat (wrap ROWINDEX_bits (nr' * nc'))) ModCommand_Empty)
    0 nc' nc' = Some cells ->
  Z.of_nat (length info) <= maxChannels ->
  wf_undo (captured pat p fc fr nc' nr' cells info link descr)
  /\ nr' = Z.min nr (m_Rows p - fr)
  /\ nc' = Z.min nc (GetNumChannels snd - fc).
Proof.
  intros (Hch & _ & Hpats) Hfc Hfr Hclamp Hp Hcopy Hinfo.
  apply ClampRect_Some in Hclamp as (p' & Hp' & Hrow & Hnc & Hnr & Hchn & -> & Hnr').
  assert (p' = p) as -> by congruence.
  destruct (Hpats _ _ Hp) as [Hrows Hcells].
  set (nch := GetNumChannels snd) in *. set (rows := m_Rows p) in *.
  set (nc' := Z.min nc (nch - fc)) in *.
  assert (rows < 2 ^ ROWINDEX_bits) as Hfit by (apply (rows_fit rows nch); lia).
  assert (1 <= nr') as Hpos.
  { rewrite Hnr'. destruct (Z.leb_spec rows (wrap ROWINDEX_bits (fr + nr))); [|done].
    rewrite wrap_small; lia. }
  apply copy_rows_inside in Hcopy as [Hlen Hin].
  specialize (Hin (Z.to_nat nr' - 1)%nat ltac:(lia)) as (_ & _ & Hread & _ & Hwrite).
  rewrite Hcells in Hread. rewrite length_replicate in Hwrite, Hlen.
  replace (Z.of_nat (Z.to_nat nr' - 1)) with (nr' - 1) in * by lia.
  assert (fr + nr' <= rows) as Hinside by nia.
  assert (nr' = Z.min nr (rows - fr)) as Hmin.
  { rewrite Hnr' in *. destruct (Z.leb_spec rows (wrap ROWINDEX_bits (fr + nr))) as [Hle|Hgt].
    - pose proof (wrap_le (fr + nr) ltac:(lia)). rewrite wrap_small; lia.
    - lia. }
  split; [|done].
  pose proof (GetPattern_nonneg _ _ _ Hp).
  assert (0 <= nr' * nc' < 2 ^ ROWINDEX_bits) as Hsize by nia.
  rewrite (wrap_small _ Hsize) in *.
  unfold PatternSpec.wf_undo, captured; simpl. repeat split; try lia.
Qed.

(** On a well-formed document, a request whose row span does not overflow a
    [ROWINDEX] is answered without any access outside a buffer. *)
Lemma PrepareBuffer_returns doc (buf : undobuf_t) pat fc fr nc nr descr link store :
  wf_sndFile (sndFile doc) -> 0 <= fc -> 0 <= fr ->
  fr + nr < 2 ^ ROWINDEX_bits ->
  is_Some (PrepareBuffer doc buf pat fc fr nc nr descr link store).
Proof.
  intros Hwf Hfc Hfr Hno. pose proof Hwf as (Hch & Hset & Hpats). unfold PrepareBuffer.
  destruct (ClampRect (sndFile doc) pat fc fr nc nr) as [[nc' nr']|] eqn:Hc; [|by eexists].
  destruct (GetPattern (sndFile doc) pat) as [p|] eqn:Hp; [|by eexists].
  destruct (content_resize_ok _); simpl; [|by eexists].
  pose proof Hc as (p' & Hp' & Hrow & Hnc & Hnr & Hchn & Hnc' & Hnr')%ClampRect_Some.
  assert (p' = p) as -> by congruence.
  destruct (Hpats _ _ Hp) as [Hrows Hcells].
  set (nch := GetNumChannels (sndFile doc)) in *. set (rows := m_Rows p) in *.
  assert (rows < 2 ^ ROWINDEX_bits) as Hfit by (apply (rows_fit rows nch); lia).
  assert (nr' = Z.min nr (rows - fr)) as Hmin.
  { rewrite Hnr'. rewrite (wrap_small (fr + nr)) by lia.
    destruct (Z.leb_spec rows (fr + nr)); [rewrite wrap_small|]; lia. }
  assert (0 <= nr' * nc' < 2 ^ ROWINDEX_bits) as Hsize by nia.
  rewrite (wrap_small _ Hsize).
  destruct (copy_rows_ends (Z.to_nat nr') (m_ModCommands p) (fr * nch + fc) nch
              (replicate (Z.to_nat (nr' * nc')) ModCommand_Empty) 0 nc' nc')
    as [cells ->]; [lia| |].
  { intros i Hi. rewrite Hcells, length_replicate. nia. }
  simpl. destruct store; simpl; [|by eexists].
  destruct (read_at (ChnSettings (sndFile doc)) 0 nch) as [info|] eqn:Hinfo; [by eexists|].
  unfold read_at in Hinfo.
  destruct (Z.leb_spec 0 nch), (Z.leb_spec (0 + nch) (Z.of_nat (length (ChnSettings (sndFile doc)))));
    simpl in Hinfo; (done || lia).
Qed.


(** *** Channel reconciliation *)

Lemma length_concat_fmap {B C} (f : B -> list C) (l : list B) (k : nat) :
  (forall x, length (f x) = k) -> length (mjoin (f <$> l)) = (length l * k)%nat.
Proof.
  intros Hf. induction l as [|x l IH]; [done|].
  change (length (f x ++ mjoin (f <$> l)) = (length (x :: l) * k)%nat).
  rewrite length_app, Hf, IH. simpl. lia.
Qed.

Lemma rearrange_row_length {C} (fresh : C) channels row :
  length (rearrange_row fresh channels row) = length channels.
Proof. unfold rearrange_row. apply length_fmap. Qed.

Lemma wf_rearrange_pattern nch channels p :
  wf_pattern nch p ->
  wf_pattern (Z.of_nat (length channels)) (rearrange_pattern nch channels p).
Proof.
  intros [Hrows Hcells]. split; [done|]. simpl.
  rewrite (length_concat_fmap _ _ (length channels))
    by (intros; apply rearrange_row_length).
  rewrite length_reshape, length_replicate. lia.
Qed.

Lemma GetPattern_ReArrangeChannels channels snd pat :
  GetPattern (ReArrangeChannels channels snd) pat
  = rearrange_pattern (GetNumChannels snd) channels <$> GetPattern snd pat.
Proof.
  unfold GetPattern, ReArrangeChannels. simpl.
  destruct (0 <=? pat); [|done].
  rewrite list_lookup_fmap. by destruct (Patterns snd !! Z.to_nat pat) as [[?|]|].
Qed.

Lemma wf_ReArrangeChannels channels snd :
  wf_sndFile snd -> Z.of_nat (length channels) <= maxChannels ->
  wf_sndFile (ReArrangeChannels channels snd).
Proof.
  intros (Hch & Hset & Hpats) Hlen. split; [|split].
  - unfold GetNumChannels. simpl. lia.
  - unfold GetNumChannels. simpl. rewrite length_app, rearrange_row_length. lia.
  - intros pat p. rewrite GetPattern_ReArrangeChannels.
    destruct (GetPattern snd pat) as [p0|] eqn:Hp; [|done].
    intros [= <-]. unfold GetNumChannels at 1. simpl.
    apply wf_rearrange_pattern. by eapply Hpats.
Qed.

Lemma RestoreChannels_wf snd undo :
  wf_sndFile snd -> Z.of_nat (length (channelInfo undo)) <= maxChannels ->
  exists snd', RestoreChannels snd undo = Some snd'
    /\ wf_sndFile snd'
    /\ GetNumChannels snd' = channelsAfter (GetNumChannels snd) undo
    /\ (channelInfo undo = [] -> snd' = snd)
    /\ forall pat, is_Some (GetPattern snd' pat) <-> is_Some (GetPattern snd pat).
Proof.
  intros Hwf Hlen. unfold RestoreChannels, channelsAfter.
  destruct (channelInfo undo) as [|c info] eqn:Hinfo; [by exists snd|].
  set (full := c :: info) in *.
  set (snd1 := if bool_decide _ then snd else _).
  assert (wf_sndFile snd1 /\ GetNumChannels snd1 = Z.of_nat (length full)
          /\ forall pat, is_Some (GetPattern snd1 pat) <-> is_Some (GetPattern snd pat))
    as (Hwf1 & Hn1 & Hp1).
  { subst snd1. case_bool_decide as Heq; [done|].
    set (channels := _ ++ _).
    assert (length channels = length full) as Hl.
    { subst channels. rewrite length_app, length_fmap, length_seq, length_replicate.
      pose proof (Z.le_min_r (GetNumChannels snd) (Z.of_nat (length full))).
      generalize dependent (Z.min (GetNumChannels snd) (Z.of_nat (length full))).
      generalize (length full). clear. intros; lia. }
    split; [apply wf_ReArrangeChannels; [done|rewrite Hl; lia]|].
    split; [unfold GetNumChannels; simpl; by rewrite Hl|].
    intros pat. rewrite GetPattern_ReArrangeChannels. apply fmap_is_Some. }
  destruct (write_at (ChnSettings snd1) 0 full) as [settings|] eqn:Hw; simpl.
  2:{ unfold write_at in Hw. destruct Hwf1 as (_ & Hs & _).
      destruct (Z.leb_spec (0 + Z.of_nat (length full)) (Z.of_nat (length (ChnSettings snd1))));
        simpl in Hw; (done || lia). }
  eexists. split; [done|].
  split; [|split; [done|split; [done|exact Hp1]]].
  destruct Hwf1 as (Hch & Hs & Hpats). split; [done|]. split; [|exact Hpats].
  unfold GetNumChannels in *. simpl. by rewrite (write_at_length _ _ _ _ Hw).
Qed.

(** *** Creating, resizing and filling the pattern *)

Lemma wf_Resize nch p rows :
  0 <= nch -> 0 <= rows <= maxRows -> wf_pattern nch (CPattern_Resize nch p rows).
Proof. intros Hn Hr. split; [done|]. simpl. rewrite length_resize. nia. Qed.

Lemma Patterns_Insert_wf snd pat rows snd' :
  wf_sndFile snd -> 0 <= pat -> 0 <= rows <= maxRows ->
  Patterns_Insert snd pat rows = Some snd' ->
  wf_sndFile snd' /\ GetNumChannels snd' = GetNumChannels snd
  /\ exists p, GetPattern snd' pat = Some p /\ m_Rows p = rows.
Proof.
  intros Hwf Hpat Hrows. unfold Patterns_Insert. case_match; [|done]. intros [= <-].
  split; [|split; [done|]].
  - apply wf_SetPattern; [done|done|]. split; [done|]. simpl.
    rewrite length_replicate. destruct Hwf as (? & _). nia.
  - eexists. rewrite GetPattern_SetPattern by done. rewrite decide_True by done. done.
Qed.

Lemma RestoreCells_wf nch p undo :
  wf_pattern nch p -> wf_undo undo ->
  m_Rows p = numPatternRows undo ->
  firstChannel undo + numChannels undo <= nch ->
  exists p', RestoreCells nch p undo = Some p'
    /\ wf_pattern nch p' /\ m_Rows p' = m_Rows p.
Proof.
  intros [Hrows Hcells] (Hpat & Hfr & Hnr & Hin & Hfc & Hnc & _ & Hcontent & _) Heq Hfits.
  unfold RestoreCells. rewrite Z.min_l by lia.
  destruct (copy_rows_ends (Z.to_nat (numRows undo)) (content undo) 0 (numChannels undo)
              (m_ModCommands p) (firstRow undo * nch + firstChannel undo) nch
              (numChannels undo)) as [cells Hcopy]; [lia| |].
  { intros i Hi. rewrite Hcontent, Hcells. nia. }
  rewrite Hcopy. simpl. eexists. split; [done|]. split; [|done].
  split; [done|]. simpl. apply copy_rows_inside in Hcopy as [-> _]. done.
Qed.

(** What the copy leaves alone: every cell of the grid outside the rows and
    channels of the rectangle. *)
Lemma RestoreCells_frame nch p undo p' (r c : Z) :
  RestoreCells nch p undo = Some p' ->
  0 <= firstChannel undo -> firstChannel undo + numChannels undo <= nch ->
  0 <= r -> 0 <= c < nch ->
  ~ (firstRow undo <= r < firstRow undo + Z.min (numRows undo) (m_Rows p)
     /\ firstChannel undo <= c < firstChannel undo + numChannels undo) ->
  m_ModCommands p' !! Z.to_nat (r * nch + c) = m_ModCommands p !! Z.to_nat (r * nch + c).
Proof.
  unfold RestoreCells. intros Hrun Hfc Hfits Hr Hc Hout.
  destruct (copy_rows _ _ _ _ _ _ _ _) as [cells|] eqn:Hcopy; simpl in Hrun; [|done].
  injection Hrun as <-. simpl.
  eapply copy_rows_frame; [done|]. intros i Hi.
  rewrite Z2Nat.id by nia.
  intros Hin. apply Hout.
  assert (r = firstRow undo + Z.of_nat i) by nia.
  subst r. split; [lia|]. nia.
Qed.


(** *** One step of [Undo] *)

Lemma maxRows_fit undo : wf_undo undo -> maxRows < 2 ^ ROWINDEX_bits.
Proof. intros (_ & Hfr & Hnr & Hin & Hfc & Hnc & Hmc & _). nia. Qed.

Lemma wf_PatternToFill snd undo :
  wf_sndFile snd -> wf_undo undo ->
  wf_pattern (GetNumChannels snd) (PatternToFill snd undo)
  /\ m_Rows (PatternToFill snd undo) = numPatternRows undo.
Proof.
  intros (Hch & _ & Hpats) (_ & ? & ? & ? & _). unfold PatternToFill.
  destruct (GetPattern snd (pattern undo)) as [p|] eqn:Hp.
  - case_bool_decide as Heq.
    + split; [by eapply Hpats|done].
    + split; [apply wf_Resize; lia|done].
  - split; [|done]. split; [simpl; lia|]. simpl. rewrite length_replicate. nia.
Qed.

Lemma UndoStep_spec doc (base toBuf : undobuf_t) linked undo :
  wf_sndFile (sndFile doc) -> wf_undo undo ->
  exists captured toBuf' doc1 snd1,
    PrepareBuffer doc toBuf (pattern undo) (firstChannel undo) (firstRow undo)
      (numChannels undo) (numRows undo) (description undo) linked
      (negb (bool_decide (channelInfo undo = []))) = Some (captured, toBuf', doc1)
    /\ sndFile doc1 = sndFile doc
    /\ RestoreChannels (sndFile doc) undo = Some snd1
    /\ wf_sndFile snd1
    /\ GetNumChannels snd1 = channelsAfter (GetNumChannels (sndFile doc)) undo
    /\ (channelInfo undo = [] -> snd1 = sndFile doc)
    /\ (forall pat, is_Some (GetPattern snd1 pat) <-> is_Some (GetPattern (sndFile doc) pat))
    /\ if firstChannel undo + numChannels undo <=? GetNumChannels snd1 then
         if bool_decide (is_Some (GetPattern snd1 (pattern undo)))
            || Patterns_Insert_ok (pattern undo) (numPatternRows undo)
         then
           exists p',
             RestoreCells (GetNumChannels snd1) (PatternToFill snd1 undo) undo = Some p'
             /\ wf_pattern (GetNumChannels snd1) p'
             /\ m_Rows p' = numPatternRows undo
             /\ UndoStep doc (base ++ [undo]) toBuf linked undo
                = Some (pattern undo, base, toBuf',
                        UpdateAllViews (with_sndFile doc1 (SetPattern snd1 (pattern undo) p')),
                        linkToPrevious undo)
         else
           UndoStep doc (base ++ [undo]) toBuf linked undo
           = Some (PATTERNINDEX_INVALID, base, toBuf', with_sndFile doc1 snd1, false)
       else
         UndoStep doc (base ++ [undo]) toBuf linked undo
         = Some (pattern undo, base, toBuf', UpdateAllViews (with_sndFile doc1 snd1), false).
Proof.
  intros Hwf Hu. pose proof (maxRows_fit _ Hu) as Hfit.
  pose proof Hu as (Hpat & Hfr & Hnr & Hin & Hfc & Hnc & Hmaxc & Hcontent & Hinfo).
  destruct (PrepareBuffer_returns doc toBuf (pattern undo) (firstChannel undo)
              (firstRow undo) (numChannels undo) (numRows undo) (description undo) linked
              (negb (bool_decide (channelInfo undo = []))) Hwf Hfc Hfr ltac:(lia))
    as [[[captured toBuf'] doc1] HP].
  pose proof (PrepareBuffer_sndFile _ _ _ _ _ _ _ _ _ _ _ _ _ HP) as [Hsnd _].
  destruct (RestoreChannels_wf (sndFile doc) undo Hwf Hinfo)
    as (snd1 & HR & Hwf1 & Hn1 & Hsame & Hvalid).
  exists captured, toBuf', doc1, snd1. repeat (split; [done|]).
  unfold UndoStep. rewrite HP. simpl. rewrite Hsnd, HR. simpl.
  rewrite removelast_last.
  destruct (Z.leb_spec (firstChannel undo + numChannels undo) (GetNumChannels snd1))
    as [Hfits|Hfits]; [|done].
  destruct (wf_PatternToFill snd1 undo Hwf1 Hu) as [Hwfp Hrows].
  destruct (RestoreCells_wf (GetNumChannels snd1) (PatternToFill snd1 undo) undo
              Hwfp Hu Hrows Hfits) as (p' & Hcells & Hwfp' & Hrows').
  unfold PatternToFill in *.
  destruct (GetPattern snd1 (pattern undo)) as [p|] eqn:Hp; simpl.
  - exists p'. split; [done|]. split; [done|]. split; [congruence|].
    case_bool_decide as Heq; simpl.
    + rewrite Hp. simpl. rewrite Hcells. done.
    + rewrite GetPattern_SetPattern by done. rewrite decide_True by done.
      unfold GetNumChannels in *. simpl.
      rewrite Hcells. simpl. by rewrite SetPattern_SetPattern.
  - unfold Patterns_Insert.
    destruct (Patterns_Insert_ok (pattern undo) (numPatternRows undo)); [|done].
    exists p'. split; [done|]. split; [done|]. split; [congruence|].
    rewrite GetPattern_SetPattern by done. rewrite decide_True by done.
    unfold GetNumChannels in *. simpl.
    rewrite Hcells. simpl. by rewrite SetPattern_SetPattern.
Qed.


(** *** A step that no longer fits the channels *)

Lemma UndoFromTo_unfitting doc (base toBuf : undobuf_t) linked undo fuel :
  wf_sndFile (sndFile doc) -> wf_undo undo ->
  channelInfo undo = [] ->
  GetNumChannels (sndFile doc) < firstChannel undo + numChannels undo ->
  exists toBuf' doc',
    UndoFromTo (S fuel) doc (base ++ [undo]) toBuf linked
    = Some (pattern undo, base, toBuf', doc')
    /\ sndFile doc' = sndFile doc
    /\ (updates doc < updates doc')%nat.
Proof.
  intros Hwf Hu Hinfo Hfits.
  destruct (UndoStep_spec doc base toBuf linked undo Hwf Hu)
    as (captured & toBuf' & doc1 & snd1 & HP & Hsnd & _ & _ & _ & Hsame & _ & Hstep).
  rewrite (Hsame Hinfo) in Hstep.
  destruct (Z.leb_spec (firstChannel undo + numChannels undo) (GetNumChannels (sndFile doc)));
    [lia|].
  exists toBuf', (UpdateAllViews (with_sndFile doc1 (sndFile doc))).
  simpl. rewrite last_snoc, Hstep. simpl. split; [done|]. split; [done|].
  apply PrepareBuffer_sndFile in HP as [_ ?]. lia.
Qed.

(** Claim C10.  When pattern [Undo] or [Redo] takes a step without channel
    settings whose rectangle no longer fits the channel count of the document
    ([firstChannel + numChannels] exceeds it), the step is removed from the
    source buffer, the views are notified and the pattern index of the step
    is returned; the sound file is left as it was (no cell written, no
    pattern created or resized) and, whatever [linkToPrevious] says, no
    earlier step is taken: of the source buffer only this step is gone. *)
Theorem unfitting_step_is_dropped doc (base toBuf : undobuf_t) undo :
  wf_sndFile (sndFile doc) -> wf_undo undo ->
  channelInfo undo = [] ->
  GetNumChannels (sndFile doc) < firstChannel undo + numChannels undo ->
  (exists toBuf' doc',
      Undo doc {| UndoBuffer := base ++ [undo]; RedoBuffer := toBuf |}
      = Some (pattern undo, {| UndoBuffer := base; RedoBuffer := toBuf' |}, doc')
      /\ sndFile doc' = sndFile doc /\ (updates doc < updates doc')%nat)
  /\ (exists toBuf' doc',
      Redo doc {| UndoBuffer := toBuf; RedoBuffer := base ++ [undo] |}
      = Some (pattern undo, {| UndoBuffer := toBuf'; RedoBuffer := base |}, doc')
      /\ sndFile doc' = sndFile doc /\ (updates doc < updates doc')%nat).
Proof.
  intros Hwf Hu Hinfo Hfits.
  destruct (UndoFromTo_unfitting doc base toBuf false undo (length base) Hwf Hu Hinfo Hfits)
    as (toBuf' & doc' & Hrun & Hsnd & Hupd).
  split; exists toBuf', doc'; (split; [|done]); unfold Undo, Redo; simpl;
    rewrite length_app; simpl; rewrite Nat.add_1_r, Hrun; done.
Qed.

(** *** Linked steps *)




(** *** [PrepareUndo] *)

Lemma PrepareUndo_rejected doc u pat fc fr nc nr descr link store :
  ClampRect (sndFile doc) pat fc fr nc nr = None ->
  PrepareUndo doc u pat fc fr nc nr descr link store = Some (false, u, doc).
Proof.
  intros Hc. unfold PrepareUndo, PrepareBuffer. rewrite Hc. simpl. by destruct u.
Qed.

Lemma PrepareUndo_failed_below_cap doc u pat fc fr nc nr descr link store u' doc' :
  PrepareUndo doc u pat fc fr nc nr descr link store = Some (false, u', doc') ->
  Z.of_nat (length (UndoBuffer u)) < MAX_UNDO_LEVEL ->
  u' = u /\ doc' = doc.
Proof.
  unfold PrepareUndo.
  destruct (PrepareBuffer _ _ _ _ _ _ _ _ _ _) as [[[ok buf'] doc1]|] eqn:HP; simpl; [|done].
  destruct ok; [done|]. intros [= <- <-] Hcap.
  apply PrepareBuffer_cases in HP.
  destruct (ClampRect _ _ _ _ _ _) as [[nc' nr']|].
  - destruct (content_resize_ok _); [by destruct HP|].
    destruct HP as (_ & -> & ->). unfold EvictOldest.
    destruct (Z.leb_spec MAX_UNDO_LEVEL (Z.of_nat (length (UndoBuffer u)))); [lia|]. by destruct u.
  - destruct HP as (_ & -> & ->). by destruct u.
Qed.

Lemma Undo_nothing doc u :
  UndoBuffer u = [] -> Undo doc u = Some (PATTERNINDEX_INVALID, u, doc).
Proof. intros H. unfold Undo. rewrite H. simpl. destruct u; simpl in *. by subst. Qed.

Lemma Redo_nothing doc u :
  RedoBuffer u = [] -> Redo doc u = Some (PATTERNINDEX_INVALID, u, doc).
Proof. intros H. unfold Redo. rewrite H. simpl. destruct u; simpl in *. by subst. Qed.


(** *** The restore stays inside the grid *)

(** Claim C7.  A step captured with [storeChannelInfo = false] can be undone
    on any well-formed document, whatever the size that its pattern has by
    then: the restore returns (no read outside the saved cells, no write
    outside the grid), the document stays well formed, and when the
    rectangle fits the channel count the pattern is the resized pattern with
    the first [min numRows m_Rows] rows of the rectangle written from the
    saved cells and every other cell as it was, provided that the pattern
    exists or can be inserted; when it does not fit, the sound file is left
    as it was. *)
Theorem restore_stays_inside_pattern
        doc0 (buf0 : undobuf_t) pat fc fr nc nr descr link buf0' doc0'
        doc (base toBuf : undobuf_t) linked :
  wf_sndFile (sndFile doc0) -> 0 <= fc -> 0 <= fr ->
  PrepareBuffer doc0 buf0 pat fc fr nc nr descr link false = Some (true, buf0', doc0') ->
  wf_sndFile (sndFile doc) ->
  exists undo,
    last buf0' = Some undo /\ channelInfo undo = []
    /\ firstRow undo = fr /\ firstChannel undo = fc
    /\ exists nPattern toBuf' doc' link',
        UndoStep doc (base ++ [undo]) toBuf linked undo
        = Some (nPattern, base, toBuf', doc', link')
        /\ wf_sndFile (sndFile doc')
        /\ (GetNumChannels (sndFile doc) < firstChannel undo + numChannels undo ->
            sndFile doc' = sndFile doc)
        /\ (firstChannel undo + numChannels undo <= GetNumChannels (sndFile doc) ->
            Creatable (sndFile doc) undo ->
            exists p',
              GetPattern (sndFile doc') pat = Some p'
              /\ m_Rows p' = numPatternRows undo
              /\ RestoreCells (GetNumChannels (sndFile doc))
                   (PatternToFill (sndFile doc) undo) undo = Some p'
              /\ SameOutside (GetNumChannels (sndFile doc)) undo
                   (PatternToFill (sndFile doc) undo) p').
Proof.
  intros Hwf0 Hfc Hfr HP Hwf.
  apply PrepareBuffer_cases in HP.
  destruct (ClampRect (sndFile doc0) pat fc fr nc nr) as [[nc' nr']|] eqn:Hc;
    [|by destruct HP].
  destruct (content_resize_ok _); [|by destruct HP].
  destruct HP as (_ & _ & p0 & cells & info & Hp0 & Hcopy & -> & ->).
  destruct (captured_wf _ _ _ _ _ _ _ _ _ _ [] link descr Hwf0 Hfc Hfr Hc Hp0 Hcopy)
    as (Hu & _ & _).
  { simpl. destruct Hwf0. lia. }
  set (undo := captured pat p0 fc fr nc' nr' cells [] link descr) in *.
  exists undo. rewrite last_snoc. repeat (split; [done|]).
  assert (pattern undo = pat) as Hpat_eq by done.
  assert (channelInfo undo = []) as Hinfo_eq by done.
  clearbody undo.
  destruct (UndoStep_spec doc base toBuf linked undo Hwf Hu)
    as (captured & toBuf' & doc1 & snd1 & _ & Hsnd & _ & Hwf1 & Hn1 & Hsame & Hvalid & Hstep).
  specialize (Hsame Hinfo_eq). subst snd1.
  destruct (Z.leb_spec (firstChannel undo + numChannels undo) (GetNumChannels (sndFile doc)))
    as [Hfits|Hfits].
  - destruct (bool_decide (is_Some (GetPattern (sndFile doc) (pattern undo)))
              || Patterns_Insert_ok (pattern undo) (numPatternRows undo)) eqn:Hok.
    + destruct Hstep as (p' & Hcells & Hwfp' & Hrows' & Hstep).
      eexists _, _, _, _. split; [exact Hstep|]. simpl.
      assert (0 <= pattern undo) as Hpat by by destruct Hu.
      split; [by apply wf_SetPattern|]. split; [lia|].
      intros _ _. exists p'. rewrite <- Hpat_eq.
      rewrite GetPattern_SetPattern by done. rewrite decide_True by done.
      repeat (split; [done|]).
      destruct (wf_PatternToFill (sndFile doc) undo Hwf Hu) as [[_ Hlen] Hrows].
      destruct Hwfp' as [_ Hlen'].
      split; [congruence|].
      split; [apply Nat2Z.inj; rewrite Hlen', Hlen, Hrows', Hrows; done|].
      intros r c Hr Hcol Hout.
      eapply RestoreCells_frame; try done. by destruct Hu as (_ & _ & _ & _ & ? & _).
    + eexists _, _, _, _. split; [exact Hstep|]. simpl. split; [done|]. split; [lia|].
      intros _ [Hv|Hi]; exfalso.
      * rewrite bool_decide_true in Hok by done. done.
      * rewrite Hi, orb_true_r in Hok. done.
  - eexists _, _, _, _. split; [exact Hstep|]. simpl. split; [done|]. split; [done|]. lia.
Qed.

End WithExternals.
End PatternProofs.

(** ** Sample undo *)

Module SampleProofs.
Import CSampleUndo SampleSpec.

Section WithExternals.
Context `{Ext : Externals}.
Variable budget : Z.

Local Abbreviation WithinBudgetButOne := (SampleSpec.WithinBudgetButOne budget).
Local Abbreviation Inv := (SampleSpec.Inv budget).
Local Abbreviation Prepared := (SampleSpec.Prepared budget).
Local Abbreviation step := (SampleSpec.step budget).
Local Abbreviation reachable := (SampleSpec.reachable budget).

(** *** Slots of a buffer *)

Lemma alter_slot {A} (f : list A -> list A) (i : nat) (b : list (list A)) (x : list A) :
  b !! i = Some x ->
  exists b1 b2, b = b1 ++ x :: b2 /\ alter f i b = b1 ++ f x :: b2.
Proof.
  intros Hi. exists (take i b), (drop (S i) b).
  pose proof (take_drop_middle b i x Hi) as Hb. split; [done|].
  rewrite <- Hb at 1.
  assert (length (take i b) = i) as Hlen.
  { rewrite length_take. apply lookup_lt_Some in Hi. lia. }
  rewrite alter_app_r_alt by lia.
  rewrite Hlen, Nat.sub_diag. reflexivity.
Qed.

Lemma steps_alter (f : list UndoInfo -> list UndoInfo) (b : undobuf_t) (smp k : nat) :
  (smp - 1 < length b)%nat ->
  steps (alter f (smp - 1)%nat b) k
  = if decide (smp - 1 = k - 1)%nat then f (steps b k) else steps b k.
Proof.
  intros Hlt. unfold steps. case_decide as Hk.
  - rewrite <- Hk, list_lookup_alter_eq.
    destruct (lookup_lt_is_Some_2 b (smp - 1)%nat Hlt) as [x ->]. reflexivity.
  - by rewrite list_lookup_alter_ne.
Qed.

Lemma steps_resize (b : undobuf_t) (n k : nat) :
  (length b <= n)%nat -> steps (resize n [] b) k = steps b k.
Proof.
  intros Hn. unfold steps. rewrite resize_ge by done.
  destruct (decide (k - 1 < length b)%nat).
  - by rewrite lookup_app_l.
  - rewrite lookup_app_r by lia. rewrite (lookup_ge_None_2 b) by lia.
    destruct (decide (k - 1 - length b < n - length b)%nat).
    + by rewrite lookup_replicate_2.
    + by rewrite lookup_ge_None_2 by (rewrite length_replicate; lia).
Qed.

Lemma SampleBufferExists_true (b : undobuf_t) (smp : nat) :
  SampleBufferExists b smp = true
  <-> (0 < smp)%nat /\ (smp < MAX_SAMPLES)%nat /\ (smp <= length b)%nat.
Proof.
  unfold SampleBufferExists.
  destruct (Nat.eqb_spec smp 0), (Nat.leb_spec MAX_SAMPLES smp); simpl;
    rewrite ?Nat.leb_le; try lia; split; (done || lia).
Qed.

Lemma SampleBufferExists_length (b b' : undobuf_t) (smp : nat) :
  length b' = length b -> SampleBufferExists b' smp = SampleBufferExists b smp.
Proof. unfold SampleBufferExists. by intros ->. Qed.

(** *** Erasing steps *)

Lemma DeleteStep_length (b : undobuf_t) smp step : length (DeleteStep b smp step) = length b.
Proof. unfold DeleteStep. case_match; [done|]. apply length_alter. Qed.

Lemma DeleteStep_front (b : undobuf_t) (smp : nat) :
  SampleBufferExists b smp = true ->
  DeleteStep b smp 0 = alter (drop 1) (smp - 1)%nat b.
Proof.
  intros He. unfold DeleteStep. rewrite He. simpl.
  apply SampleBufferExists_true in He as (? & ? & ?).
  destruct (lookup_lt_is_Some_2 b (smp - 1)%nat ltac:(lia)) as [x Hx].
  unfold steps. rewrite Hx. simpl.
  destruct x as [|s x]; simpl.
  - symmetry. destruct (alter_slot (drop 1) _ _ _ Hx) as (b1 & b2 & -> & ->). done.
  - apply list_alter_ext; [|done]. intros y Hy. by destruct y.
Qed.

Lemma iter_DeleteStep (b : undobuf_t) (smp n : nat) :
  SampleBufferExists b smp = true ->
  Nat.iter n (fun b => DeleteStep b smp 0) b = alter (drop n) (smp - 1)%nat b.
Proof.
  intros He. induction n as [|n IH]; simpl.
  - symmetry. apply list_alter_id. done.
  - rewrite IH. rewrite DeleteStep_front.
    + rewrite list_alter_alter_eq. apply list_alter_ext; [|done].
      intros x _. simpl. rewrite drop_drop. f_equal. lia.
    + rewrite (SampleBufferExists_length b); [done|apply length_alter].
Qed.

Lemma iter_DeleteStep_S (b : undobuf_t) (smp n : nat) :
  SampleBufferExists b smp = true ->
  DeleteStep (Nat.iter n (fun b => DeleteStep b smp 0) b) smp 0
  = alter (drop (S n)) (smp - 1)%nat b.
Proof. intros He. exact (iter_DeleteStep b smp (S n) He). Qed.

Lemma ClearUndo_spec (b : undobuf_t) (smp : nat) :
  ClearUndo b smp =
  if SampleBufferExists b smp then alter (fun _ => []) (smp - 1)%nat b else b.
Proof.
  unfold ClearUndo. destruct (SampleBufferExists b smp) eqn:He; simpl; [|done].
  rewrite iter_DeleteStep by done.
  apply list_alter_ext; [|done]. intros x Hx.
  unfold steps. rewrite Hx. simpl. apply drop_all.
Qed.


(** *** Accounting *)

Hypothesis bits_nonneg : 0 <= SmpLength_bits.

Lemma wrap_nonneg x : 0 <= wrap SmpLength_bits x.
Proof. unfold wrap. apply Z.mod_pos_bound. apply Z.pow_pos_nonneg; lia. Qed.

Lemma stepCapacity_nonneg s : 0 <= stepCapacity s.
Proof.
  unfold stepCapacity, stepBytes, smp_mul. destruct (samplePtr s); [apply wrap_nonneg|lia].
Qed.

Lemma total_app l1 l2 : total (l1 ++ l2) = total l1 + total l2.
Proof. induction l1 as [|s l1 IH]; simpl; lia. Qed.

Lemma largest_app l1 l2 : largest (l1 ++ l2) = Z.max (largest l1) (largest l2).
Proof.
  induction l1 as [|s l1 IH]; simpl.
  - assert (0 <= largest l2); [|lia].
    induction l2; simpl; lia.
  - lia.
Qed.

Lemma largest_nonneg l : 0 <= largest l.
Proof. induction l; simpl; lia. Qed.

Lemma total_nonneg l : 0 <= total l.
Proof. induction l as [|s l IH]; simpl; [lia|]. pose proof (stepCapacity_nonneg s). lia. Qed.

Lemma largest_le_total l : largest l <= total l.
Proof.
  induction l as [|s l IH]; simpl; [lia|].
  pose proof (stepCapacity_nonneg s). pose proof (total_nonneg l). lia.
Qed.

Lemma total_Permutation l1 l2 : l1 ≡ₚ l2 -> total l1 = total l2.
Proof. induction 1; simpl; lia. Qed.

Lemma largest_Permutation l1 l2 : l1 ≡ₚ l2 -> largest l1 = largest l2.
Proof. induction 1; simpl; lia. Qed.

Lemma total_submseteq l1 l2 : l1 ⊆+ l2 -> total l1 <= total l2.
Proof.
  intros [k Hk]%submseteq_Permutation.
  rewrite (total_Permutation _ _ Hk), total_app. pose proof (total_nonneg k). lia.
Qed.

Lemma WithinBudgetButOne_sub l1 l2 :
  l1 ⊆+ l2 -> WithinBudgetButOne l2 -> WithinBudgetButOne l1.
Proof.
  unfold SampleSpec.WithinBudgetButOne. intros [k Hk]%submseteq_Permutation.
  rewrite (total_Permutation _ _ Hk), (largest_Permutation _ _ Hk), total_app, largest_app.
  pose proof (largest_le_total k). pose proof (largest_nonneg l1).
  pose proof (total_nonneg k). lia.
Qed.

Lemma WithinBudgetButOne_push l s :
  total l <= budget -> WithinBudgetButOne (s :: l).
Proof. unfold SampleSpec.WithinBudgetButOne. simpl. pose proof (largest_nonneg l). lia. Qed.

Lemma GetBufferCapacity_total (b : undobuf_t) : GetBufferCapacity b = total (concat b).
Proof.
  unfold GetBufferCapacity. induction b as [|x b IH]; simpl; [done|].
  rewrite total_app, IH. generalize (total (concat b)). intros z.
  induction x as [|s x IHx]; simpl; lia.
Qed.

Lemma heldBytes_total u : heldBytes u = total (allSteps u).
Proof. unfold heldBytes, allSteps. by rewrite total_app, !GetBufferCapacity_total. Qed.

Lemma countSteps_length (b : undobuf_t) : countSteps b = length (concat b).
Proof. unfold countSteps. induction b as [|x b IH]; simpl; [done|]. rewrite length_app. lia. Qed.

Lemma concat_alter_submseteq (f : list UndoInfo -> list UndoInfo) (i : nat) (b : undobuf_t) :
  (forall x, f x ⊆+ x) -> concat (alter f i b) ⊆+ concat b.
Proof.
  intros Hf. destruct (b !! i) as [x|] eqn:Hx.
  - destruct (alter_slot f _ _ _ Hx) as (b1 & b2 & -> & ->).
    rewrite !concat_app. simpl. apply submseteq_app; [done|].
    apply submseteq_app; [apply Hf|done].
  - rewrite (list_alter_ext f id b b i); [|congruence|done].
    by rewrite list_alter_id.
Qed.

Lemma concat_alter_measure (f : list UndoInfo -> list UndoInfo) (i : nat) (b : undobuf_t) x :
  b !! i = Some x ->
  total (concat (alter f i b)) = total (concat b) - total x + total (f x)
  /\ (length (concat (alter f i b)) + length x = length (concat b) + length (f x))%nat.
Proof.
  intros Hx. destruct (alter_slot f _ _ _ Hx) as (b1 & b2 & -> & ->).
  rewrite !concat_app. simpl. rewrite !total_app, !length_app. lia.
Qed.

Lemma DeleteStep_submseteq (b : undobuf_t) smp step :
  concat (DeleteStep b smp step) ⊆+ concat b.
Proof.
  unfold DeleteStep. case_match; [done|].
  apply concat_alter_submseteq. intros x. apply sublist_submseteq, sublist_delete.
Qed.

(** *** The first step that owns a buffer *)

Lemma firstOwned_None i stack : firstOwned i stack = None -> total stack = 0.
Proof.
  revert i. induction stack as [|s stack IH]; intros i; simpl; [done|].
  unfold stepCapacity at 1. destruct (samplePtr s); [done|]. intros H. rewrite (IH _ H). lia.
Qed.

Lemma firstOwned_Some i stack j s :
  firstOwned i stack = Some (j, s) ->
  (i <= j)%nat /\ (j - i < length stack)%nat
  /\ total (drop (S (j - i)) stack) = total stack - stepBytes s.
Proof.
  revert i. induction stack as [|s' stack IH]; intros i; simpl; [done|].
  unfold stepCapacity at 1. destruct (samplePtr s') eqn:Hp.
  - intros [= <- <-]. rewrite Nat.sub_diag. simpl. rewrite drop_0. lia.
  - intros H. destruct (IH _ H) as (Hle & Hlt & Htot).
    replace (j - i)%nat with (S (j - S i)) by lia. simpl. split; [lia|]. split; [lia|].
    rewrite Htot. lia.
Qed.

(** *** One slot, one buffer, the whole loop *)

Lemma RestrictSlot_spec (b : undobuf_t) (smp : nat) (c : Z) b' c' :
  SampleBufferExists b smp = true ->
  RestrictSlot b smp c = (b', c') ->
  length b' = length b
  /\ concat b' ⊆+ concat b
  /\ c' - total (concat b') = c - total (concat b)
  /\ (total (steps b smp) = 0 /\ b' = b /\ c' = c
      \/ (length (concat b') < length (concat b))%nat).
Proof.
  intros He. unfold RestrictSlot.
  pose proof He as (Hpos & Hmax & Hlen)%SampleBufferExists_true.
  destruct (lookup_lt_is_Some_2 b (smp - 1)%nat ltac:(lia)) as [x Hx].
  unfold steps. rewrite Hx. cbn [from_option id].
  destruct (firstOwned 0 x) as [[i s]|] eqn:Hf.
  - intros [= <- <-]. rewrite iter_DeleteStep_S by done.
    apply firstOwned_Some in Hf as (_ & Hlt & Htot). rewrite Nat.sub_0_r in *.
    destruct (concat_alter_measure (drop (S i)) _ _ _ Hx) as [Ht Hl].
    rewrite length_alter. split; [done|]. split.
    { apply concat_alter_submseteq. intros y. apply sublist_submseteq, sublist_drop. }
    rewrite Ht, Htot. split; [lia|]. right.
    rewrite length_drop in Hl. lia.
  - intros [= <- <-]. split; [done|]. split; [done|]. split; [done|].
    left. split; [by eapply firstOwned_None|done].
Qed.

Lemma RestrictSlots_spec (smps : list nat) (b : undobuf_t) (c : Z) b' c' :
  (forall smp, smp ∈ smps -> (0 < smp <= length b)%nat /\ (smp < MAX_SAMPLES)%nat) ->
  RestrictSlots budget smps b c = (b', c') ->
  length b' = length b
  /\ concat b' ⊆+ concat b
  /\ c' - total (concat b') = c - total (concat b)
  /\ (c <= budget \/ (forall smp, smp ∈ smps -> total (steps b smp) = 0)
      \/ (length (concat b') < length (concat b))%nat).
Proof.
  revert b c. induction smps as [|smp smps IH]; intros b c Hin; simpl.
  - intros [= <- <-]. repeat split; try done. right. left. intros ? []%elem_of_nil.
  - destruct (Z.leb_spec c budget) as [Hc|Hc].
    { intros [= <- <-]. repeat split; try done. by left. }
    destruct (RestrictSlot b smp c) as [b1 c1] eqn:H1. intros H2.
    assert (SampleBufferExists b smp = true) as He.
    { apply SampleBufferExists_true. destruct (Hin smp) as [? ?]; [left|lia]. }
    destruct (RestrictSlot_spec _ _ _ _ _ He H1) as (Hl1 & Hs1 & Hc1 & Hp1).
    destruct (IH b1 c1) as (Hl2 & Hs2 & Hc2 & Hp2); [|done|].
    { intros k Hk. rewrite Hl1. apply Hin. by right. }
    split; [congruence|]. split; [by etrans|]. split; [lia|].
    apply submseteq_length in Hs2 as Hlen2.
    destruct Hp1 as [(Hz & -> & ->)|Hlt]; [|right; right; lia].
    destruct Hp2 as [Hle|[Hall|Hlt]]; [lia| |by right; right].
    right. left. intros k [->|Hk]%elem_of_cons; [done|]. by apply Hall.
Qed.

Lemma total_concat_zero (b : undobuf_t) :
  (forall smp, (0 < smp <= length b)%nat -> total (steps b smp) = 0) ->
  total (concat b) = 0.
Proof.
  induction b as [|x b IH] using rev_ind; intros H; [done|].
  rewrite concat_app, total_app. simpl. rewrite app_nil_r.
  rewrite length_app in H. simpl in H.
  rewrite IH.
  - specialize (H (S (length b)) ltac:(lia)). unfold steps in H.
    replace (S (length b) - 1)%nat with (length b) in H by lia.
    rewrite list_lookup_middle in H by done. simpl in H. lia.
  - intros smp Hs. rewrite <- (H smp) by lia. unfold steps.
    by rewrite lookup_app_l by lia.
Qed.

Lemma RestrictBuffer_spec (b : undobuf_t) (c : Z) b' c' :
  SlotsOk b ->
  RestrictBuffer budget b c = (b', c') ->
  length b' = length b
  /\ concat b' ⊆+ concat b
  /\ c' - total (concat b') = c - total (concat b)
  /\ (c <= budget \/ total (concat b) = 0
      \/ (length (concat b') < length (concat b))%nat).
Proof.
  unfold SlotsOk, RestrictBuffer. intros Hok H.
  assert (forall smp, smp ∈ seq 1 (length b) ->
            (0 < smp <= length b)%nat /\ (smp < MAX_SAMPLES)%nat) as Hin.
  { intros smp Hs%elem_of_seq. lia. }
  destruct (RestrictSlots_spec _ _ _ _ _ Hin H) as (Hl & Hs & Hc & Hp).
  repeat split; try done.
  destruct Hp as [?|[Hall|?]]; [by left| |by right; right].
  right. left. apply total_concat_zero. intros smp Hsmp. apply Hall.
  apply elem_of_seq. lia.
Qed.

Lemma RestrictRounds_spec (fuel : nat) (u : CSampleUndo) (c : Z) :
  0 <= budget ->
  SlotsOk (UndoBuffer u) -> SlotsOk (RedoBuffer u) ->
  c = total (allSteps u) ->
  (length (allSteps u) <= fuel)%nat ->
  exists u', RestrictRounds budget fuel u c = Some u'
    /\ length (UndoBuffer u') = length (UndoBuffer u)
    /\ length (RedoBuffer u') = length (RedoBuffer u)
    /\ concat (UndoBuffer u') ⊆+ concat (UndoBuffer u)
    /\ concat (RedoBuffer u') ⊆+ concat (RedoBuffer u)
    /\ total (allSteps u') <= budget.
Proof.
  intros Hb. revert u c. induction fuel as [|fuel IH]; intros u c Hu Hr Hc Hfuel.
  - destruct (allSteps u) eqn:Hall; [|simpl in Hfuel; lia].
    simpl in Hc. subst c. simpl.
    destruct (Z.leb_spec 0 budget); [|lia].
    exists u. rewrite Hall. simpl. repeat split; done.
  - simpl. destruct (Z.leb_spec c budget) as [Hle|Hgt].
    { exists u. repeat split; try done. lia. }
    destruct (RestrictBuffer budget (UndoBuffer u) c) as [ub c1] eqn:H1.
    destruct (RestrictBuffer budget (RedoBuffer u) c1) as [rb c2] eqn:H2.
    destruct (RestrictBuffer_spec _ _ _ _ Hu H1) as (Hl1 & Hs1 & Hc1 & Hp1).
    destruct (RestrictBuffer_spec _ _ _ _ Hr H2) as (Hl2 & Hs2 & Hc2 & Hp2).
    unfold allSteps in *. rewrite total_app, length_app in *.
    apply submseteq_length in Hs1 as Hlen1. apply submseteq_length in Hs2 as Hlen2.
    destruct (IH {| UndoBuffer := ub; RedoBuffer := rb |} c2)
      as (u' & Hrun & Hlu & Hlr & Hsu & Hsr & Htot); simpl.
    + unfold SlotsOk in *. lia.
    + unfold SlotsOk in *. lia.
    + rewrite total_app. lia.
    + rewrite length_app.
      pose proof (total_nonneg (concat ub)). pose proof (total_nonneg (concat rb)).
      destruct Hp1 as [?|[Hz1|?]]; [lia| |lia].
      destruct Hp2 as [Hle2|[Hz2|?]]; [|lia|lia].
      (* the first pass left the capacity alone, the second one brought it down *)
      assert (total (concat ub) <= total (concat (UndoBuffer u))) by by apply total_submseteq.
      assert (total (concat rb) <= total (concat (RedoBuffer u))) by by apply total_submseteq.
      pose proof (total_nonneg (concat (RedoBuffer u))).
      assert (length (concat rb) < length (concat (RedoBuffer u)) \/
              length (concat rb) = length (concat (RedoBuffer u)))%nat as [?|Heq] by lia;
        [lia|].
      apply submseteq_length_Permutation in Hs2; [|lia].
      apply total_Permutation in Hs2. lia.
    + exists u'. simpl in *. repeat split; try done; try congruence; by etrans.
Qed.

Lemma RestrictBufferSize_spec (u : CSampleUndo) :
  0 <= budget ->
  SlotsOk (UndoBuffer u) -> SlotsOk (RedoBuffer u) ->
  exists u', RestrictBufferSize budget u = Some u'
    /\ length (UndoBuffer u') = length (UndoBuffer u)
    /\ length (RedoBuffer u') = length (RedoBuffer u)
    /\ concat (UndoBuffer u') ⊆+ concat (UndoBuffer u)
    /\ concat (RedoBuffer u') ⊆+ concat (RedoBuffer u)
    /\ heldBytes u' <= budget.
Proof.
  intros Hb Hu Hr. unfold RestrictBufferSize.
  destruct (RestrictRounds_spec
              (countSteps (UndoBuffer u) + countSteps (RedoBuffer u)) u
              (GetBufferCapacity (UndoBuffer u) + GetBufferCapacity (RedoBuffer u)))
    as (u' & Hrun & H); try done.
  - apply heldBytes_total.
  - unfold allSteps. rewrite length_app, !countSteps_length. lia.
  - exists u'. rewrite heldBytes_total. done.
Qed.


(** *** The outcomes of [PrepareBuffer] *)

Lemma PrepareBuffer_Prepared doc u sel smp kind descr s e ok u' doc' :
  PrepareBuffer budget doc u sel smp kind descr s e = Some (ok, u', doc') ->
  Prepared doc u sel smp kind descr s e ok u' doc'.
Proof.
  unfold PrepareBuffer.
  destruct (Nat.eqb_spec smp 0) as [->|Hsmp]; simpl.
  { intros [= <- <- <-]. constructor. by left. }
  destruct (Nat.leb_spec MAX_SAMPLES smp) as [Hmax|Hmax]; simpl.
  { intros [= <- <- <-]. constructor. right. by left. }
  destruct (Z.eqb_spec budget 0) as [Hb|Hb].
  { intros [= <- <- <-]. constructor. right. by right. }
  fold (grown (get_buf sel u) smp).
  destruct (EvictWhileFull _ _ _) as [b2|] eqn:Hev; simpl; [|done].
  pose proof (prepared_bad_range budget doc u sel smp kind descr s e b2) as Pbad.
  pose proof (prepared_no_memory budget doc u sel smp kind descr s e b2) as Pmem.
  pose proof (prepared_captured budget doc u sel smp kind descr s e b2) as Pcap.
  unfold captured, forced in *.
  destruct (ForcedRange (GetSample (sndFile doc) smp) kind s e) as [cs ce] eqn:Hfr.
  simpl in Pbad, Pmem, Pcap.
  destruct (Z.ltb_spec (nLength (GetSample (sndFile doc) smp)) cs) as [H1|H1]; simpl.
  { intros [= <- <- <-]. apply Pbad; try done; lia. }
  destruct (Z.ltb_spec ce cs) as [H2|H2]; simpl.
  { intros [= <- <- <-]. apply Pbad; try done; lia. }
  destruct (RestrictBufferSize _ _) as [u3|] eqn:Hr; simpl; [|done].
  destruct (savesData kind && HasSampleData (GetSample (sndFile doc) smp)) eqn:Hsave.
  - apply andb_true_iff in Hsave as [Hs Hh].
    unfold AllocateSample.
    destruct (AllocateSample_ok _ _) eqn:Hal.
    + match goal with
      | |- (?m ≫= _) = _ -> _ => destruct m as [ptr|] eqn:Hm
      end; simpl; [|done].
      intros [= <- <- <-].
      apply (Pcap u3 (Some ptr)); try done; try lia.
    + intros [= <- <- <-]. apply (Pmem u3); try done; lia.
  - intros [= <- <- <-].
    apply (Pcap u3 None); try done; try lia.
Qed.


(** *** The invariant of the two buffers *)

Lemma get_set_buf sel u b : get_buf sel (set_buf sel u b) = b.
Proof. by destruct sel. Qed.

Lemma get_set_buf_other sel u b : get_buf (other sel) (set_buf sel u b) = get_buf (other sel) u.
Proof. by destruct sel. Qed.

Lemma set_get_buf sel u : set_buf sel u (get_buf sel u) = u.
Proof. by destruct sel, u. Qed.

Lemma allSteps_sel sel u :
  allSteps u ≡ₚ concat (get_buf sel u) ++ concat (get_buf (other sel) u).
Proof. unfold allSteps. destruct sel; simpl; [done|]. apply Permutation_app_comm. Qed.

Lemma SlotsOk_sel u : (forall sel, SlotsOk (get_buf sel u)) <-> SlotsOk (UndoBuffer u) /\ SlotsOk (RedoBuffer u).
Proof.
  split.
  - intros Hs. split; [apply (Hs SelUndo)|apply (Hs SelRedo)].
  - intros [? ?] []; done.
Qed.

Lemma WithinBudgetButOne_Permutation l1 l2 :
  l1 ≡ₚ l2 -> WithinBudgetButOne l1 -> WithinBudgetButOne l2.
Proof.
  unfold SampleSpec.WithinBudgetButOne. intros H.
  by rewrite (total_Permutation _ _ H), (largest_Permutation _ _ H).
Qed.

(** Replacing one buffer by one that holds a part of its steps. *)
Lemma Inv_shrink sel u b :
  length b = length (get_buf sel u) ->
  concat b ⊆+ concat (get_buf sel u) ->
  Inv u -> Inv (set_buf sel u b).
Proof.
  intros Hlen Hsub (Hu & Hr & Hw).
  pose proof (proj2 (SlotsOk_sel u) (conj Hu Hr)) as Hok.
  split; [|split].
  - destruct sel; simpl; [|done]. unfold SlotsOk in *. simpl in Hlen. lia.
  - destruct sel; simpl; [done|]. unfold SlotsOk in *. simpl in Hlen. lia.
  - eapply WithinBudgetButOne_sub; [|exact Hw].
    rewrite (allSteps_sel sel u), (allSteps_sel sel (set_buf sel u b)).
    rewrite get_set_buf, get_set_buf_other. by apply submseteq_app.
Qed.

Lemma grown_length (b : undobuf_t) smp : length (grown b smp) = Nat.max (length b) smp.
Proof.
  unfold grown. destruct (Nat.ltb_spec (length b) smp); [rewrite length_resize|]; lia.
Qed.

Lemma grown_concat (b : undobuf_t) smp : concat (grown b smp) = concat b.
Proof.
  unfold grown. destruct (Nat.ltb_spec (length b) smp); [|done].
  rewrite resize_ge by lia. rewrite concat_app.
  generalize (smp - length b)%nat. intros n.
  assert (concat (replicate n ([] : list UndoInfo)) = []) as ->; [|by rewrite app_nil_r].
  induction n; simpl; done.
Qed.

Lemma grown_steps (b : undobuf_t) smp k : steps (grown b smp) k = steps b k.
Proof.
  unfold grown. destruct (Nat.ltb_spec (length b) smp); [|done].
  apply steps_resize. lia.
Qed.

Lemma EvictWhileFull_spec fuel (b : undobuf_t) smp b' :
  EvictWhileFull fuel b smp = Some b' ->
  length b' = length b /\ concat b' ⊆+ concat b.
Proof.
  revert b. induction fuel as [|fuel IH]; intros b; simpl.
  - case_match; [done|]. by intros [= <-].
  - case_match; [|by intros [= <-]].
    intros Hrun%IH. rewrite DeleteStep_length in Hrun. destruct Hrun as [? ?].
    split; [done|]. etrans; [done|]. apply DeleteStep_submseteq.
Qed.


Lemma Inv_grow_evict sel u smp fuel b2 :
  (0 < smp < MAX_SAMPLES)%nat ->
  EvictWhileFull fuel (grown (get_buf sel u) smp) smp = Some b2 ->
  Inv u ->
  Inv (set_buf sel u b2) /\ (smp <= length b2)%nat.
Proof.
  intros Hsmp (Hlen & Hsub)%EvictWhileFull_spec (Hu & Hr & Hw).
  rewrite grown_length in Hlen. rewrite grown_concat in Hsub.
  pose proof (proj2 (SlotsOk_sel u) (conj Hu Hr) sel) as Hok.
  split; [|lia]. split; [|split].
  - destruct sel; simpl in *; [|done]. unfold SlotsOk in *. lia.
  - destruct sel; simpl in *; [done|]. unfold SlotsOk in *. lia.
  - eapply WithinBudgetButOne_sub; [|exact Hw].
    rewrite (allSteps_sel sel u), (allSteps_sel sel (set_buf sel u b2)).
    rewrite get_set_buf, get_set_buf_other. by apply submseteq_app.
Qed.

Lemma RestrictBufferSize_Inv u u3 :
  0 <= budget -> Inv u ->
  RestrictBufferSize budget u = Some u3 ->
  Inv u3 /\ heldBytes u3 <= budget
  /\ length (UndoBuffer u3) = length (UndoBuffer u)
  /\ length (RedoBuffer u3) = length (RedoBuffer u).
Proof.
  intros Hb (Hu & Hr & Hw) Hrun.
  destruct (RestrictBufferSize_spec u Hb Hu Hr) as (u' & Hrun' & Hlu & Hlr & Hsu & Hsr & Hheld).
  rewrite Hrun in Hrun'. injection Hrun' as <-.
  repeat split; try done.
  - unfold SlotsOk in *. lia.
  - unfold SlotsOk in *. lia.
  - eapply WithinBudgetButOne_sub; [|exact Hw]. unfold allSteps. by apply submseteq_app.
Qed.

Lemma push_concat (b : undobuf_t) (i : nat) (x : UndoInfo) :
  (i < length b)%nat ->
  concat (alter (fun st => st ++ [x]) i b) ≡ₚ x :: concat b.
Proof.
  intros Hi. destruct (lookup_lt_is_Some_2 b i Hi) as [st Hst].
  destruct (alter_slot (fun st => st ++ [x]) _ _ _ Hst) as (b1 & b2 & -> & ->).
  rewrite !concat_app. simpl.
  rewrite (Permutation_app_comm st [x]). simpl.
  symmetry. apply Permutation_middle.
Qed.

Lemma Inv_push sel u3 smp x :
  (0 < smp <= length (get_buf sel u3))%nat ->
  Inv u3 -> heldBytes u3 <= budget ->
  Inv (set_buf sel u3 (alter (fun st => st ++ [x]) (smp - 1)%nat (get_buf sel u3))).
Proof.
  intros Hsmp (Hu & Hr & Hw) Hheld.
  split; [|split].
  - destruct sel; simpl; [|done]. unfold SlotsOk in *. by rewrite length_alter.
  - destruct sel; simpl; [done|]. unfold SlotsOk in *. by rewrite length_alter.
  - eapply WithinBudgetButOne_Permutation; [|apply (WithinBudgetButOne_push (allSteps u3) x)].
    + rewrite (allSteps_sel sel u3), (allSteps_sel sel (set_buf sel u3 _)).
      rewrite get_set_buf, get_set_buf_other.
      rewrite push_concat by lia. done.
    + by rewrite <- heldBytes_total.
Qed.

Lemma Prepared_Inv doc u sel smp kind descr s e ok u' doc' :
  0 <= budget -> Inv u ->
  Prepared doc u sel smp kind descr s e ok u' doc' ->
  Inv u'
  /\ length (get_buf (other sel) u') = length (get_buf (other sel) u)
  /\ (length (get_buf sel u) <= length (get_buf sel u'))%nat.
Proof.
  intros Hb HI [ | b2 Hsmp _ Hev _ | b2 u3 Hsmp _ Hev _ _ Hr _ _ _
                 | b2 u3 ptr Hsmp _ Hev _ _ Hr _ ].
  - done.
  - destruct (Inv_grow_evict _ _ _ _ _ Hsmp Hev HI) as [HI2 Hlen].
    split; [done|]. rewrite get_set_buf, get_set_buf_other. split; [done|].
    apply EvictWhileFull_spec in Hev as [-> _]. rewrite grown_length. lia.
  - destruct (Inv_grow_evict _ _ _ _ _ Hsmp Hev HI) as [HI2 Hlen].
    destruct (RestrictBufferSize_Inv _ _ Hb HI2 Hr) as (HI3 & _ & Hlu & Hlr).
    split; [done|].
    apply EvictWhileFull_spec in Hev as [Hl2 _]. rewrite grown_length in Hl2.
    destruct sel; simpl in *; lia.
  - destruct (Inv_grow_evict _ _ _ _ _ Hsmp Hev HI) as [HI2 Hlen].
    destruct (RestrictBufferSize_Inv _ _ Hb HI2 Hr) as (HI3 & Hheld & Hlu & Hlr).
    apply EvictWhileFull_spec in Hev as [Hl2 _]. rewrite grown_length in Hl2.
    split.
    + apply Inv_push; [|done|done]. destruct sel; simpl in *; lia.
    + rewrite get_set_buf, get_set_buf_other, length_alter.
      destruct sel; simpl in *; lia.
Qed.

Lemma ClearUndo_Inv u smp : Inv u -> Inv (set_buf SelRedo u (ClearUndo (RedoBuffer u) smp)).
Proof.
  intros HI. apply Inv_shrink; [| |done]; simpl; rewrite ClearUndo_spec; case_match; try done.
  - apply length_alter.
  - apply concat_alter_submseteq. intros x. apply submseteq_nil_l.
Qed.

Lemma PrepareUndo_Inv doc u smp kind descr s e ok u' doc' :
  0 <= budget -> Inv u ->
  PrepareUndo budget doc u smp kind descr s e = Some (ok, u', doc') ->
  Inv u'.
Proof.
  intros Hb HI. unfold PrepareUndo.
  destruct (PrepareBuffer _ _ _ _ _ _ _ _ _) as [[[ok1 u1] doc1]|] eqn:HP; simpl; [|done].
  apply PrepareBuffer_Prepared in HP.
  destruct (Prepared_Inv _ _ _ _ _ _ _ _ _ _ _ Hb HI HP) as (HI1 & _).
  destruct ok1; intros [= <- <- <-]; [|done]. by apply ClearUndo_Inv.
Qed.

Lemma DeleteStep_last (b : undobuf_t) smp x :
  SampleBufferExists b smp = true ->
  let b' := alter (fun st => st ++ [x]) (smp - 1)%nat b in
  DeleteStep b' smp (length (steps b' smp) - 1)%nat = b.
Proof.
  intros He b'. unfold DeleteStep.
  rewrite (SampleBufferExists_length b) by apply length_alter. rewrite He. simpl.
  apply SampleBufferExists_true in He as (? & ? & ?).
  subst b'. rewrite steps_alter by lia. rewrite decide_True by done.
  rewrite length_app. simpl.
  destruct (Nat.leb_spec (length (steps b smp) + 1) (length (steps b smp) + 1 - 1)); [lia|].
  rewrite list_alter_alter_eq.
  rewrite (list_alter_ext _ id b b); [by rewrite list_alter_id|..|done].
  intros st Hst. unfold steps. rewrite Hst. simpl.
  replace (length st + 1 - 1)%nat with (length st) by lia.
  rewrite delete_middle. by rewrite app_nil_r.
Qed.

Lemma UndoFromTo_Inv doc u from smp ok u' doc' :
  0 <= budget -> Inv u ->
  UndoFromTo budget doc u from smp = Some (ok, u', doc') ->
  Inv u'.
Proof.
  intros Hb HI. unfold UndoFromTo.
  destruct (SampleBufferExists (get_buf from u) smp) eqn:He; simpl; [|by intros [= <- <- <-]].
  destruct (last (steps (get_buf from u) smp)) as [undo|]; [|by intros [= <- <- <-]].
  set (u1 := set_buf from u _).
  assert (Inv u1) as HI1.
  { apply Inv_shrink; [apply length_alter| |done].
    apply concat_alter_submseteq. intros x. apply sublist_submseteq.
    rewrite removelast_firstn_len. apply sublist_take. }
  destruct (PrepareBuffer _ _ _ _ _ _ _ _ _) as [[[ok2 u2] doc2]|] eqn:HP; simpl; [|done].
  apply PrepareBuffer_Prepared in HP.
  destruct (Prepared_Inv _ _ _ _ _ _ _ _ _ _ _ Hb HI1 HP) as (HI2 & Hlen & _).
  destruct (RestoreData _ _) as [[|cur new replace undo']|]; simpl; [| |done].
  - by intros [= <- <- <-].
  - intros [= <- <- <-].
    replace (other (other from)) with from in Hlen by by destruct from.
    subst u1. rewrite get_set_buf, length_alter in Hlen.
    rewrite DeleteStep_last.
    + by rewrite set_get_buf.
    + by rewrite (SampleBufferExists_length (get_buf from u)).
Qed.

(** *** Sequences of operations *)

Lemma Inv_initial : 0 <= budget -> Inv initial.
Proof.
  intros Hb. unfold SampleSpec.Inv, SlotsOk, SampleSpec.WithinBudgetButOne. simpl. repeat split; lia.
Qed.

Lemma step_Inv u u' : 0 <= budget -> Inv u -> step u u' -> Inv u'.
Proof.
  intros Hb HI Hstep.
  destruct Hstep; eauto using PrepareUndo_Inv, UndoFromTo_Inv.
Qed.

(** Claim C1 (amended).  After any sequence of sample [PrepareUndo], [Undo]
    and [Redo], the bytes held in saved sample buffers, over all samples and
    both directions, exceed the budget by no more than the size of the
    largest buffer held; and [RestrictBufferSize], which every capture runs
    before it allocates, brings them back within the budget. *)
Theorem budget_exceeded_by_one_buffer_at_most (u : CSampleUndo) :
  0 <= budget ->
  reachable u ->
  heldBytes u <= budget + largest (allSteps u)
  /\ exists u', RestrictBufferSize budget u = Some u' /\ heldBytes u' <= budget.
Proof.
  intros Hb Hreach.
  assert (Inv u) as (Hu & Hr & Hw).
  { induction Hreach; [by apply Inv_initial|]. by eapply step_Inv. }
  split.
  - by rewrite heldBytes_total.
  - destruct (RestrictBufferSize_spec u Hb Hu Hr) as (u' & Hrun & _ & _ & _ & _ & Hheld).
    by exists u'.
Qed.


(** *** [PrepareUndo] *)

Lemma PrepareUndo_refused doc u smp kind descr s e :
  smp = 0%nat \/ (MAX_SAMPLES <= smp)%nat \/ budget = 0 ->
  PrepareUndo budget doc u smp kind descr s e = Some (false, u, doc).
Proof.
  intros H. unfold PrepareUndo, PrepareBuffer.
  destruct (Nat.eqb_spec smp 0); simpl; [done|].
  destruct (Nat.leb_spec MAX_SAMPLES smp); simpl; [done|].
  destruct (Z.eqb_spec budget 0); simpl; [done|]. lia.
Qed.


Lemma last_steps_push (b : undobuf_t) smp x :
  (0 < smp <= length b)%nat ->
  last (steps (alter (fun st => st ++ [x]) (smp - 1)%nat b) smp) = Some x.
Proof.
  intros H. rewrite steps_alter by lia. rewrite decide_True by done. apply last_snoc.
Qed.

Lemma iter_DeleteStep_length n (b : undobuf_t) smp :
  length (Nat.iter n (fun b => DeleteStep b smp 0) b) = length b.
Proof. induction n; simpl; [done|]. by rewrite DeleteStep_length. Qed.

Lemma RestrictSlots_length smps (b : undobuf_t) c :
  length (RestrictSlots budget smps b c).1 = length b.
Proof.
  revert b c. induction smps as [|smp smps IH]; intros b c; simpl; [done|].
  case_match; [done|]. unfold RestrictSlot.
  destruct (firstOwned 0 (steps b smp)) as [[i x]|]; rewrite IH; [|done].
  apply (iter_DeleteStep_length (S i)).
Qed.

Lemma RestrictRounds_length fuel u c u' :
  RestrictRounds budget fuel u c = Some u' ->
  length (UndoBuffer u') = length (UndoBuffer u)
  /\ length (RedoBuffer u') = length (RedoBuffer u).
Proof.
  revert u c. induction fuel as [|fuel IH]; intros u c; simpl.
  - case_match; [|done]. by intros [= <-].
  - case_match; [by intros [= <-]|].
    destruct (RestrictBuffer budget (UndoBuffer u) c) as [ub c1] eqn:H1.
    destruct (RestrictBuffer budget (RedoBuffer u) c1) as [rb c2] eqn:H2.
    intros [Hu Hr]%IH. simpl in *.
    pose proof (RestrictSlots_length (seq 1 (length (UndoBuffer u))) (UndoBuffer u) c) as L1.
    pose proof (RestrictSlots_length (seq 1 (length (RedoBuffer u))) (RedoBuffer u) c1) as L2.
    unfold RestrictBuffer in H1, H2. rewrite H1 in L1. rewrite H2 in L2. simpl in *.
    split; congruence.
Qed.

Lemma Prepared_captured_last doc u sel smp kind descr s e u' doc' :
  Prepared doc u sel smp kind descr s e true u' doc' ->
  exists ptr, last (steps (get_buf sel u') smp) = Some (captured doc smp kind descr s e ptr).
Proof.
  intros HP. inversion HP as [ | | | b2 u3 ptr Hsmp _ Hev _ _ Hr _ ]; subst.
  apply EvictWhileFull_spec in Hev as [Hlen _]. rewrite grown_length in Hlen.
  apply RestrictRounds_length in Hr as [Hlu Hlr].
  exists ptr. rewrite get_set_buf. apply last_steps_push.
  destruct sel; simpl in *; lia.
Qed.


(** *** [Undo] and [Redo] *)

Lemma UndoFromTo_nothing doc u from smp :
  SampleBufferExists (get_buf from u) smp = false \/ steps (get_buf from u) smp = [] ->
  UndoFromTo budget doc u from smp = Some (false, u, doc).
Proof.
  unfold UndoFromTo. intros [->| ->]; simpl; [done|]. by case_match.
Qed.

(** Claim C5.  In a sample undo or redo, the state is captured into the
    destination buffer by [PrepareBuffer] under [redoType] of the kind of the
    step taken from the source buffer, where [redoType] swaps [sundo_delete]
    and [sundo_insert] and maps every other kind to itself; when the capture
    succeeds, the step on top of the destination buffer has that kind. *)
Theorem mirror_captured_under_opposite_kind doc u from smp undo ok u' doc' :
  SampleBufferExists (get_buf from u) smp = true ->
  last (steps (get_buf from u) smp) = Some undo ->
  UndoFromTo budget doc u from smp = Some (ok, u', doc') ->
  (redoType sundo_delete = sundo_insert
   /\ redoType sundo_insert = sundo_delete
   /\ forall kind, kind <> sundo_delete -> kind <> sundo_insert -> redoType kind = kind)
  /\ exists pushed u2 doc2,
      PrepareBuffer budget doc
        (set_buf from u (alter (fun st => removelast st) (smp - 1)%nat (get_buf from u)))
        (other from) smp (redoType (changeType undo)) (description undo)
        (changeStart undo) (changeEnd undo) = Some (pushed, u2, doc2)
      /\ get_buf (other from) u' = get_buf (other from) u2
      /\ (pushed = true ->
          exists mirror, last (steps (get_buf (other from) u') smp) = Some mirror
            /\ changeType mirror = redoType (changeType undo)).
Proof.
  intros He Hlast. unfold UndoFromTo. rewrite He, Hlast. simpl.
  split. { repeat split. by intros []. }
  set (u1 := set_buf from u _) in *.
  destruct (PrepareBuffer _ _ _ _ _ _ _ _ _) as [[[pushed u2] doc2]|] eqn:HP; simpl in *; [|done].
  exists pushed, u2, doc2. split; [done|].
  assert (get_buf (other from) u' = get_buf (other from) u2) as Hto.
  { destruct (RestoreData _ _) as [[|cur new replace undo']|]; simpl in *; [| |done].
    - by injection H as <- <- <-.
    - injection H as <- <- <-. by destruct from. }
  split; [done|]. intros ->. rewrite Hto.
  apply PrepareBuffer_Prepared in HP.
  destruct (Prepared_captured_last _ _ _ _ _ _ _ _ _ _ HP) as [ptr Hl].
  eexists. split; [exact Hl|done].
Qed.

(** *** The keep-on-disk flag *)

Lemma flag_reset_test flags flag : flag_test (flag_reset flags flag) flag = false.
Proof.
  unfold flag_test, flag_reset.
  rewrite <- Z.land_assoc, (Z.land_comm (Z.lnot flag)), Z.land_lnot_diag, Z.land_0_r.
  reflexivity.
Qed.

Lemma RestoreHeader_keepOnDisk undo cur new replace :
  flag_test (uFlags (RestoreHeader false undo cur new replace)) SMP_KEEPONDISK = false.
Proof. unfold RestoreHeader. simpl. apply flag_reset_test. Qed.

Lemma PrepareBuffer_keeps_sndFile doc u sel smp kind descr s e ok u' doc' :
  PrepareBuffer budget doc u sel smp kind descr s e = Some (ok, u', doc') ->
  sndFile doc' = sndFile doc.
Proof.
  unfold PrepareBuffer. intros H.
  repeat (case_match; simplify_option_eq; try done).
Qed.

(** Claim C8.  After a sample undo or redo, whether it succeeds or fails, a
    sample whose [SMP_KEEPONDISK] flag was clear before the call has it
    clear, whatever the flags of the saved header. *)
Theorem keep_on_disk_never_reenabled doc u from smp ok u' doc' :
  UndoFromTo budget doc u from smp = Some (ok, u', doc') ->
  flag_test (uFlags (GetSample (sndFile doc) smp)) SMP_KEEPONDISK = false ->
  flag_test (uFlags (GetSample (sndFile doc') smp)) SMP_KEEPONDISK = false.
Proof.
  unfold UndoFromTo. intros H Hclear.
  destruct (SampleBufferExists (get_buf from u) smp); simpl in H; [|by simplify_eq].
  destruct (last (steps (get_buf from u) smp)) as [undo|]; [|by simplify_eq].
  destruct (PrepareBuffer _ _ _ _ _ _ _ _ _) as [[[b u2] doc2]|] eqn:HP; simpl in H; [|done].
  apply PrepareBuffer_keeps_sndFile in HP.
  rewrite HP in H. rewrite Hclear in H.
  destruct (RestoreData _ _) as [[|cur new replace undo']|]; simpl in H; [| |done].
  - simplify_eq. by rewrite HP.
  - simplify_eq. simpl. unfold GetSample. simpl. rewrite Nat.eqb_refl.
    apply RestoreHeader_keepOnDisk.
Qed.

End WithExternals.
End SampleProofs.

(** ** Instrument undo *)

Module InstrumentProofs.
Import CInstrumentUndo.

Section WithExternals.
Context `{Ext : Externals}.

Lemma PrepareBuffer_false doc (b : undobuf_t) ins descr env b' doc' :
  PrepareBuffer doc b ins descr env = (false, b', doc') -> b' = b /\ doc' = doc.
Proof.
  unfold PrepareBuffer. repeat case_match; intros [= <- <-]; done.
Qed.

Lemma PrepareUndo_false doc u ins descr env u' doc' :
  PrepareUndo doc u ins descr env = (false, u', doc') -> u' = u /\ doc' = doc.
Proof.
  unfold PrepareUndo.
  destruct (PrepareBuffer _ _ _ _ _) as [[ok b] d] eqn:HP.
  destruct ok; [done|]. apply PrepareBuffer_false in HP as [-> ->].
  intros [= <- <-]. by destruct u.
Qed.

Lemma InstrumentAt_in_range snd ins :
  (ins < MAX_INSTRUMENTS)%nat -> InstrumentAt snd ins = Some (Instruments snd ins).
Proof.
  intros Hins. unfold InstrumentAt.
  by destruct (Nat.leb_spec MAX_INSTRUMENTS ins); [lia|].
Qed.

Lemma InstrumentAt_None snd ins :
  InstrumentAt snd ins = None <-> (MAX_INSTRUMENTS <= ins)%nat.
Proof.
  unfold InstrumentAt. destruct (Nat.leb_spec MAX_INSTRUMENTS ins); split; (done || lia).
Qed.

Lemma UndoFromTo_false doc (fromBuf toBuf : undobuf_t) ins f t doc' :
  UndoFromTo doc fromBuf toBuf ins = Some (false, f, t, doc') ->
  f = fromBuf /\ t = toBuf /\ doc' = doc.
Proof.
  unfold UndoFromTo. destruct (InstrumentAt _ _) as [instrument|]; [|done]. simpl.
  repeat case_match; intros [= <- <- <-]; done.
Qed.

Lemma Undo_false doc u ins u' doc' :
  Undo doc u ins = Some (false, u', doc') -> u' = u /\ doc' = doc.
Proof.
  unfold Undo. destruct (UndoFromTo _ _ _ _) as [[[[ok f] t] d]|] eqn:HU; [|done].
  intros [= -> <- <-]. apply UndoFromTo_false in HU as (-> & -> & ->). by destruct u.
Qed.

Lemma Redo_false doc u ins u' doc' :
  Redo doc u ins = Some (false, u', doc') -> u' = u /\ doc' = doc.
Proof.
  unfold Redo. destruct (UndoFromTo _ _ _ _) as [[[[ok f] t] d]|] eqn:HU; [|done].
  intros [= -> <- <-]. apply UndoFromTo_false in HU as (-> & -> & ->). by destruct u.
Qed.

Lemma RearrangeSamples_absent doc (b : undobuf_t) ins newIndex :
  (ins < MAX_INSTRUMENTS)%nat ->
  Instruments (sndFile doc) ins = None -> RearrangeSamples doc b ins newIndex = Some b.
Proof.
  intros Hins Hnone. unfold RearrangeSamples.
  rewrite InstrumentAt_in_range by done. by rewrite Hnone.
Qed.

Lemma InstrumentBufferExists_true (b : undobuf_t) ins :
  InstrumentBufferExists b ins = true
  <-> (0 < ins)%nat /\ (ins < MAX_INSTRUMENTS)%nat /\ (ins <= length b)%nat.
Proof.
  unfold InstrumentBufferExists.
  destruct (Nat.eqb_spec ins 0), (Nat.leb_spec MAX_INSTRUMENTS ins); simpl;
    rewrite ?Nat.leb_le; try lia; split; (done || lia).
Qed.

Lemma RearrangeSamples_steps doc (b : undobuf_t) ins newIndex live :
  Instruments (sndFile doc) ins = Some live ->
  (0 < ins < MAX_INSTRUMENTS)%nat ->
  exists b',
    RearrangeSamples doc b ins newIndex = Some b'
    /\ length b' = length b
    /\ forall k, (0 < k)%nat ->
         steps b' k
         = if decide (k = ins) then RearrangeStep newIndex <$> steps b k else steps b k.
Proof.
  intros Hlive Hins. unfold RearrangeSamples.
  rewrite InstrumentAt_in_range by lia. rewrite Hlive. simpl.
  destruct (InstrumentBufferExists b ins) eqn:He; simpl.
  - apply InstrumentBufferExists_true in He as (_ & _ & Hlen).
    case_bool_decide as Hempty.
    + eexists. split; [done|]. split; [done|]. intros k Hk.
      case_decide as Hki; [|done]. subst k. by rewrite Hempty.
    + eexists. split; [done|]. split; [apply length_alter|]. intros k Hk.
      unfold steps. rewrite list_lookup_alter.
      case_decide as Hi; case_decide as Hki; try lia.
      * subst k. by destruct (b !! (ins - 1)%nat).
      * done.
  - eexists. split; [done|]. split; [done|]. intros k Hk.
    case_decide as Hki; [|done]. subst k.
    assert (length b < ins)%nat as Hlen.
    { destruct (decide (ins <= length b)%nat) as [Hle|]; [|lia].
      assert (InstrumentBufferExists b ins = true); [|congruence].
      apply InstrumentBufferExists_true. lia. }
    unfold steps. by rewrite lookup_ge_None_2 by lia.
Qed.

(** Claim C9 (amended).  When the document has instrument [ins],
    [RearrangeSamples] returns, keeps the steps of the other instruments and the
    number of steps of [ins]; a step of [ins] that saved an envelope is
    unchanged; in a step that saved the whole instrument every entry of
    [Keyboard] below the size of the mapping is replaced by its image, every
    other entry by 0, and the rest of the step is unchanged. *)
Theorem RearrangeSamples_remaps_whole_snapshots
        doc (b : undobuf_t) ins newIndex live :
  Instruments (sndFile doc) ins = Some live ->
  (0 < ins < MAX_INSTRUMENTS)%nat ->
  exists b',
  RearrangeSamples doc b ins newIndex = Some b'
  /\ length (steps b' ins) = length (steps b ins)
  /\ (forall k, (0 < k)%nat -> k <> ins -> steps b' k = steps b k)
  /\ forall j i, steps b ins !! j = Some i ->
       exists i', steps b' ins !! j = Some i'
         /\ (is_envelope (editedEnvelope i) = true -> i' = i)
         /\ (is_envelope (editedEnvelope i) = false ->
             editedEnvelope i' = editedEnvelope i
             /\ description i' = description i
             /\ VolEnv (instr i') = VolEnv (instr i)
             /\ PanEnv (instr i') = PanEnv (instr i)
             /\ PitchEnv (instr i') = PitchEnv (instr i)
             /\ length (Keyboard (instr i')) = length (Keyboard (instr i))
             /\ forall n sample, Keyboard (instr i) !! n = Some sample ->
                  Keyboard (instr i') !! n
                  = Some (if (sample <? length newIndex)%nat
                          then default 0%nat (newIndex !! sample) else 0%nat)).
Proof.
  intros Hlive Hins.
  destruct (RearrangeSamples_steps doc b ins newIndex live Hlive Hins)
    as (b' & Hrun & _ & Hsteps).
  exists b'. split; [exact Hrun|].
  split; [|split].
  - rewrite Hsteps by lia.
    rewrite decide_True by done. apply length_fmap.
  - intros k Hk Hne. rewrite Hsteps by lia.
    by rewrite decide_False.
  - intros j i Hj. rewrite Hsteps by lia.
    rewrite decide_True by done. exists (RearrangeStep newIndex i).
    rewrite list_lookup_fmap, Hj. split; [done|].
    unfold RearrangeStep. split.
    + by intros ->.
    + intros ->. simpl. repeat split; try done.
      * apply length_fmap.
      * intros n sample Hn. by rewrite list_lookup_fmap, Hn.
Qed.

End WithExternals.
End InstrumentProofs.

(** * Histories: what the engines keep and give back *)

(** ** Raw buffers: what a copy writes *)

Section RowCopies.
Context {A : Type}.

Lemma write_at_inside (buf : list A) off src l (j : nat) :
  write_at buf off src = Some l -> (j < length src)%nat ->
  l !! (Z.to_nat off + j)%nat = src !! j.
Proof.
  intros (H0 & Hlen & ->)%write_at_Some Hj.
  rewrite lookup_app_r by (rewrite length_take; lia). rewrite length_take.
  replace (Z.to_nat off + j - Z.to_nat off `min` length buf)%nat with j by lia.
  by rewrite lookup_app_l.
Qed.

Lemma read_at_inside (buf : list A) off n l (j : nat) :
  read_at buf off n = Some l -> (j < Z.to_nat n)%nat ->
  l !! j = buf !! (Z.to_nat off + j)%nat.
Proof.
  intros (H0 & Hn & Hlen & ->)%read_at_Some Hj.
  rewrite lookup_take_lt by lia. by rewrite lookup_drop.
Qed.

Lemma copy_rows_written n (src : list A) soff sstride dst doff dstride w d :
  copy_rows n src soff sstride dst doff dstride w = Some d ->
  w <= dstride ->
  forall (i : nat) (j : Z), (i < n)%nat -> 0 <= j < w ->
    d !! Z.to_nat (doff + Z.of_nat i * dstride + j)
    = src !! Z.to_nat (soff + Z.of_nat i * sstride + j).
Proof.
  revert soff dst doff.
  induction n as [|n IH]; intros soff dst doff Hrun Hstride i j Hi Hj; [lia|].
  simpl in Hrun.
  destruct (read_at src soff w) as [row|] eqn:Hread; [|done]. simpl in Hrun.
  destruct (write_at dst doff row) as [dst'|] eqn:Hwrite; [|done]. simpl in Hrun.
  pose proof (read_at_length _ _ _ _ Hread) as Hrow.
  apply write_at_Some in Hwrite as Hw. destruct Hw as (Hd0 & _ & _).
  apply read_at_Some in Hread as Hr. destruct Hr as (Hs0 & _ & _ & _).
  destruct i as [|i].
  - rewrite (copy_rows_frame _ _ _ _ _ _ _ _ _ (Z.to_nat (doff + Z.of_nat 0 * dstride + j)) Hrun).
    + replace (Z.to_nat (doff + Z.of_nat 0 * dstride + j))
        with (Z.to_nat doff + Z.to_nat j)%nat by lia.
      rewrite (write_at_inside _ _ _ _ _ Hwrite) by lia.
      rewrite (read_at_inside _ _ _ _ _ Hread) by lia.
      f_equal. lia.
    + intros i' Hi'. rewrite Z2Nat.id by lia. nia.
  - replace (doff + Z.of_nat (S i) * dstride + j)
      with (doff + dstride + Z.of_nat i * dstride + j) by lia.
    replace (soff + Z.of_nat (S i) * sstride + j)
      with (soff + sstride + Z.of_nat i * sstride + j) by lia.
    eapply IH; [done|done|lia|done].
Qed.

End RowCopies.

(** ** Pattern undo: what a step holds and what undo gives back *)

Module PatternHistory.
Import CPatternUndo PatternSpec PatternProofs PatternCells.

Section WithExternals.
Context `{Ext : Externals}.

(** The bounds of the data model, and the number of cells of a pattern fits a
    [ROWINDEX]. *)
Variables maxRows maxChannels : Z.
Hypothesis cells_fit : maxRows * maxChannels < 2 ^ ROWINDEX_bits.

Local Abbreviation wf_pattern := (PatternSpec.wf_pattern maxRows).
Local Abbreviation wf_sndFile := (PatternSpec.wf_sndFile maxRows maxChannels).
Local Abbreviation wf_undo := (PatternSpec.wf_undo maxRows maxChannels).

Lemma EvictOldest_below_cap (b : undobuf_t) :
  Z.of_nat (length b) < MAX_UNDO_LEVEL -> EvictOldest b = b.
Proof.
  intros Hroom. unfold EvictOldest.
  by destruct (Z.leb_spec MAX_UNDO_LEVEL (Z.of_nat (length b))); [lia|].
Qed.

(** *** What a captured step holds *)

Lemma captured_HoldsRect nch p fc fr nc nr size cells pat info link descr :
  0 <= nr -> 0 <= nc ->
  copy_rows (Z.to_nat nr) (m_ModCommands p) (fr * nch + fc) nch
    (replicate size ModCommand_Empty) 0 nc nc = Some cells ->
  HoldsRect nch (captured pat p fc fr nc nr cells info link descr) p.
Proof.
  intros Hnr Hnc Hcopy i j Hi Hj. simpl in *. unfold cell.
  pose proof (copy_rows_written _ _ _ _ _ _ _ _ _ Hcopy (Z.le_refl _)
                (Z.to_nat i) j ltac:(lia) Hj) as Hw.
  rewrite Z2Nat.id in Hw by lia.
  replace (0 + i * nc + j) with (i * nc + j) in Hw by lia.
  rewrite Hw. f_equal. lia.
Qed.

(** *** What a restore writes *)

Lemma cell_outside nch (p : CPattern) r c :
  wf_pattern nch p -> 0 <= c < nch -> m_Rows p <= r -> cell nch p r c = None.
Proof.
  intros [Hrows Hlen] Hc Hr. unfold cell. apply lookup_ge_None_2. nia.
Qed.

Lemma RestoreCells_exact nch p0 q undo q' :
  wf_pattern nch p0 -> wf_pattern nch q -> wf_undo undo ->
  m_Rows p0 = numPatternRows undo -> m_Rows q = numPatternRows undo ->
  firstChannel undo + numChannels undo <= nch ->
  HoldsRect nch undo p0 ->
  SameOutsideRect nch (firstChannel undo) (firstRow undo) (numChannels undo)
    (numRows undo) p0 q ->
  RestoreCells nch q undo = Some q' ->
  q' = p0.
Proof.
  intros [Hrows0 Hlen0] [Hrowsq Hlenq] Hu Hr0 Hrq Hfits Hholds Hsame Hrun.
  pose proof Hrun as Hrun'.
  destruct Hu as (_ & Hfr & Hnr & Hin & Hfc & Hnc & _).
  unfold RestoreCells in Hrun.
  destruct (copy_rows _ _ _ _ _ _ _ _) as [cells|] eqn:Hcopy; [|done].
  simpl in Hrun. injection Hrun as <-.
  destruct p0 as [rows0 cells0]. simpl in *. f_equal; [lia|].
  apply copy_rows_inside in Hcopy as Hcopy'. destruct Hcopy' as [Hlen _].
  apply list_eq. intros k.
  destruct (decide (k < length cells)%nat) as [Hk|Hk];
    [|rewrite !lookup_ge_None_2 by lia; done].
  assert (0 < nch) as Hnch by lia.
  pose proof (Z.div_mod (Z.of_nat k) nch ltac:(lia)) as Hdm.
  pose proof (Z.mod_pos_bound (Z.of_nat k) nch Hnch) as Hmod.
  pose proof (Z.div_pos (Z.of_nat k) nch ltac:(lia) Hnch) as Hdiv.
  set (r := Z.of_nat k / nch) in *. set (c := Z.of_nat k mod nch) in *.
  assert (k = Z.to_nat (r * nch + c)) as Hkrc by lia.
  destruct (decide (firstRow undo <= r < firstRow undo + numRows undo
                    /\ firstChannel undo <= c < firstChannel undo + numChannels undo))
    as [[Hinr Hinc]|Hout].
  - rewrite Z.min_l in Hcopy by lia.
    pose proof (copy_rows_written _ _ _ _ _ _ _ _ _ Hcopy ltac:(lia)
                  (Z.to_nat (r - firstRow undo)) (c - firstChannel undo)
                  ltac:(lia) ltac:(lia)) as Hw.
    rewrite Z2Nat.id in Hw by lia.
    replace (firstRow undo * nch + firstChannel undo + (r - firstRow undo) * nch
             + (c - firstChannel undo)) with (r * nch + c) in Hw by lia.
    rewrite Hkrc, Hw.
    replace (0 + (r - firstRow undo) * numChannels undo + (c - firstChannel undo))
      with ((r - firstRow undo) * numChannels undo + (c - firstChannel undo)) by lia.
    rewrite Hholds by lia. unfold cell. simpl. f_equal. lia.
  - rewrite Hkrc.
    transitivity (cell nch q r c);
      [|by rewrite (Hsame r c ltac:(lia) ltac:(lia) Hout)].
    unfold cell.
    change (cells !! Z.to_nat (r * nch + c))
      with (m_ModCommands {| m_Rows := m_Rows q; m_ModCommands := cells |}
              !! Z.to_nat (r * nch + c)).
    apply (RestoreCells_frame nch q undo _ r c Hrun'); [lia|lia|lia|lia|].
    rewrite Z.min_l by lia. done.
Qed.

Lemma SetPattern_same snd pat p :
  GetPattern snd pat = Some p -> SetPattern snd pat p = snd.
Proof.
  unfold GetPattern, SetPattern. destruct (Z.leb_spec 0 pat); [|done].
  destruct (Patterns snd !! Z.to_nat pat) as [o|] eqn:Hl; [|done]. simpl.
  intros ->. apply lookup_lt_Some in Hl as Hlt.
  rewrite Nat.max_l by lia. rewrite resize_all, list_insert_id by done.
  by destruct snd.
Qed.

(** *** One step that fits, on a pattern of the recorded size *)

Lemma ClampRect_inside snd p undo :
  wf_sndFile snd -> wf_undo undo ->
  GetPattern snd (pattern undo) = Some p ->
  m_Rows p = numPatternRows undo ->
  firstChannel undo + numChannels undo <= GetNumChannels snd ->
  ClampRect snd (pattern undo) (firstChannel undo) (firstRow undo)
    (numChannels undo) (numRows undo) = Some (numChannels undo, numRows undo).
Proof.
  intros Hwf Hu Hp Hrows Hfits.
  pose proof (maxRows_fit _ _ cells_fit undo Hu) as Hmax.
  destruct Hu as (_ & Hfr & Hnr & Hin & Hfc & Hnc & _).
  apply ClampRect_Some. exists p. split; [done|].
  split; [lia|]. split; [lia|]. split; [lia|]. split; [lia|].
  split; [lia|].
  rewrite (wrap_small (firstRow undo + numRows undo)) by lia.
  destruct (Z.leb_spec (m_Rows p) (firstRow undo + numRows undo)); [|done].
  rewrite wrap_small by lia. lia.
Qed.

Lemma UndoFromTo_single doc (base toBuf : undobuf_t) linked undo p fuel :
  wf_sndFile (sndFile doc) -> wf_undo undo ->
  channelInfo undo = [] -> linkToPrevious undo = false ->
  firstChannel undo + numChannels undo <= GetNumChannels (sndFile doc) ->
  GetPattern (sndFile doc) (pattern undo) = Some p ->
  m_Rows p = numPatternRows undo ->
  exists ok toBuf' doc1 p',
    PrepareBuffer doc toBuf (pattern undo) (firstChannel undo) (firstRow undo)
      (numChannels undo) (numRows undo) (description undo) linked false
    = Some (ok, toBuf', doc1)
    /\ RestoreCells (GetNumChannels (sndFile doc)) p undo = Some p'
    /\ wf_pattern (GetNumChannels (sndFile doc)) p'
    /\ m_Rows p' = m_Rows p
    /\ UndoFromTo (S fuel) doc (base ++ [undo]) toBuf linked
       = Some (pattern undo, base, toBuf',
               UpdateAllViews
                 (with_sndFile doc1 (SetPattern (sndFile doc) (pattern undo) p'))).
Proof.
  intros Hwf Hu Hinfo Hlink Hfits Hp Hrows.
  destruct (UndoStep_spec _ _ cells_fit doc base toBuf linked undo Hwf Hu)
    as (ok & toBuf' & doc1 & snd1 & HP & Hsnd & _ & _ & _ & Hsame & _ & Hstep).
  rewrite (Hsame Hinfo) in Hstep. rewrite Hinfo in HP. simpl in HP.
  destruct (Z.leb_spec (firstChannel undo + numChannels undo) (GetNumChannels (sndFile doc)));
    [|lia].
  rewrite bool_decide_eq_true_2 in Hstep by (rewrite Hp; by eexists).
  simpl in Hstep. destruct Hstep as (p' & Hrestore & Hwfp & Hrowsp & Hstep).
  assert (PatternToFill (sndFile doc) undo = p) as Hfill.
  { unfold PatternToFill. rewrite Hp. by rewrite bool_decide_eq_true_2. }
  rewrite Hfill in Hrestore.
  exists ok, toBuf', doc1, p'. split; [done|]. split; [done|]. split; [done|].
  split; [lia|].
  cbn [UndoFromTo]. rewrite last_snoc, Hstep. simpl. by rewrite Hlink.
Qed.

Lemma PrepareBuffer_captures doc (buf : undobuf_t) pat fc fr nc nr descr link store buf' doc' :
  wf_sndFile (sndFile doc) -> 0 <= fc -> 0 <= fr ->
  PrepareBuffer doc buf pat fc fr nc nr descr link store = Some (true, buf', doc') ->
  exists p undo,
    GetPattern (sndFile doc) pat = Some p
    /\ buf' = EvictOldest buf ++ [undo]
    /\ wf_undo undo
    /\ HoldsRect (GetNumChannels (sndFile doc)) undo p
    /\ pattern undo = pat /\ numPatternRows undo = m_Rows p
    /\ firstChannel undo = fc /\ firstRow undo = fr
    /\ numChannels undo = Z.min nc (GetNumChannels (sndFile doc) - fc)
    /\ numRows undo = Z.min nr (m_Rows p - fr)
    /\ linkToPrevious undo = link /\ description undo = descr
    /\ channelInfo undo
       = (if store
          then take (Z.to_nat (GetNumChannels (sndFile doc))) (ChnSettings (sndFile doc))
          else [])
    /\ doc' = UpdateAllViews doc.
Proof.
  intros Hwf Hfc Hfr HP. apply PrepareBuffer_cases in HP.
  destruct (ClampRect (sndFile doc) pat fc fr nc nr) as [[nc' nr']|] eqn:Hc;
    [|by destruct HP].
  destruct (content_resize_ok _); [|by destruct HP].
  destruct HP as (_ & -> & p & cells & info & Hp & Hcopy & Hinfo & ->).
  assert (info = if store
                 then take (Z.to_nat (GetNumChannels (sndFile doc))) (ChnSettings (sndFile doc))
                 else []) as Hinfo'.
  { destruct store; [|done].
    apply read_at_Some in Hinfo as (_ & _ & _ & ->). by rewrite drop_0. }
  assert (Z.of_nat (length info) <= maxChannels) as Hlen.
  { rewrite Hinfo'. destruct store; simpl; [|destruct Hwf; lia].
    rewrite length_take. destruct Hwf as (? & ? & _). lia. }
  destruct (captured_wf _ _ cells_fit _ _ _ _ _ _ _ _ _ cells info link descr
              Hwf Hfc Hfr Hc Hp Hcopy Hlen) as (Hu & -> & ->).
  exists p, (captured pat p fc fr (Z.min nc (GetNumChannels (sndFile doc) - fc))
               (Z.min nr (m_Rows p - fr)) cells info link descr).
  split; [done|]. split; [done|]. split; [done|].
  split.
  { destruct Hu as (_ & _ & Hnr & _ & _ & Hnc & _). simpl in *.
    eapply captured_HoldsRect; [lia|lia|done]. }
  repeat (split; [done|]). done.
Qed.

(** Property X1: what a pattern undo point holds.  After a successful
    [PrepareUndo] on a well-formed document, the step on top of the undo
    buffer holds, row by row, the cells that the pattern has in the clamped
    rectangle; it holds the channel settings of the channels of the document
    if [storeChannelInfo] is set and none otherwise; it has the link flag and
    the description passed in; the redo buffer is empty, the earlier undo
    steps are kept but for the oldest ones if the cap was reached, and the
    document is unchanged but for one notification of the views. *)
Theorem pattern_PrepareUndo_saves_rectangle doc u pat fc fr nc nr descr link store u' doc' :
  wf_sndFile (sndFile doc) -> 0 <= fc -> 0 <= fr ->
  PrepareUndo doc u pat fc fr nc nr descr link store = Some (true, u', doc') ->
  exists p undo,
    GetPattern (sndFile doc) pat = Some p
    /\ UndoBuffer u' = EvictOldest (UndoBuffer u) ++ [undo]
    /\ RedoBuffer u' = []
    /\ HoldsRect (GetNumChannels (sndFile doc)) undo p
    /\ firstChannel undo = fc /\ firstRow undo = fr
    /\ numChannels undo = Z.min nc (GetNumChannels (sndFile doc) - fc)
    /\ numRows undo = Z.min nr (m_Rows p - fr)
    /\ linkToPrevious undo = link /\ description undo = descr
    /\ channelInfo undo
       = (if store
          then take (Z.to_nat (GetNumChannels (sndFile doc))) (ChnSettings (sndFile doc))
          else [])
    /\ (Z.of_nat (length (UndoBuffer u)) < MAX_UNDO_LEVEL ->
        EvictOldest (UndoBuffer u) = UndoBuffer u)
    /\ sndFile doc' = sndFile doc /\ updates doc' = S (updates doc).
Proof.
  intros Hwf Hfc Hfr. unfold PrepareUndo.
  destruct (PrepareBuffer _ _ _ _ _ _ _ _ _ _) as [[[ok buf'] doc1]|] eqn:HP; [|done].
  simpl. destruct ok; [|done]. intros [= <- <-].
  destruct (PrepareBuffer_captures _ _ _ _ _ _ _ _ _ _ _ _ Hwf Hfc Hfr HP)
    as (p & undo & Hp & -> & _ & Hholds & _ & _ & ? & ? & ? & ? & ? & ? & ? & ->).
  exists p, undo. simpl. repeat (split; [done|]).
  split; [|done]. apply EvictOldest_below_cap.
Qed.

(** *** An undo point and its undo *)

Lemma SameOutsideRect_clamped nch fc fr nc nr p0 p :
  wf_pattern nch p0 -> wf_pattern nch p -> m_Rows p = m_Rows p0 ->
  SameOutsideRect nch fc fr nc nr p0 p ->
  SameOutsideRect nch fc fr (Z.min nc (nch - fc)) (Z.min nr (m_Rows p0 - fr)) p0 p.
Proof.
  intros Hwf0 Hwf Hrows Hsame r c Hr Hc Hout.
  destruct (decide (r < m_Rows p0)) as [Hin|Hbeyond].
  - apply Hsame; [done|done|]. intros [? ?]. apply Hout. lia.
  - rewrite !cell_outside by (done || lia). done.
Qed.

Lemma Undo_one doc (base toBuf : undobuf_t) undo fuel r :
  UndoFromTo (S (length base)) doc (base ++ [undo]) toBuf false = r ->
  fuel = length (base ++ [undo]) ->
  UndoFromTo fuel doc (base ++ [undo]) toBuf false = r.
Proof. intros <- ->. rewrite length_app. simpl. by rewrite Nat.add_1_r. Qed.

(** Property X2: a pattern undo point and its [Undo].  After a successful
    [PrepareUndo] (no link, no channel settings) for a rectangle of a pattern,
    if the pattern has since been changed inside that rectangle only, and the
    document still has the same number of channels, [Undo] gives back the
    pattern exactly as it was when the undo point was taken; the other
    patterns, the channel count and the channel settings are untouched, and
    the undo buffer is the one from before the undo point (less its oldest
    steps if the cap was reached). *)
Theorem pattern_Undo_after_PrepareUndo
        doc0 u pat fc fr nc nr descr u1 doc1 p0 doc p :
  wf_sndFile (sndFile doc0) -> 0 <= fc -> 0 <= fr ->
  PrepareUndo doc0 u pat fc fr nc nr descr false false = Some (true, u1, doc1) ->
  GetPattern (sndFile doc0) pat = Some p0 ->
  wf_sndFile (sndFile doc) ->
  GetNumChannels (sndFile doc) = GetNumChannels (sndFile doc0) ->
  GetPattern (sndFile doc) pat = Some p ->
  m_Rows p = m_Rows p0 ->
  SameOutsideRect (GetNumChannels (sndFile doc0)) fc fr nc nr p0 p ->
  exists u2 doc2,
    Undo doc u1 = Some (pat, u2, doc2)
    /\ GetPattern (sndFile doc2) pat = Some p0
    /\ (forall pat', pat' <> pat ->
          GetPattern (sndFile doc2) pat' = GetPattern (sndFile doc) pat')
    /\ GetNumChannels (sndFile doc2) = GetNumChannels (sndFile doc)
    /\ ChnSettings (sndFile doc2) = ChnSettings (sndFile doc)
    /\ UndoBuffer u2 = EvictOldest (UndoBuffer u).
Proof.
  intros Hwf0 Hfc Hfr Hprep Hp0 Hwf Hnch Hp Hrows Hsame.
  unfold PrepareUndo in Hprep.
  destruct (PrepareBuffer _ _ _ _ _ _ _ _ _ _) as [[[ok buf'] doc1']|] eqn:HP; [|done].
  simpl in Hprep. destruct ok; [|done]. injection Hprep as <- <-.
  destruct (PrepareBuffer_captures _ _ _ _ _ _ _ _ _ _ _ _ Hwf0 Hfc Hfr HP)
    as (p0' & undo & Hp0' & -> & Hu & Hholds & Hpat & Hprows & Hufc & Hufr
        & Hunc & Hunr & Hlink & _ & Hinfo & _).
  assert (p0' = p0) as -> by congruence.
  pose proof (GetPattern_nonneg _ _ _ Hp) as Hpatpos.
  assert (wf_pattern (GetNumChannels (sndFile doc0)) p0) as Hwfp0
    by (destruct Hwf0 as (_ & _ & H); by apply (H pat)).
  assert (wf_pattern (GetNumChannels (sndFile doc0)) p) as Hwfp
    by (rewrite <- Hnch; destruct Hwf as (_ & _ & H); by apply (H pat)).
  assert (firstChannel undo + numChannels undo <= GetNumChannels (sndFile doc)) as Hfits.
  { rewrite Hufc, Hunc, Hnch. lia. }
  destruct (UndoFromTo_single doc (EvictOldest (UndoBuffer u)) [] false undo p
              (length (EvictOldest (UndoBuffer u))) Hwf Hu Hinfo Hlink Hfits)
    as (ok & toBuf' & doc1a & p' & HP1 & Hrestore & _ & _ & Hrun);
    [by rewrite Hpat|lia|].
  assert (p' = p0) as ->.
  { rewrite Hnch in Hrestore.
    eapply (RestoreCells_exact _ p0 p undo); eauto; try lia.
    rewrite Hufc, Hufr, Hunc, Hunr. by apply SameOutsideRect_clamped. }
  apply PrepareBuffer_sndFile in HP1 as [Hsnd1 _].
  eexists _, _. split.
  { unfold Undo. simpl. rewrite (Undo_one _ _ _ _ _ _ Hrun) by done. simpl.
    by rewrite Hpat. }
  cbn [sndFile UpdateAllViews with_sndFile UndoBuffer].
  split. { rewrite GetPattern_SetPattern by done. by rewrite decide_True. }
  split. { intros pat' Hne. rewrite GetPattern_SetPattern by done.
           by rewrite decide_False. }
  done.
Qed.

(** *** Undo followed by redo *)

Lemma mirror_captured doc (toBuf : undobuf_t) linked undo p :
  wf_sndFile (sndFile doc) -> wf_undo undo ->
  firstChannel undo + numChannels undo <= GetNumChannels (sndFile doc) ->
  GetPattern (sndFile doc) (pattern undo) = Some p ->
  m_Rows p = numPatternRows undo ->
  content_resize_ok (numRows undo * numChannels undo) = true ->
  exists mirror,
    PrepareBuffer doc toBuf (pattern undo) (firstChannel undo) (firstRow undo)
      (numChannels undo) (numRows undo) (description undo) linked false
    = Some (true, EvictOldest toBuf ++ [mirror], UpdateAllViews doc)
    /\ wf_undo mirror
    /\ HoldsRect (GetNumChannels (sndFile doc)) mirror p
    /\ pattern mirror = pattern undo /\ numPatternRows mirror = numPatternRows undo
    /\ firstChannel mirror = firstChannel undo /\ firstRow mirror = firstRow undo
    /\ numChannels mirror = numChannels undo /\ numRows mirror = numRows undo
    /\ linkToPrevious mirror = linked /\ description mirror = description undo
    /\ channelInfo mirror = [].
Proof.
  intros Hwf Hu Hfits Hp Hrows Hmem.
  pose proof (ClampRect_inside _ _ _ Hwf Hu Hp Hrows Hfits) as Hc.
  pose proof Hu as (_ & Hfr & Hnr & Hin & Hfc & Hnc & Hmc & _).
  assert (is_Some (PrepareBuffer doc toBuf (pattern undo) (firstChannel undo)
                     (firstRow undo) (numChannels undo) (numRows undo)
                     (description undo) linked false)) as [[[ok buf'] doc'] HP].
  { apply (PrepareBuffer_returns _ _ cells_fit); [done|lia|lia|].
    pose proof (maxRows_fit _ _ cells_fit undo Hu). lia. }
  apply PrepareBuffer_cases in HP as Hcases. rewrite Hc in Hcases.
  rewrite wrap_small, Hmem in Hcases by nia.
  destruct Hcases as (-> & _ & _). rewrite HP.
  destruct (PrepareBuffer_captures _ _ _ _ _ _ _ _ _ _ _ _ Hwf Hfc Hfr HP)
    as (p' & mirror & Hp' & -> & Hm & Hholds & ? & ? & ? & ? & Hmnc & Hmnr & ? & ? & ? & ->).
  assert (p' = p) as -> by congruence.
  exists mirror. split; [done|]. split; [done|]. split; [done|].
  repeat (split; [done || lia|]). done.
Qed.

Lemma RestoreCells_holds nch p undo p' :
  wf_undo undo -> m_Rows p = numPatternRows undo ->
  firstChannel undo + numChannels undo <= nch ->
  RestoreCells nch p undo = Some p' ->
  HoldsRect nch undo p'
  /\ SameOutsideRect nch (firstChannel undo) (firstRow undo) (numChannels undo)
       (numRows undo) p p'.
Proof.
  intros Hu Hrows Hfits Hrun. pose proof Hrun as Hrun'.
  destruct Hu as (_ & Hfr & Hnr & Hin & Hfc & Hnc & _).
  split.
  - unfold RestoreCells in Hrun.
    destruct (copy_rows _ _ _ _ _ _ _ _) as [cells|] eqn:Hcopy; [|done].
    simpl in Hrun. injection Hrun as <-.
    rewrite Z.min_l in Hcopy by lia.
    intros i j Hi Hj. unfold cell. simpl.
    pose proof (copy_rows_written _ _ _ _ _ _ _ _ _ Hcopy ltac:(lia)
                  (Z.to_nat i) j ltac:(lia) Hj) as Hw.
    rewrite Z2Nat.id in Hw by lia.
    replace (firstRow undo * nch + firstChannel undo + i * nch + j)
      with ((firstRow undo + i) * nch + (firstChannel undo + j)) in Hw by lia.
    rewrite Hw. f_equal; lia.
  - intros r c Hr Hc Hout. unfold cell.
    apply (RestoreCells_frame nch p undo _ r c Hrun'); [lia|lia|lia|lia|].
    rewrite Z.min_l by lia. done.
Qed.

Lemma HoldsRect_content nch (a b : UndoInfo) p :
  wf_undo a -> wf_undo b ->
  firstRow a = firstRow b -> firstChannel a = firstChannel b ->
  numRows a = numRows b -> numChannels a = numChannels b ->
  HoldsRect nch a p -> HoldsRect nch b p ->
  content a = content b.
Proof.
  intros Ha Hb Hfr Hfc Hnr Hnc Hha Hhb.
  destruct Ha as (_ & _ & Hnra & _ & _ & Hnca & _ & Hlena & _).
  destruct Hb as (_ & _ & _ & _ & _ & _ & _ & Hlenb & _).
  apply list_eq. intros k.
  destruct (decide (Z.of_nat k < numRows a * numChannels a)) as [Hk|Hk];
    [|rewrite !lookup_ge_None_2 by nia; done].
  pose proof (Z.div_mod (Z.of_nat k) (numChannels a) ltac:(lia)) as Hdm.
  pose proof (Z.mod_pos_bound (Z.of_nat k) (numChannels a) ltac:(lia)) as Hmod.
  pose proof (Z.div_pos (Z.of_nat k) (numChannels a) ltac:(lia) ltac:(lia)) as Hdiv.
  set (i := Z.of_nat k / numChannels a) in *.
  set (j := Z.of_nat k mod numChannels a) in *.
  assert (i < numRows a) as Hi by nia.
  specialize (Hha i j ltac:(lia) ltac:(lia)).
  specialize (Hhb i j ltac:(lia) ltac:(lia)).
  replace k with (Z.to_nat (i * numChannels a + j)) by lia.
  rewrite Hha. rewrite <- Hnc in Hhb. rewrite Hhb. by rewrite Hfr, Hfc.
Qed.

(** Property X3: pattern [Undo] followed by [Redo].  For a step without link
    and without channel settings on top of the undo buffer, whose rectangle
    fits the channels of the document and whose pattern has the recorded
    number of rows, when the buffers for the captures can be allocated: [Undo]
    and then [Redo] both return the pattern of the step and leave the sound
    file as it was before the two calls; the same step is back on top of the
    undo buffer; and both buffers are as they were if they were below the cap. *)
Theorem pattern_Undo_then_Redo doc (base toBuf : undobuf_t) undo p :
  wf_sndFile (sndFile doc) -> wf_undo undo ->
  channelInfo undo = [] -> linkToPrevious undo = false ->
  firstChannel undo + numChannels undo <= GetNumChannels (sndFile doc) ->
  GetPattern (sndFile doc) (pattern undo) = Some p ->
  m_Rows p = numPatternRows undo ->
  content_resize_ok (numRows undo * numChannels undo) = true ->
  exists u1 doc1 doc2,
    Undo doc {| UndoBuffer := base ++ [undo]; RedoBuffer := toBuf |}
    = Some (pattern undo, u1, doc1)
    /\ Redo doc1 u1
       = Some (pattern undo,
               {| UndoBuffer := EvictOldest base ++ [undo];
                  RedoBuffer := EvictOldest toBuf |},
               doc2)
    /\ sndFile doc2 = sndFile doc
    /\ (Z.of_nat (length base) < MAX_UNDO_LEVEL -> EvictOldest base = base)
    /\ (Z.of_nat (length toBuf) < MAX_UNDO_LEVEL -> EvictOldest toBuf = toBuf).
Proof.
  intros Hwf Hu Hinfo Hlink Hfits Hp Hrows Hmem.
  pose proof (GetPattern_nonneg _ _ _ Hp) as Hpatpos.
  assert (wf_pattern (GetNumChannels (sndFile doc)) p) as Hwfp
    by (destruct Hwf as (_ & _ & H); by apply (H (pattern undo))).
  destruct (UndoFromTo_single doc base toBuf false undo p (length base)
              Hwf Hu Hinfo Hlink Hfits Hp Hrows)
    as (ok & toBuf' & doc1a & p1 & HP1 & Hrestore1 & Hwfp1 & Hrows1 & Hrun1).
  destruct (mirror_captured doc toBuf false undo p Hwf Hu Hfits Hp Hrows Hmem)
    as (mirror & HPm & Hm & Hholdsm & Hmpat & Hmrows & Hmfc & Hmfr & Hmnc & Hmnr
        & Hmlink & Hmdescr & Hminfo).
  rewrite HPm in HP1. injection HP1 as <- <- <-.
  destruct (RestoreCells_holds _ _ _ _ Hu Hrows Hfits Hrestore1) as [Hholds1 Hsame1].
  set (snd1 := SetPattern (sndFile doc) (pattern undo) p1) in *.
  set (doc1 := UpdateAllViews (with_sndFile (UpdateAllViews doc) snd1)) in *.
  assert (wf_sndFile snd1) as Hwf1 by (by apply wf_SetPattern).
  assert (GetNumChannels snd1 = GetNumChannels (sndFile doc)) as Hnch1 by done.
  assert (GetPattern snd1 (pattern mirror) = Some p1) as Hp1.
  { unfold snd1. rewrite Hmpat, GetPattern_SetPattern by done. by rewrite decide_True. }
  destruct (UndoFromTo_single doc1 (EvictOldest toBuf) base false mirror p1
              (length (EvictOldest toBuf)) Hwf1 Hm Hminfo Hmlink)
    as (ok2 & toBuf2 & doc2a & p2 & HP2 & Hrestore2 & _ & _ & Hrun2);
    [rewrite Hmfc, Hmnc; exact Hfits|done|lia|].
  destruct (mirror_captured doc1 base false mirror p1 Hwf1 Hm)
    as (undo' & HPu & Hu' & Hholdsu & Hupat & Hurows & Hufc & Hufr & Hunc & Hunr
        & Hulink & Hudescr & Huinfo);
    [rewrite Hmfc, Hmnc; exact Hfits|done|lia|by rewrite Hmnr, Hmnc|].
  rewrite HPu in HP2. injection HP2 as <- <- <-.
  assert (p2 = p) as ->.
  { change (GetNumChannels (sndFile doc1)) with (GetNumChannels (sndFile doc)) in Hrestore2.
    eapply (RestoreCells_exact _ p p1 mirror); eauto; try lia.
    by rewrite Hmfc, Hmfr, Hmnc, Hmnr. }
  assert (undo' = undo) as ->.
  { assert (content undo' = content undo) as Hcontent.
    { change (GetNumChannels (sndFile doc1)) with (GetNumChannels (sndFile doc)) in Hholdsu.
      eapply HoldsRect_content; eauto; congruence. }
    destruct undo', undo; simpl in *; subst. f_equal; lia. }
  eexists {| UndoBuffer := base; RedoBuffer := EvictOldest toBuf ++ [mirror] |}, doc1, _.
  split. { unfold Undo. simpl. by rewrite (Undo_one _ _ _ _ _ _ Hrun1). }
  split. { unfold Redo. simpl. rewrite (Undo_one _ _ _ _ _ _ Hrun2) by done.
           simpl. by rewrite Hmpat. }
  split.
  { cbn [sndFile UpdateAllViews with_sndFile]. unfold snd1.
    rewrite SetPattern_SetPattern. by apply SetPattern_same. }
  split; apply EvictOldest_below_cap.
Qed.

(** *** A step whose pattern is gone *)

(** Property X4: pattern [Undo] when the pattern cannot be created.  If the
    step on top has no channel settings, fits the channels of the document,
    and its pattern neither exists nor can be inserted, then [Undo] (and
    likewise [Redo]) returns [PATTERNINDEX_INVALID]; the step is dropped from
    the source buffer all the same; nothing is captured on the other buffer,
    and the document is left as it was, without any notification. *)
Theorem pattern_Undo_drops_step_without_pattern doc (base toBuf : undobuf_t) undo :
  wf_sndFile (sndFile doc) -> wf_undo undo ->
  channelInfo undo = [] ->
  firstChannel undo + numChannels undo <= GetNumChannels (sndFile doc) ->
  GetPattern (sndFile doc) (pattern undo) = None ->
  Patterns_Insert_ok (pattern undo) (numPatternRows undo) = false ->
  Undo doc {| UndoBuffer := base ++ [undo]; RedoBuffer := toBuf |}
  = Some (PATTERNINDEX_INVALID, {| UndoBuffer := base; RedoBuffer := toBuf |}, doc)
  /\ Redo doc {| UndoBuffer := toBuf; RedoBuffer := base ++ [undo] |}
     = Some (PATTERNINDEX_INVALID, {| UndoBuffer := toBuf; RedoBuffer := base |}, doc).
Proof.
  intros Hwf Hu Hinfo Hfits Hnone Hins.
  destruct (UndoStep_spec _ _ cells_fit doc base toBuf false undo Hwf Hu)
    as (ok & toBuf' & doc1 & snd1 & HP & _ & _ & _ & _ & Hsame & _ & Hstep).
  rewrite (Hsame Hinfo) in Hstep.
  apply PrepareBuffer_cases in HP.
  assert (ClampRect (sndFile doc) (pattern undo) (firstChannel undo) (firstRow undo)
            (numChannels undo) (numRows undo) = None) as Hc
    by (apply ClampRect_None; by left).
  rewrite Hc in HP. destruct HP as (_ & -> & ->).
  destruct (Z.leb_spec (firstChannel undo + numChannels undo) (GetNumChannels (sndFile doc)));
    [|lia].
  rewrite bool_decide_eq_false_2 in Hstep by (rewrite Hnone; by intros [? ?]).
  rewrite Hins in Hstep. simpl in Hstep.
  assert (with_sndFile doc (sndFile doc) = doc) as Hdoc by (by destruct doc).
  rewrite Hdoc in Hstep.
  assert (UndoFromTo (S (length base)) doc (base ++ [undo]) toBuf false
          = Some (PATTERNINDEX_INVALID, base, toBuf, doc)) as Hrun.
  { cbn [UndoFromTo]. by rewrite last_snoc, Hstep. }
  split; unfold Undo, Redo; simpl; by rewrite (Undo_one _ _ _ _ _ _ Hrun).
Qed.

(** *** Steps that hold channel settings *)

Lemma RestoreChannels_settings snd undo snd1 :
  RestoreChannels snd undo = Some snd1 ->
  channelInfo undo <> [] ->
  take (length (channelInfo undo)) (ChnSettings snd1) = channelInfo undo.
Proof.
  unfold RestoreChannels. destruct (channelInfo undo) as [|x info] eqn:Hinfo; [done|].
  intros Hrun _.
  destruct (write_at _ 0 (x :: info)) as [settings|] eqn:Hw; [|done].
  simpl in Hrun. injection Hrun as <-. simpl ChnSettings.
  apply write_at_Some in Hw as (_ & _ & ->).
  change (Z.to_nat 0) with 0%nat. rewrite take_0. simpl app.
  change (x :: info ++ ?l) with ((x :: info) ++ l). by rewrite take_app_length.
Qed.

(** Property X5: pattern [Undo] of a step that holds channel settings.  For a
    step without link that holds channel settings, on a well-formed document,
    [Undo] returns, takes the step off the undo buffer, and leaves a document
    that has one channel for each saved setting and whose first channel
    settings are the saved ones. *)
Theorem pattern_Undo_restores_channel_settings doc (base toBuf : undobuf_t) undo :
  wf_sndFile (sndFile doc) -> wf_undo undo ->
  channelInfo undo <> [] -> linkToPrevious undo = false ->
  exists pat toBuf' doc',
    Undo doc {| UndoBuffer := base ++ [undo]; RedoBuffer := toBuf |}
    = Some (pat, {| UndoBuffer := base; RedoBuffer := toBuf' |}, doc')
    /\ (pat = pattern undo \/ pat = PATTERNINDEX_INVALID)
    /\ GetNumChannels (sndFile doc') = Z.of_nat (length (channelInfo undo))
    /\ take (length (channelInfo undo)) (ChnSettings (sndFile doc')) = channelInfo undo.
Proof.
  intros Hwf Hu Hinfo Hlink.
  destruct (UndoStep_spec _ _ cells_fit doc base toBuf false undo Hwf Hu)
    as (ok & toBuf' & doc1 & snd1 & HP & _ & Hchan & _ & Hnch & _ & _ & Hstep).
  pose proof (RestoreChannels_settings _ _ _ Hchan Hinfo) as Hsettings.
  assert (GetNumChannels snd1 = Z.of_nat (length (channelInfo undo))) as Hcount.
  { rewrite Hnch. unfold channelsAfter. by destruct (channelInfo undo). }
  assert (forall n doc2,
            UndoStep doc (base ++ [undo]) toBuf false undo
            = Some (n, base, toBuf', doc2, false) ->
            Undo doc {| UndoBuffer := base ++ [undo]; RedoBuffer := toBuf |}
            = Some (n, {| UndoBuffer := base; RedoBuffer := toBuf' |}, doc2)) as Hundo.
  { intros n doc2 Hs.
    assert (UndoFromTo (S (length base)) doc (base ++ [undo]) toBuf false
            = Some (n, base, toBuf', doc2)) as Hrun
      by (cbn [UndoFromTo]; by rewrite last_snoc, Hs).
    unfold Undo. simpl. by rewrite (Undo_one _ _ _ _ _ _ Hrun). }
  destruct (firstChannel undo + numChannels undo <=? GetNumChannels snd1).
  - destruct (bool_decide _ || _).
    + destruct Hstep as (p' & _ & _ & _ & Hstep). rewrite Hlink in Hstep.
      eexists _, toBuf', _. split; [by apply Hundo|]. split; [by left|]. done.
    + eexists _, toBuf', _. split; [by apply Hundo|]. split; [by right|]. done.
  - eexists _, toBuf', _. split; [by apply Hundo|]. split; [by left|]. done.
Qed.

(** *** [RemoveLastUndoStep], [RearrangePatterns] and [ClearUndo] *)

(** Property X6: pattern [RemoveLastUndoStep].  Taken right after a successful
    [PrepareUndo], it leaves the undo buffer as it was before the undo point
    (less its oldest steps if the cap was reached); the redo buffer stays
    empty.  On an empty undo buffer it does nothing. *)
Theorem pattern_RemoveLastUndoStep_after_PrepareUndo
        doc u pat fc fr nc nr descr link store u' doc' :
  PrepareUndo doc u pat fc fr nc nr descr link store = Some (true, u', doc') ->
  RemoveLastUndoStep u'
  = {| UndoBuffer := EvictOldest (UndoBuffer u); RedoBuffer := [] |}
  /\ (Z.of_nat (length (UndoBuffer u)) < MAX_UNDO_LEVEL ->
      UndoBuffer (RemoveLastUndoStep u') = UndoBuffer u)
  /\ (forall redo, RemoveLastUndoStep {| UndoBuffer := []; RedoBuffer := redo |}
                   = {| UndoBuffer := []; RedoBuffer := redo |}).
Proof.
  unfold PrepareUndo.
  destruct (PrepareBuffer _ _ _ _ _ _ _ _ _ _) as [[[ok buf'] doc1]|] eqn:HP; [|done].
  simpl. destruct ok; [|done]. intros [= <- <-].
  apply PrepareBuffer_cases in HP.
  destruct (ClampRect _ _ _ _ _ _) as [[nc' nr']|]; [|by destruct HP].
  destruct (content_resize_ok _); [|by destruct HP].
  destruct HP as (_ & _ & p & cells & info & _ & _ & _ & ->).
  unfold RemoveLastUndoStep. simpl. rewrite removelast_last.
  split; [done|]. split; [|done]. simpl. apply EvictOldest_below_cap.
Qed.

(** Property X7: [RearrangePatterns].  Both buffers keep their steps in order;
    a step whose pattern index is below the size of the mapping gets the entry
    of the mapping at that index, any other step is untouched; nothing but the
    pattern index of a step is ever changed; and a mapping that sends every
    index to itself changes nothing. *)
Theorem RearrangePatterns_remaps_pattern_only u newIndex :
  (forall sel j step,
      (if sel : bool then UndoBuffer u else RedoBuffer u) !! j = Some step ->
      exists step',
        (if sel then UndoBuffer (RearrangePatterns u newIndex)
         else RedoBuffer (RearrangePatterns u newIndex)) !! j = Some step'
        /\ (forall target, 0 <= pattern step ->
              newIndex !! Z.to_nat (pattern step) = Some target ->
              pattern step' = target)
        /\ (Z.of_nat (length newIndex) <= pattern step -> step' = step)
        /\ numPatternRows step' = numPatternRows step
        /\ firstChannel step' = firstChannel step /\ firstRow step' = firstRow step
        /\ numChannels step' = numChannels step /\ numRows step' = numRows step
        /\ content step' = content step /\ channelInfo step' = channelInfo step
        /\ linkToPrevious step' = linkToPrevious step
        /\ description step' = description step)
  /\ length (UndoBuffer (RearrangePatterns u newIndex)) = length (UndoBuffer u)
  /\ length (RedoBuffer (RearrangePatterns u newIndex)) = length (RedoBuffer u)
  /\ ((forall i, (i < length newIndex)%nat -> newIndex !! i = Some (Z.of_nat i)) ->
      Forall (fun step => 0 <= pattern step) (UndoBuffer u ++ RedoBuffer u) ->
      RearrangePatterns u newIndex = u).
Proof.
  assert (forall step, exists step',
             RearrangePattern newIndex step = step'
             /\ (forall target, 0 <= pattern step ->
                   newIndex !! Z.to_nat (pattern step) = Some target ->
                   pattern step' = target)
             /\ (Z.of_nat (length newIndex) <= pattern step -> step' = step)
             /\ numPatternRows step' = numPatternRows step
             /\ firstChannel step' = firstChannel step /\ firstRow step' = firstRow step
             /\ numChannels step' = numChannels step /\ numRows step' = numRows step
             /\ content step' = content step /\ channelInfo step' = channelInfo step
             /\ linkToPrevious step' = linkToPrevious step
             /\ description step' = description step) as Hone.
  { intros step. eexists. split; [done|]. unfold RearrangePattern.
    destruct (Z.ltb_spec (pattern step) (Z.of_nat (length newIndex))) as [Hlt|Hge].
    - simpl. split.
      { intros target _ ->. done. }
      split; [lia|]. done.
    - split.
      { intros target Hpos Hl. apply lookup_lt_Some in Hl. lia. }
      done. }
  split.
  { intros sel j step Hl. destruct (Hone step) as (step' & <- & Hrest).
    exists (RearrangePattern newIndex step). split; [|done].
    destruct sel; simpl; unfold RearrangePatternsIn; by rewrite list_lookup_fmap, Hl. }
  split; [simpl; unfold RearrangePatternsIn; by rewrite length_fmap|].
  split; [simpl; unfold RearrangePatternsIn; by rewrite length_fmap|].
  intros Hid Hpos.
  assert (forall b : undobuf_t, Forall (fun step => 0 <= pattern step) b ->
                                RearrangePatternsIn b newIndex = b) as Hbuf.
  { intros b Hb. unfold RearrangePatternsIn.
    induction Hb as [|step b Hstep _ IH]; [done|]. rewrite fmap_cons, IH. f_equal.
    unfold RearrangePattern.
    destruct (Z.ltb_spec (pattern step) (Z.of_nat (length newIndex))) as [Hlt|Hge]; [|done].
    rewrite Hid by lia. simpl. rewrite Z2Nat.id by lia. by destruct step. }
  apply Forall_app in Hpos as [Hpu Hpr].
  unfold RearrangePatterns. rewrite !Hbuf by done. by destruct u.
Qed.

(** *** The cap holds after any sequence of operations *)

Lemma PrepareBuffer_Bounded doc (b : undobuf_t) pat fc fr nc nr descr link store ok b' doc' :
  1 <= MAX_UNDO_LEVEL ->
  PrepareBuffer doc b pat fc fr nc nr descr link store = Some (ok, b', doc') ->
  Z.of_nat (length b) <= MAX_UNDO_LEVEL ->
  Z.of_nat (length b') <= MAX_UNDO_LEVEL.
Proof.
  intros Hmax HP Hb. apply PrepareBuffer_cases in HP.
  assert (Z.of_nat (length (EvictOldest b)) <= MAX_UNDO_LEVEL - 1
          \/ EvictOldest b = b /\ Z.of_nat (length b) < MAX_UNDO_LEVEL) as Hev.
  { unfold EvictOldest. destruct (Z.leb_spec MAX_UNDO_LEVEL (Z.of_nat (length b))).
    - left. rewrite length_drop. lia.
    - right. done. }
  destruct (ClampRect _ _ _ _ _ _) as [[nc' nr']|]; [|by destruct HP as (_ & -> & _)].
  destruct (content_resize_ok _).
  - destruct HP as (_ & _ & p & cells & info & _ & _ & _ & ->).
    rewrite length_app. simpl. destruct Hev as [?|[-> ?]]; lia.
  - destruct HP as (_ & -> & _). destruct Hev as [?|[-> ?]]; lia.
Qed.

Lemma UndoStep_buffers doc (fromBuf toBuf : undobuf_t) linked undo n f t doc' link :
  UndoStep doc fromBuf toBuf linked undo = Some (n, f, t, doc', link) ->
  f = removelast fromBuf
  /\ exists ok doc1,
      PrepareBuffer doc toBuf (pattern undo) (firstChannel undo) (firstRow undo)
        (numChannels undo) (numRows undo) (description undo) linked
        (negb (bool_decide (channelInfo undo = []))) = Some (ok, t, doc1).
Proof.
  unfold UndoStep.
  destruct (PrepareBuffer _ _ _ _ _ _ _ _ _ _) as [[[ok t1] doc1]|]; [|done]. simpl.
  destruct (RestoreChannels _ _) as [snd1|]; [|done]. simpl.
  intros Hrun.
  assert (f = removelast fromBuf /\ t = t1) as [-> ->];
    [|split; [done|by eexists _, _]].
  destruct (_ <=? _); [|by injection Hrun as <- <- <-].
  destruct (GetPattern snd1 (pattern undo)) as [p|].
  - destruct (bool_decide _); simpl in Hrun.
    + destruct (GetPattern _ _); [|done]. simpl in Hrun.
      destruct (RestoreCells _ _ _); [|done]. simpl in Hrun. by injection Hrun as <- <- <-.
    + destruct (GetPattern _ _); [|done]. simpl in Hrun.
      destruct (RestoreCells _ _ _); [|done]. simpl in Hrun. by injection Hrun as <- <- <-.
  - destruct (Patterns_Insert _ _ _); [|by injection Hrun as <- <- <-].
    destruct (GetPattern _ _); [|done]. simpl in Hrun.
    destruct (RestoreCells _ _ _); [|done]. simpl in Hrun. by injection Hrun as <- <- <-.
Qed.

Lemma length_removelast_bound {A} (l : list A) : (length (removelast l) <= length l)%nat.
Proof.
  destruct l as [|x l _] using rev_ind; [done|].
  rewrite removelast_last, length_app. lia.
Qed.

Lemma UndoFromTo_lengths fuel doc (fromBuf toBuf : undobuf_t) linked n f t doc' :
  1 <= MAX_UNDO_LEVEL ->
  UndoFromTo fuel doc fromBuf toBuf linked = Some (n, f, t, doc') ->
  Z.of_nat (length toBuf) <= MAX_UNDO_LEVEL ->
  (length f <= length fromBuf)%nat /\ Z.of_nat (length t) <= MAX_UNDO_LEVEL.
Proof.
  intros Hmax. revert doc fromBuf toBuf linked.
  induction fuel as [|fuel IH]; intros doc fromBuf toBuf linked Hrun Hto.
  - simpl in Hrun. destruct (last fromBuf); [done|]. by injection Hrun as <- <- <- <-.
  - cbn [UndoFromTo] in Hrun. destruct (last fromBuf) as [undo|];
      [|by injection Hrun as <- <- <- <-].
    destruct (UndoStep doc fromBuf toBuf linked undo)
      as [[[[[n1 f1] t1] doc1] link]|] eqn:Hstep; [|done].
    simpl in Hrun.
    apply UndoStep_buffers in Hstep as (-> & ok & doc2 & HP).
    pose proof (PrepareBuffer_Bounded _ _ _ _ _ _ _ _ _ _ _ _ _ Hmax HP Hto) as Ht1.
    pose proof (length_removelast_bound fromBuf).
    destruct link.
    + apply IH in Hrun as [? ?]; [|done]. lia.
    + injection Hrun as <- <- <- <-. lia.
Qed.

(** Property X8: the cap on the pattern history.  When [MAX_UNDO_LEVEL] is at
    least 1, after any sequence of [PrepareUndo], [Undo], [Redo],
    [RemoveLastUndoStep], [RearrangePatterns] and [ClearUndo] from the empty
    history, neither the undo buffer nor the redo buffer has more than
    [MAX_UNDO_LEVEL] steps. *)
Theorem pattern_history_bounded u :
  1 <= MAX_UNDO_LEVEL -> reachable u -> Bounded u.
Proof.
  intros Hmax Hreach. induction Hreach as [|u u' _ [IHu IHr] Hstep].
  - split; simpl; lia.
  - destruct Hstep as [doc u pat fc fr nc nr descr link store ok u' doc' Hrun
                      |doc u pat u' doc' Hrun
                      |doc u pat u' doc' Hrun
                      |u|u newIndex|u].
    + unfold PrepareUndo in Hrun.
      destruct (PrepareBuffer _ _ _ _ _ _ _ _ _ _) as [[[ok1 b'] doc1]|] eqn:HP; [|done].
      simpl in Hrun.
      pose proof (PrepareBuffer_Bounded _ _ _ _ _ _ _ _ _ _ _ _ _ Hmax HP IHu).
      destruct ok1; injection Hrun as <- <- <-; split; simpl; lia.
    + unfold Undo in Hrun.
      destruct (UndoFromTo _ _ _ _ _) as [[[[n f] t] doc1]|] eqn:Hu; [|done].
      simpl in Hrun. injection Hrun as <- <- <-.
      apply UndoFromTo_lengths in Hu as [? ?]; [|done|done]. split; simpl; lia.
    + unfold Redo in Hrun.
      destruct (UndoFromTo _ _ _ _ _) as [[[[n f] t] doc1]|] eqn:Hu; [|done].
      simpl in Hrun. injection Hrun as <- <- <-.
      apply UndoFromTo_lengths in Hu as [? ?]; [|done|done]. split; simpl; lia.
    + split; simpl; [|done].
      pose proof (length_removelast_bound (UndoBuffer u)). lia.
    + split; simpl; unfold RearrangePatternsIn; by rewrite length_fmap.
    + split; simpl; lia.
Qed.

End WithExternals.
End PatternHistory.

(** ** Sample undo: evictions, captures and round trips *)

Module SampleHistory.
Import CSampleUndo SampleSpec SampleProofs SampleData.

Section WithExternals.
Context `{Ext : Externals}.
Variable budget : Z.
Hypothesis bits_nonneg : 0 <= SmpLength_bits.

(** *** Evictions take the oldest steps *)

Lemma Trimmed_refl (b : undobuf_t) : Trimmed b b.
Proof. split; [done|]. intros k. exists 0%nat. by rewrite drop_0. Qed.

Lemma Trimmed_trans (b1 b2 b3 : undobuf_t) :
  Trimmed b1 b2 -> Trimmed b2 b3 -> Trimmed b1 b3.
Proof.
  intros [Hl1 H1] [Hl2 H2]. split; [congruence|]. intros k.
  destruct (H1 k) as [n Hn]. destruct (H2 k) as [m Hm].
  exists (n + m)%nat. by rewrite Hm, Hn, drop_drop.
Qed.

Lemma Trimmed_alter_drop (b : undobuf_t) (i n : nat) : Trimmed b (alter (drop n) i b).
Proof.
  split; [apply length_alter|]. intros k. unfold steps. rewrite list_lookup_alter.
  case_decide as Hi; [|exists 0%nat; by rewrite drop_0].
  rewrite Hi. destruct (b !! (k - 1)%nat); simpl; [by exists n|].
  exists 0%nat. done.
Qed.

Lemma DeleteStep_oldest_Trimmed (b : undobuf_t) smp : Trimmed b (DeleteStep b smp 0).
Proof.
  destruct (SampleBufferExists b smp) eqn:He.
  - rewrite DeleteStep_front by done. apply Trimmed_alter_drop.
  - unfold DeleteStep. rewrite He. simpl. apply Trimmed_refl.
Qed.

Lemma iter_DeleteStep_Trimmed n (b : undobuf_t) smp :
  Trimmed b (Nat.iter n (fun b => DeleteStep b smp 0) b).
Proof.
  induction n as [|n IH]; simpl; [apply Trimmed_refl|].
  eapply Trimmed_trans; [exact IH|apply DeleteStep_oldest_Trimmed].
Qed.

Lemma RestrictSlots_Trimmed smps (b : undobuf_t) c :
  Trimmed b (RestrictSlots budget smps b c).1.
Proof.
  revert b c. induction smps as [|smp smps IH]; intros b c; simpl; [apply Trimmed_refl|].
  destruct (c <=? budget); [apply Trimmed_refl|].
  destruct (RestrictSlot b smp c) as [b1 c1] eqn:Hslot.
  eapply Trimmed_trans; [|apply IH].
  unfold RestrictSlot in Hslot. destruct (firstOwned 0 (steps b smp)) as [[i s]|].
  - injection Hslot as <- <-. apply (iter_DeleteStep_Trimmed (S i)).
  - injection Hslot as <- <-. apply Trimmed_refl.
Qed.

Lemma RestrictRounds_Trimmed fuel u c u' :
  RestrictRounds budget fuel u c = Some u' ->
  Trimmed (UndoBuffer u) (UndoBuffer u') /\ Trimmed (RedoBuffer u) (RedoBuffer u').
Proof.
  revert u c. induction fuel as [|fuel IH]; intros u c; simpl.
  - destruct (c <=? budget); [|done]. intros [= <-]. split; apply Trimmed_refl.
  - destruct (c <=? budget); [intros [= <-]; split; apply Trimmed_refl|].
    destruct (RestrictBuffer budget (UndoBuffer u) c) as [ub c1] eqn:Hu.
    destruct (RestrictBuffer budget (RedoBuffer u) c1) as [rb c2] eqn:Hr.
    intros Hrun. apply IH in Hrun as [H1 H2]. simpl in *.
    split; (eapply Trimmed_trans; [|eassumption]).
    + unfold RestrictBuffer in Hu.
      pose proof (RestrictSlots_Trimmed (seq 1 (length (UndoBuffer u))) (UndoBuffer u) c).
      by rewrite Hu in H.
    + unfold RestrictBuffer in Hr.
      pose proof (RestrictSlots_Trimmed (seq 1 (length (RedoBuffer u))) (RedoBuffer u) c1).
      by rewrite Hr in H.
Qed.

Lemma RestrictRounds_within fuel u c :
  c <= budget -> RestrictRounds budget fuel u c = Some u.
Proof.
  intros Hc. destruct fuel; simpl; by destruct (Z.leb_spec c budget); [|lia].
Qed.

(** Property X9: what [RestrictBufferSize] removes.  On a history whose
    buffers have slots for valid samples only, [RestrictBufferSize] returns;
    what it leaves of each sample, in either buffer, is what was there less
    some of the oldest steps; the bytes then held are within the budget; and a
    history that is within the budget is left as it is. *)
Theorem RestrictBufferSize_drops_oldest_steps u :
  0 <= budget -> SlotsOk (UndoBuffer u) -> SlotsOk (RedoBuffer u) ->
  exists u',
    RestrictBufferSize budget u = Some u'
    /\ Trimmed (UndoBuffer u) (UndoBuffer u')
    /\ Trimmed (RedoBuffer u) (RedoBuffer u')
    /\ heldBytes u' <= budget
    /\ (heldBytes u <= budget -> u' = u).
Proof.
  intros Hb Hu Hr.
  destruct (RestrictBufferSize_spec budget bits_nonneg u Hb Hu Hr)
    as (u' & Hrun & _ & _ & _ & _ & Hheld).
  exists u'. split; [done|].
  destruct (RestrictRounds_Trimmed _ _ _ _ Hrun) as [H1 H2].
  split; [done|]. split; [done|]. split; [done|].
  intros Hwithin. unfold RestrictBufferSize in Hrun.
  rewrite RestrictRounds_within in Hrun by done. congruence.
Qed.

(** *** The cap on the number of steps *)

Lemma Trimmed_length (b b' : undobuf_t) k :
  Trimmed b b' -> (length (steps b' k) <= length (steps b k))%nat.
Proof. intros [_ H]. destruct (H k) as [n ->]. rewrite length_drop. lia. Qed.

Lemma steps_slot (b : undobuf_t) (k smp : nat) :
  (smp - 1 = k - 1)%nat -> steps b k = steps b smp.
Proof. unfold steps. by intros ->. Qed.

Lemma EvictWhileFull_Trimmed fuel (b : undobuf_t) smp b' :
  EvictWhileFull fuel b smp = Some b' ->
  Trimmed b b' /\ Z.of_nat (length (steps b' smp)) < MAX_UNDO_LEVEL.
Proof.
  revert b. induction fuel as [|fuel IH]; intros b; simpl;
    destruct (Z.leb_spec MAX_UNDO_LEVEL (Z.of_nat (length (steps b smp))));
    try done; try (intros [= <-]; split; [apply Trimmed_refl|done]).
  intros Hrun. apply IH in Hrun as [Ht Hlt]. split; [|done].
  eapply Trimmed_trans; [apply DeleteStep_oldest_Trimmed|done].
Qed.

Lemma bufsel_cases (sel sel' : bufsel) : sel' = sel \/ sel' = other sel.
Proof. destruct sel, sel'; simpl; tauto. Qed.

Lemma Bounded_sel u :
  Bounded u <->
  forall sel k, Z.of_nat (length (steps (get_buf sel u) k)) <= MAX_UNDO_LEVEL.
Proof.
  split.
  - intros H sel k. destruct (H k). by destruct sel.
  - intros H k. split; [apply (H SelUndo)|apply (H SelRedo)].
Qed.

Lemma Trimmed_grown (b : undobuf_t) smp k : steps (grown b smp) k = steps b k.
Proof. apply grown_steps. Qed.

Lemma Prepared_lengths doc u sel smp kind descr s e ok u' doc' :
  Prepared budget doc u sel smp kind descr s e ok u' doc' ->
  length (get_buf (other sel) u') = length (get_buf (other sel) u)
  /\ (length (get_buf sel u) <= length (get_buf sel u'))%nat.
Proof.
  intros HP.
  destruct HP as [Hrej|b2 Hsmp Hb Hev Hrange|b2 u3 Hsmp Hb Hev H1 H2 Hr Hs Hd Ha
                 |b2 u3 ptr Hsmp Hb Hev H1 H2 Hr Hptr].
  - split; lia.
  - apply EvictWhileFull_spec in Hev as [Hlen _]. rewrite grown_length in Hlen.
    rewrite get_set_buf, get_set_buf_other. split; lia.
  - apply EvictWhileFull_spec in Hev as [Hlen _]. rewrite grown_length in Hlen.
    apply RestrictRounds_length in Hr as [Hlu Hlr].
    destruct sel; simpl in *; split; lia.
  - apply EvictWhileFull_spec in Hev as [Hlen _]. rewrite grown_length in Hlen.
    apply RestrictRounds_length in Hr as [Hlu Hlr].
    rewrite get_set_buf, get_set_buf_other, length_alter.
    destruct sel; simpl in *; split; lia.
Qed.

Lemma Prepared_Bounded doc u sel smp kind descr s e ok u' doc' :
  1 <= MAX_UNDO_LEVEL ->
  Prepared budget doc u sel smp kind descr s e ok u' doc' ->
  Bounded u -> Bounded u'.
Proof.
  intros Hmax HP Hu. rewrite Bounded_sel in Hu. apply Bounded_sel.
  assert (forall b2, EvictWhileFull (length (steps (grown (get_buf sel u) smp) smp))
                       (grown (get_buf sel u) smp) smp = Some b2 ->
                     (forall k, Z.of_nat (length (steps b2 k)) <= MAX_UNDO_LEVEL)
                     /\ Z.of_nat (length (steps b2 smp)) < MAX_UNDO_LEVEL
                     /\ length b2 = Nat.max (length (get_buf sel u)) smp) as Hevict.
  { intros b2 Hev. apply EvictWhileFull_spec in Hev as Hlen. destruct Hlen as [Hlen _].
    rewrite grown_length in Hlen.
    apply EvictWhileFull_Trimmed in Hev as [Ht Hlt].
    split; [|done]. intros k. pose proof (Trimmed_length _ _ k Ht) as Hk.
    rewrite grown_steps in Hk. specialize (Hu sel k). lia. }
  assert (forall b2 u3, (forall k, Z.of_nat (length (steps b2 k)) <= MAX_UNDO_LEVEL) ->
            RestrictBufferSize budget (set_buf sel u b2) = Some u3 ->
            forall sel' k, (length (steps (get_buf sel' u3) k)
                            <= length (steps (get_buf sel' (set_buf sel u b2)) k))%nat)
    as Hrestrict.
  { intros b2 u3 Hb2 Hr sel' k. apply RestrictRounds_Trimmed in Hr as [H1 H2].
    destruct sel'; by apply Trimmed_length. }
  assert (forall b2 sel' k,
            (forall k, Z.of_nat (length (steps b2 k)) <= MAX_UNDO_LEVEL) ->
            Z.of_nat (length (steps (get_buf sel' (set_buf sel u b2)) k)) <= MAX_UNDO_LEVEL)
    as Hset.
  { intros b2 sel' k Hb2. destruct sel, sel'; simpl; try apply Hb2.
    - apply (Hu SelRedo). - apply (Hu SelUndo). }
  destruct HP as [Hrej|b2 Hsmp Hb Hev Hrange|b2 u3 Hsmp Hb Hev H1 H2 Hr Hs Hd Ha
                 |b2 u3 ptr Hsmp Hb Hev H1 H2 Hr Hptr].
  - done.
  - destruct (Hevict _ Hev) as (Hb2 & _ & _). intros sel' k. by apply Hset.
  - destruct (Hevict _ Hev) as (Hb2 & _ & _). intros sel' k.
    pose proof (Hrestrict _ _ Hb2 Hr sel' k). pose proof (Hset b2 sel' k Hb2). lia.
  - destruct (Hevict _ Hev) as (Hb2 & Hlt & Hlen). intros sel' k.
    pose proof (Hrestrict _ _ Hb2 Hr) as Hle.
    apply RestrictRounds_length in Hr as Hlens. destruct Hlens as [Hlu Hlr].
    destruct (bufsel_cases sel sel') as [->| ->].
    + rewrite get_set_buf.
      assert (length (get_buf sel u3) = length b2) as Hl3
        by (destruct sel; simpl in *; lia).
      rewrite steps_alter by lia. case_decide as Hslot.
      * rewrite length_app. simpl. rewrite (steps_slot _ k smp) by done.
        specialize (Hle sel smp). rewrite get_set_buf in Hle. lia.
      * specialize (Hle sel k). rewrite get_set_buf in Hle. specialize (Hb2 k). lia.
    + rewrite get_set_buf_other.
      specialize (Hle (other sel) k). pose proof (Hset b2 (other sel) k Hb2). lia.
Qed.

Lemma length_removelast_le_smp {A} (l : list A) : (length (removelast l) <= length l)%nat.
Proof.
  destruct l as [|x l _] using rev_ind; [done|].
  rewrite removelast_last, length_app. lia.
Qed.

(** The history that a sample [Undo] leaves: the step is off the source
    buffer before the capture on the other buffer, and is not put back. *)
Lemma UndoFromTo_history doc u from smp ok u' doc' :
  UndoFromTo budget doc u from smp = Some (ok, u', doc') ->
  (u' = u /\ doc' = doc /\ ok = false
   /\ (SampleBufferExists (get_buf from u) smp = false \/ steps (get_buf from u) smp = []))
  \/ exists undo pushed doc2,
       SampleBufferExists (get_buf from u) smp = true
       /\ last (steps (get_buf from u) smp) = Some undo
       /\ PrepareBuffer budget doc
            (set_buf from u (alter (fun st => removelast st) (smp - 1)%nat (get_buf from u)))
            (other from) smp (redoType (changeType undo)) (description undo)
            (changeStart undo) (changeEnd undo) = Some (pushed, u', doc2).
Proof.
  unfold UndoFromTo. destruct (SampleBufferExists (get_buf from u) smp) eqn:He; simpl;
    [|intros [= <- <- <-]; left; tauto].
  destruct (last (steps (get_buf from u) smp)) as [undo|] eqn:Hlast.
  2:{ intros [= <- <- <-]. left. repeat split; try done. right.
      destruct (steps (get_buf from u) smp) as [|x l _] using rev_ind; [done|].
      by rewrite last_snoc in Hlast. }
  set (u1 := set_buf from u _).
  destruct (PrepareBuffer _ _ _ _ _ _ _ _ _) as [[[pushed u2] doc2]|] eqn:HP; [|done].
  simpl. intros Hrun. right. exists undo, pushed, doc2. split; [done|]. split; [done|].
  assert (u' = u2) as ->; [|done].
  apply PrepareBuffer_Prepared in HP as HP'.
  apply Prepared_lengths in HP' as [Hlen _].
  replace (other (other from)) with from in Hlen by (by destruct from).
  assert (SampleBufferExists (get_buf from u2) smp = true) as He2.
  { rewrite (SampleBufferExists_length (get_buf from u1)) by done.
    unfold u1. rewrite get_set_buf.
    by rewrite (SampleBufferExists_length (get_buf from u)) by apply length_alter. }
  destruct (RestoreData _ _) as [[|cur new replace undo']|]; simpl in Hrun; [| |done].
  - by injection Hrun as _ <- _.
  - injection Hrun as _ <- _.
    pose proof (DeleteStep_last (get_buf from u2) smp undo' He2) as Hd. simpl in Hd.
    rewrite Hd. apply set_get_buf.
Qed.

Lemma Prepared_trims doc u sel smp kind descr s e ok u' doc' :
  Prepared budget doc u sel smp kind descr s e ok u' doc' ->
  (forall k, exists n,
      steps (get_buf (other sel) u') k = drop n (steps (get_buf (other sel) u) k))
  /\ (ok = false ->
      forall k, exists n, steps (get_buf sel u') k = drop n (steps (get_buf sel u) k)).
Proof.
  intros HP.
  assert (forall b2, EvictWhileFull (length (steps (grown (get_buf sel u) smp) smp))
                       (grown (get_buf sel u) smp) smp = Some b2 ->
                     forall k, exists n, steps b2 k = drop n (steps (get_buf sel u) k))
    as Hevict.
  { intros b2 Hev k. apply EvictWhileFull_Trimmed in Hev as [[_ Ht] _].
    destruct (Ht k) as [n Hn]. exists n. by rewrite Hn, grown_steps. }
  assert (forall b2 u3, RestrictBufferSize budget (set_buf sel u b2) = Some u3 ->
            forall sel' k, exists n,
              steps (get_buf sel' u3) k
              = drop n (steps (get_buf sel' (set_buf sel u b2)) k)) as Hrestrict.
  { intros b2 u3 Hr sel' k. apply RestrictRounds_Trimmed in Hr as [[_ H1] [_ H2]].
    destruct sel'; [apply H1|apply H2]. }
  destruct HP as [Hrej|b2 Hsmp Hb Hev Hrange|b2 u3 Hsmp Hb Hev H1 H2 Hr Hs Hd Ha
                 |b2 u3 ptr Hsmp Hb Hev H1 H2 Hr Hptr].
  - split; [|intros _]; intros k; exists 0%nat; by rewrite drop_0.
  - split; [|intros _]; intros k.
    + exists 0%nat. by rewrite get_set_buf_other, drop_0.
    + rewrite get_set_buf. by apply Hevict.
  - split; [|intros _]; intros k.
    + destruct (Hrestrict _ _ Hr (other sel) k) as [n Hn]. exists n.
      by rewrite Hn, get_set_buf_other.
    + destruct (Hrestrict _ _ Hr sel k) as [n Hn]. rewrite get_set_buf in Hn.
      destruct (Hevict _ Hev k) as [m Hm]. exists (m + n)%nat.
      by rewrite Hn, Hm, drop_drop.
  - split; [|done]. intros k. rewrite get_set_buf_other.
    destruct (Hrestrict _ _ Hr (other sel) k) as [n Hn]. exists n.
    by rewrite Hn, get_set_buf_other.
Qed.

(** An [Undo] or [Redo] that fails once the step is taken: the step has left
    the source buffer, and the capture on the other buffer, whose result is
    not looked at, has pushed its step or has been refused. *)
Lemma UndoFromTo_failed_midway doc u from smp undo u' doc' :
  SampleBufferExists (get_buf from u) smp = true ->
  last (steps (get_buf from u) smp) = Some undo ->
  UndoFromTo budget doc u from smp = Some (false, u', doc') ->
  (exists n, steps (get_buf from u') smp
             = drop n (removelast (steps (get_buf from u) smp)))
  /\ sndFile doc' = sndFile doc
  /\ exists pushed doc2,
       PrepareBuffer budget doc
         (set_buf from u (alter (fun st => removelast st) (smp - 1)%nat (get_buf from u)))
         (other from) smp (redoType (changeType undo)) (description undo)
         (changeStart undo) (changeEnd undo) = Some (pushed, u', doc2)
       /\ (pushed = true ->
           exists mirror,
             last (steps (get_buf (other from) u') smp) = Some mirror
             /\ changeType mirror = redoType (changeType undo)
             /\ description mirror = description undo)
       /\ (pushed = false ->
           exists n, steps (get_buf (other from) u') smp
                     = drop n (steps (get_buf (other from) u) smp)).
Proof.
  intros He Hlast. unfold UndoFromTo. rewrite He, Hlast. simpl.
  set (u1 := set_buf from u _).
  destruct (PrepareBuffer _ _ _ _ _ _ _ _ _) as [[[pushed u2] doc2]|] eqn:HP; [|done].
  simpl. destruct (RestoreData _ _) as [[|cur new replace undo']|]; simpl; [|done|done].
  intros [= <- <-].
  apply PrepareBuffer_keeps_sndFile in HP as Hsnd.
  apply PrepareBuffer_Prepared in HP as HP'.
  destruct (Prepared_trims _ _ _ _ _ _ _ _ _ _ _ HP') as [Hsource Hdest].
  apply SampleBufferExists_true in He as Hslot.
  split.
  { destruct (Hsource smp) as [n Hn]. exists n.
    replace (other (other from)) with from in Hn by (by destruct from).
    rewrite Hn. unfold u1. rewrite get_set_buf, steps_alter by lia.
    by rewrite decide_True. }
  split; [done|]. exists pushed, doc2. split; [done|]. split.
  - intros ->. destruct (Prepared_captured_last _ _ _ _ _ _ _ _ _ _ _ HP') as [ptr Hptr].
    eexists. split; [exact Hptr|]. done.
  - intros Hno. destruct (Hdest Hno smp) as [n Hn]. exists n.
    rewrite Hn. unfold u1. by rewrite get_set_buf_other.
Qed.

Lemma pop_Bounded u from smp :
  SampleBufferExists (get_buf from u) smp = true ->
  Bounded u ->
  Bounded (set_buf from u (alter (fun st => removelast st) (smp - 1)%nat (get_buf from u))).
Proof.
  intros He Hu. apply SampleBufferExists_true in He.
  rewrite Bounded_sel in Hu. apply Bounded_sel. intros sel k.
  destruct (bufsel_cases from sel) as [->| ->].
  - rewrite get_set_buf, steps_alter by lia. case_decide; [|apply Hu].
    pose proof (length_removelast_le_smp (steps (get_buf from u) k)).
    specialize (Hu from k). lia.
  - rewrite get_set_buf_other. apply Hu.
Qed.

(** Property X10: the cap on sample histories.  When [MAX_UNDO_LEVEL] is at
    least 1, after any sequence of [PrepareUndo], [Undo] and [Redo] from the
    empty history, no sample has more than [MAX_UNDO_LEVEL] undo steps or more
    than [MAX_UNDO_LEVEL] redo steps. *)
Theorem sample_history_bounded u :
  1 <= MAX_UNDO_LEVEL -> reachable budget u -> Bounded u.
Proof.
  intros Hmax Hreach. induction Hreach as [|u u' _ IH Hstep].
  - intros k. unfold steps, initial. cbn [UndoBuffer RedoBuffer].
    rewrite lookup_nil. simpl. lia.
  - assert (forall doc from smp ok u' doc',
              UndoFromTo budget doc u from smp = Some (ok, u', doc') -> Bounded u')
      as Hundo.
    { intros doc from smp ok u2 doc2 Hrun.
      apply UndoFromTo_history in Hrun as [(-> & _)|(undo & pushed & d & He & _ & HP)];
        [done|].
      apply PrepareBuffer_Prepared in HP.
      eapply Prepared_Bounded; [done|exact HP|]. by apply pop_Bounded. }
    destruct Hstep as [doc u smp kind descr s e ok u' doc' Hrun
                      |doc u smp ok u' doc' Hrun
                      |doc u smp ok u' doc' Hrun]; [|by eapply Hundo..].
    unfold PrepareUndo in Hrun.
    destruct (PrepareBuffer _ _ _ _ _ _ _ _ _) as [[[ok1 u1] doc1]|] eqn:HP; [|done].
    simpl in Hrun. apply PrepareBuffer_Prepared in HP.
    pose proof (Prepared_Bounded _ _ _ _ _ _ _ _ _ _ _ Hmax HP IH) as Hu1.
    destruct ok1; injection Hrun as <- <- <-; [|done].
    intros k. destruct (Hu1 k) as [H1 H2]. split; [done|]. simpl.
    rewrite ClearUndo_spec. destruct (SampleBufferExists (RedoBuffer u1) smp) eqn:He;
      [|done].
    apply SampleBufferExists_true in He. rewrite steps_alter by lia.
    case_decide; [simpl; lia|done].
Qed.

(** *** What [Undo] does to the document *)

Lemma flag_set_kept flags M K :
  Z.land M K = 0 -> Z.land (flag_reset (flag_set flags M) K) M = M.
Proof.
  intros Hdisjoint. unfold flag_reset, flag_set.
  apply Z.bits_inj'. intros n Hn.
  assert (Z.testbit M n && Z.testbit K n = false) as Hbit.
  { rewrite <- Z.land_spec, Hdisjoint. apply Z.bits_0. }
  rewrite !Z.land_spec, Z.lor_spec, Z.lnot_spec by done.
  destruct (Z.testbit flags n), (Z.testbit M n), (Z.testbit K n); done.
Qed.

Lemma flag_set_test flags M : M <> 0 -> flag_test (flag_set flags M) M = true.
Proof.
  intros HM. unfold flag_test, flag_set.
  assert (Z.land (Z.lor flags M) M = M) as ->.
  { apply Z.bits_inj'. intros n Hn. rewrite Z.land_spec, Z.lor_spec.
    destruct (Z.testbit flags n), (Z.testbit M n); done. }
  by destruct (Z.eqb_spec M 0).
Qed.

Lemma FlagsAfterUndo_modified keep kind flags :
  SMP_MODIFIED <> 0 -> Z.land SMP_MODIFIED SMP_KEEPONDISK = 0 ->
  kind <> sundo_none ->
  flag_test (FlagsAfterUndo keep kind flags) SMP_MODIFIED = true.
Proof.
  intros HM Hdisjoint Hkind. unfold FlagsAfterUndo.
  rewrite bool_decide_eq_false_2 by done. destruct keep.
  - by apply flag_set_test.
  - unfold flag_test. rewrite flag_set_kept by done.
    by destruct (Z.eqb_spec SMP_MODIFIED 0).
Qed.

Lemma RestoreHeader_flags keep undo cur new replace :
  let header :=
    PrecomputeLoops
      (if replace : bool
       then ReplaceSample (with_pData (OldSample undo) cur) new (nLength (OldSample undo))
       else with_pData (OldSample undo) cur) in
  RestoreHeader keep undo cur new replace
  = with_uFlags header (FlagsAfterUndo keep (changeType undo) (uFlags header)).
Proof.
  intros header. unfold RestoreHeader, FlagsAfterUndo. fold header.
  destruct (bool_decide (changeType undo = sundo_none)), keep; by destruct header.
Qed.

Lemma RestoreData_step sample undo cur new replace undo' :
  RestoreData sample undo = Some (Restored cur new replace undo') ->
  OldSample undo' = OldSample undo /\ oldName undo' = oldName undo
  /\ changeType undo' = changeType undo.
Proof.
  unfold RestoreData.
  destruct (changeType undo) eqn:Hkind; simpl;
    try (destruct (_ <? _); [done|]);
    try (destruct (AllocateSample _ _); [|done]);
    repeat (match goal with
            | |- (?m ≫= _) = _ -> _ => destruct m; simpl; [|done]
            end);
    by intros [= <- <- <- <-].
Qed.

(** Property X11: what a sample [Undo] or [Redo] does to the document.  It
    never touches another sample or its name.  When it fails, the sound file
    is as it was.  When it succeeds, the sample has the name saved in the
    step, the document is marked modified, and the sample has the flag
    [SMP_MODIFIED] unless the step is of kind [sundo_none] (the two flags
    being distinct bits). *)
Theorem sample_Undo_touches_only_its_sample doc u from smp ok u' doc' :
  UndoFromTo budget doc u from smp = Some (ok, u', doc') ->
  (forall k, k <> smp ->
     GetSample (sndFile doc') k = GetSample (sndFile doc) k
     /\ m_szNames (sndFile doc') k = m_szNames (sndFile doc) k)
  /\ (ok = false -> sndFile doc' = sndFile doc /\ modified doc' = modified doc)
  /\ (ok = true ->
      exists undo,
        last (steps (get_buf from u) smp) = Some undo
        /\ m_szNames (sndFile doc') smp = oldName undo
        /\ modified doc' = true
        /\ (SMP_MODIFIED <> 0 -> Z.land SMP_MODIFIED SMP_KEEPONDISK = 0 ->
            changeType undo <> sundo_none ->
            flag_test (uFlags (GetSample (sndFile doc') smp)) SMP_MODIFIED = true)).
Proof.
  unfold UndoFromTo.
  destruct (SampleBufferExists (get_buf from u) smp); simpl;
    [|intros [= <- <- <-]; by repeat split].
  destruct (last (steps (get_buf from u) smp)) as [undo|];
    [|intros [= <- <- <-]; by repeat split].
  destruct (PrepareBuffer _ _ _ _ _ _ _ _ _) as [[[pushed u2] doc2]|] eqn:HP; [|done].
  simpl. apply PrepareBuffer_Prepared in HP as HP'.
  assert (sndFile doc2 = sndFile doc /\ modified doc2 = modified doc) as [Hsnd Hmod].
  { destruct HP'; done. }
  destruct (RestoreData _ _) as [[|cur new replace undo']|] eqn:Hrestore; simpl; [| |done].
  - intros [= <- <- <-]. rewrite Hsnd. by repeat split.
  - intros [= <- <- <-]. apply RestoreData_step in Hrestore as (Hold & Hname & Hkind).
    split.
    { intros k Hk. simpl. unfold GetSample. simpl.
      destruct (Nat.eqb_spec k smp); [done|]. by rewrite Hsnd. }
    split; [done|]. intros _. exists undo. split; [done|].
    split. { simpl. by rewrite Nat.eqb_refl. }
    split; [done|]. intros HM Hdisjoint Hnone.
    simpl. unfold GetSample. simpl. rewrite Nat.eqb_refl.
    rewrite RestoreHeader_flags. simpl. rewrite Hkind.
    by apply FlagsAfterUndo_modified.
Qed.

(** *** What a capture saves *)

Lemma smp_wrap_id x : 0 <= x < 2 ^ SmpLength_bits -> wrap SmpLength_bits x = x.
Proof. intros H. unfold wrap. by apply Z.mod_small. Qed.

Lemma frames_fit old x :
  wf_sample old -> 0 <= x <= nLength old ->
  wrap SmpLength_bits x = x
  /\ smp_mul x (GetBytesPerSample old) = x * GetBytesPerSample old.
Proof.
  intros (Hn & Hb & Hfit & _) Hx. unfold smp_mul. rewrite !smp_wrap_id by nia. done.
Qed.

Lemma read_at_in {A} (buf : list A) off n :
  0 <= off -> 0 <= n -> off + n <= Z.of_nat (length buf) ->
  read_at buf off n = Some (take (Z.to_nat n) (drop (Z.to_nat off) buf)).
Proof. intros. by apply read_at_Some. Qed.

Lemma write_at_in {A} (buf : list A) off src :
  0 <= off -> off + Z.of_nat (length src) <= Z.of_nat (length buf) ->
  write_at buf off src
  = Some (take (Z.to_nat off) buf ++ src ++ drop (Z.to_nat off + length src) buf).
Proof. intros. by apply write_at_Some. Qed.

Lemma write_at_whole {A} (buf src : list A) :
  length src = length buf -> write_at buf 0 src = Some src.
Proof.
  intros Hlen. rewrite write_at_in by lia. change (Z.to_nat 0) with 0%nat.
  rewrite take_0, drop_ge by lia. by rewrite app_nil_r.
Qed.

(** The bytes of the frames [[cs, ce)] of a sample. *)
Lemma capture_bytes old data cs ce :
  wf_sample old -> pData old = Some data -> 0 <= cs <= ce -> ce <= nLength old ->
  AllocateSample_ok (ce - cs) (GetBytesPerSample old) = true ->
  memcpy (AllocateSample (smp_sub ce cs) (GetBytesPerSample old)) 0 (pData old)
    (smp_mul cs (GetBytesPerSample old))
    (smp_mul (smp_sub ce cs) (GetBytesPerSample old))
  = Some (take (Z.to_nat ((ce - cs) * GetBytesPerSample old))
            (drop (Z.to_nat (cs * GetBytesPerSample old)) data)).
Proof.
  intros Hwf Hdata Hrange Hce Hok. pose proof Hwf as (Hn & Hb & Hfit & Hlen).
  specialize (Hlen _ Hdata).
  unfold smp_sub. destruct (frames_fit old (ce - cs) Hwf ltac:(lia)) as [-> ->].
  destruct (frames_fit old cs Hwf ltac:(lia)) as [_ ->].
  unfold AllocateSample. rewrite Hok, Hdata. unfold memcpy. simpl.
  rewrite read_at_in by nia. simpl.
  apply write_at_whole. rewrite length_take, length_drop, length_replicate. nia.
Qed.

Lemma PrepareBuffer_pushed doc u sel smp kind descr s e u' doc' :
  PrepareBuffer budget doc u sel smp kind descr s e = Some (true, u', doc') ->
  exists u3 ptr,
    (0 < smp <= length (get_buf sel u3))%nat /\ (smp < MAX_SAMPLES)%nat
    /\ u' = set_buf sel u3
              (alter (fun st => st ++ [captured doc smp kind descr s e ptr])
                     (smp - 1)%nat (get_buf sel u3))
    /\ doc' = UpdateAllViews doc
    /\ length (get_buf (other sel) u3) = length (get_buf (other sel) u)
    /\ (forced doc smp kind s e).1 <= nLength (GetSample (sndFile doc) smp)
    /\ (forced doc smp kind s e).1 <= (forced doc smp kind s e).2
    /\ ptr = (if savesData kind && HasSampleData (GetSample (sndFile doc) smp)
              then memcpy
                     (AllocateSample
                        (smp_sub (forced doc smp kind s e).2 (forced doc smp kind s e).1)
                        (GetBytesPerSample (GetSample (sndFile doc) smp)))
                     0 (pData (GetSample (sndFile doc) smp))
                     (smp_mul (forced doc smp kind s e).1
                              (GetBytesPerSample (GetSample (sndFile doc) smp)))
                     (smp_mul
                        (smp_sub (forced doc smp kind s e).2 (forced doc smp kind s e).1)
                        (GetBytesPerSample (GetSample (sndFile doc) smp)))
              else None)
    /\ (savesData kind && HasSampleData (GetSample (sndFile doc) smp) = true ->
        is_Some ptr).
Proof.
  unfold PrepareBuffer.
  destruct (Nat.eqb_spec smp 0) as [->|Hsmp]; simpl; [done|].
  destruct (Nat.leb_spec MAX_SAMPLES smp) as [Hmax|Hmax]; simpl; [done|].
  destruct (Z.eqb_spec budget 0) as [Hb|Hb]; [done|].
  fold (grown (get_buf sel u) smp).
  destruct (EvictWhileFull _ _ _) as [b2|] eqn:Hev; simpl; [|done].
  unfold captured, forced.
  destruct (ForcedRange (GetSample (sndFile doc) smp) kind s e) as [cs ce] eqn:Hfr.
  simpl.
  destruct (Z.ltb_spec (nLength (GetSample (sndFile doc) smp)) cs) as [H1|H1]; simpl;
    [done|].
  destruct (Z.ltb_spec ce cs) as [H2|H2]; simpl; [done|].
  destruct (RestrictBufferSize _ _) as [u3|] eqn:Hr; simpl; [|done].
  apply EvictWhileFull_spec in Hev as [Hlen _]. rewrite grown_length in Hlen.
  apply RestrictRounds_length in Hr as [Hlu Hlr].
  assert ((0 < smp <= length (get_buf sel u3))%nat
          /\ length (get_buf (other sel) u3) = length (get_buf (other sel) u)) as [Hs3 Ho3].
  { destruct sel; simpl in *; split; lia. }
  destruct (savesData kind && HasSampleData (GetSample (sndFile doc) smp)) eqn:Hsave.
  - destruct (AllocateSample _ _) as [fresh|] eqn:Hal; [|done].
    match goal with
    | |- (?m ≫= _) = _ -> _ => destruct m as [ptr|] eqn:Hm
    end; simpl; [|done].
    intros [= <- <-]. exists u3, (Some ptr).
    repeat split; first [done | lia | symmetry; exact Hm | by eexists].
  - intros [= <- <-]. exists u3, None. repeat split; try done; lia.
Qed.

(** Property X12: what a sample undo point holds.  For a kind that saves data
    ([sundo_update], [sundo_delete], [sundo_replace]) on a sample that has
    data, with the range inside the sample: after a successful [PrepareUndo]
    the step on top of the undo steps of the sample owns a buffer with exactly
    the bytes of the frames of the forced range, and has the header and the
    name of the sample; the redo steps of the sample are gone; the document is
    unchanged but for one notification of the views. *)
Theorem sample_PrepareUndo_saves_data doc u smp kind descr s e u' doc' data :
  let old := GetSample (sndFile doc) smp in
  let cs := (ForcedRange old kind s e).1 in
  let ce := (ForcedRange old kind s e).2 in
  wf_sample old -> pData old = Some data -> HasSampleData old = true ->
  savesData kind = true -> 0 <= cs -> ce <= nLength old ->
  PrepareUndo budget doc u smp kind descr s e = Some (true, u', doc') ->
  exists undo,
    last (steps (UndoBuffer u') smp) = Some undo
    /\ samplePtr undo
       = Some (take (Z.to_nat ((ce - cs) * GetBytesPerSample old))
                 (drop (Z.to_nat (cs * GetBytesPerSample old)) data))
    /\ OldSample undo = old /\ oldName undo = m_szNames (sndFile doc) smp
    /\ changeType undo = kind /\ changeStart undo = cs /\ changeEnd undo = ce
    /\ description undo = descr
    /\ steps (RedoBuffer u') smp = []
    /\ sndFile doc' = sndFile doc /\ updates doc' = S (updates doc).
Proof.
  intros old cs ce Hwf Hdata Hhas Hsaves Hcs Hce. unfold PrepareUndo.
  destruct (PrepareBuffer _ _ _ _ _ _ _ _ _) as [[[ok u1] doc1]|] eqn:HP; [|done].
  simpl. destruct ok; [|done]. intros [= <- <-].
  apply PrepareBuffer_pushed in HP
    as (u3 & ptr & Hsmp & Hmax & -> & -> & Hlen & _ & Hrange & Hptr & Hsome).
  unfold forced in *. fold old cs ce in Hrange, Hptr, Hsome.
  rewrite Hsaves, Hhas in Hptr, Hsome. simpl in Hptr, Hsome.
  specialize (Hsome eq_refl). simpl in Hsmp, Hlen.
  assert (AllocateSample_ok (ce - cs) (GetBytesPerSample old) = true) as Hok.
  { destruct (AllocateSample_ok (ce - cs) (GetBytesPerSample old)) eqn:Hal; [done|].
    exfalso. unfold smp_sub in Hptr.
    destruct (frames_fit old (ce - cs) Hwf ltac:(lia)) as [Hw _]. rewrite Hw in Hptr.
    unfold AllocateSample in Hptr. rewrite Hal in Hptr. simpl in Hptr.
    rewrite Hptr in Hsome. by destruct Hsome. }
  exists (captured doc smp kind descr s e ptr).
  split.
  { simpl. apply last_steps_push. lia. }
  split. { simpl. rewrite Hptr. by apply capture_bytes. }
  simpl. repeat (split; [done|]).
  split; [|done].
  rewrite ClearUndo_spec.
  destruct (SampleBufferExists (RedoBuffer u3) smp) eqn:He.
  - apply SampleBufferExists_true in He. rewrite steps_alter by lia.
    by rewrite decide_True.
  - unfold steps. rewrite lookup_ge_None_2; [done|].
    destruct (decide (smp <= length (RedoBuffer u3))%nat); [|lia].
    assert (SampleBufferExists (RedoBuffer u3) smp = true); [|congruence].
    apply SampleBufferExists_true. lia.
Qed.

(** *** [Undo] runs *)

Lemma EvictWhileFull_returns fuel (b : undobuf_t) smp :
  1 <= MAX_UNDO_LEVEL -> SampleBufferExists b smp = true ->
  (length (steps b smp) <= fuel)%nat ->
  is_Some (EvictWhileFull fuel b smp).
Proof.
  intros Hmax. revert b. induction fuel as [|fuel IH]; intros b He Hlen; simpl;
    destruct (Z.leb_spec MAX_UNDO_LEVEL (Z.of_nat (length (steps b smp)))) as [Hfull|];
    try done; try lia.
  apply IH.
  - by rewrite (SampleBufferExists_length b) by apply DeleteStep_length.
  - rewrite DeleteStep_front by done. apply SampleBufferExists_true in He.
    rewrite steps_alter by lia. rewrite decide_True by done. rewrite length_drop. lia.
Qed.

Lemma reachable_SlotsOk u :
  0 <= budget -> reachable budget u ->
  SlotsOk (UndoBuffer u) /\ SlotsOk (RedoBuffer u).
Proof.
  intros Hb Hreach.
  assert (Inv budget u) as (? & ? & _); [|done].
  induction Hreach; [by apply Inv_initial|]. by eapply step_Inv.
Qed.

Lemma capture_returns doc u sel smp kind descr s e :
  0 <= budget -> 1 <= MAX_UNDO_LEVEL ->
  SlotsOk (UndoBuffer u) -> SlotsOk (RedoBuffer u) ->
  (savesData kind && HasSampleData (GetSample (sndFile doc) smp) = true ->
   wf_sample (GetSample (sndFile doc) smp)
   /\ is_Some (pData (GetSample (sndFile doc) smp))
   /\ 0 <= (forced doc smp kind s e).1
   /\ (forced doc smp kind s e).2 <= nLength (GetSample (sndFile doc) smp)) ->
  exists pushed u' doc',
    PrepareBuffer budget doc u sel smp kind descr s e = Some (pushed, u', doc')
    /\ sndFile doc' = sndFile doc
    /\ length (get_buf (other sel) u') = length (get_buf (other sel) u).
Proof.
  intros Hb Hmax Hsu Hsr Hdata. unfold PrepareBuffer.
  destruct (Nat.eqb_spec smp 0) as [->|Hsmp]; simpl; [by eexists _, _, _|].
  destruct (Nat.leb_spec MAX_SAMPLES smp) as [Hms|Hms]; simpl; [by eexists _, _, _|].
  destruct (Z.eqb_spec budget 0) as [Hb0|Hb0]; [by eexists _, _, _|].
  fold (grown (get_buf sel u) smp).
  assert (SampleBufferExists (grown (get_buf sel u) smp) smp = true) as He.
  { apply SampleBufferExists_true. rewrite grown_length. lia. }
  destruct (EvictWhileFull_returns (length (steps (grown (get_buf sel u) smp) smp))
              _ smp Hmax He ltac:(lia)) as [b2 Hev].
  rewrite Hev. simpl.
  apply EvictWhileFull_spec in Hev as [Hlen _]. rewrite grown_length in Hlen.
  unfold forced in Hdata.
  destruct (ForcedRange (GetSample (sndFile doc) smp) kind s e) as [cs ce] eqn:Hfr.
  simpl in Hdata.
  destruct (Z.ltb_spec (nLength (GetSample (sndFile doc) smp)) cs) as [H1|H1]; simpl.
  { eexists _, _, _. split; [done|]. split; [done|]. by rewrite get_set_buf_other. }
  destruct (Z.ltb_spec ce cs) as [H2|H2]; simpl.
  { eexists _, _, _. split; [done|]. split; [done|]. by rewrite get_set_buf_other. }
  assert (SlotsOk (UndoBuffer (set_buf sel u b2))
          /\ SlotsOk (RedoBuffer (set_buf sel u b2))) as [Hsu2 Hsr2].
  { unfold SlotsOk in *. destruct sel; simpl in *; lia. }
  destruct (RestrictBufferSize_spec budget bits_nonneg (set_buf sel u b2) Hb Hsu2 Hsr2)
    as (u3 & Hr & Hlu & Hlr & _).
  rewrite Hr. cbn [mbind option_bind].
  assert (length (get_buf (other sel) u3) = length (get_buf (other sel) u)) as Hother.
  { destruct sel; simpl in *; lia. }
  destruct (savesData kind && HasSampleData (GetSample (sndFile doc) smp)) eqn:Hsave.
  - destruct (Hdata eq_refl) as (Hwf & [data Hd] & Hcs & Hce).
    destruct (AllocateSample _ _) as [fresh|] eqn:Hal; [|by eexists _, _, _].
    assert (AllocateSample_ok (ce - cs) (GetBytesPerSample (GetSample (sndFile doc) smp))
            = true) as Hok.
    { unfold AllocateSample, smp_sub in Hal.
      destruct (frames_fit _ (ce - cs) Hwf ltac:(lia)) as [Hw _]. rewrite Hw in Hal.
      by destruct (AllocateSample_ok _ _). }
    pose proof (capture_bytes _ data cs ce Hwf Hd ltac:(lia) Hce Hok) as Hcopy.
    rewrite Hal in Hcopy. unfold memcpy in Hcopy. cbn [mbind option_bind] in Hcopy.
    unfold mbind in *. rewrite Hcopy. simpl.
    eexists _, _, _. split; [done|]. split; [done|].
    by rewrite get_set_buf_other.
  - eexists _, _, _. split; [done|]. split; [done|]. by rewrite get_set_buf_other.
Qed.

Lemma Undo_runs doc u smp undo cur new replace undo' :
  0 <= budget -> 1 <= MAX_UNDO_LEVEL -> reachable budget u ->
  (0 < smp < MAX_SAMPLES)%nat ->
  last (steps (UndoBuffer u) smp) = Some undo ->
  (savesData (redoType (changeType undo)) && HasSampleData (GetSample (sndFile doc) smp)
   = true ->
   wf_sample (GetSample (sndFile doc) smp)
   /\ is_Some (pData (GetSample (sndFile doc) smp))
   /\ 0 <= (forced doc smp (redoType (changeType undo))
              (changeStart undo) (changeEnd undo)).1
   /\ (forced doc smp (redoType (changeType undo))
         (changeStart undo) (changeEnd undo)).2
      <= nLength (GetSample (sndFile doc) smp)) ->
  RestoreData (GetSample (sndFile doc) smp) undo
  = Some (Restored cur new replace undo') ->
  exists u' doc',
    Undo budget doc u smp = Some (true, u', doc')
    /\ GetSample (sndFile doc') smp
       = RestoreHeader (flag_test (uFlags (GetSample (sndFile doc) smp)) SMP_KEEPONDISK)
           undo' cur new replace
    /\ m_szNames (sndFile doc') smp = oldName undo
    /\ (length (steps (UndoBuffer u') smp) < length (steps (UndoBuffer u) smp))%nat.
Proof.
  intros Hb Hmax Hreach Hsmp Hlast Hdata Hrestore.
  destruct (reachable_SlotsOk u Hb Hreach) as [Hsu Hsr].
  assert (SampleBufferExists (UndoBuffer u) smp = true) as He.
  { apply SampleBufferExists_true. repeat split; try lia.
    destruct (decide (smp <= length (UndoBuffer u))%nat); [done|].
    unfold steps in Hlast. by rewrite lookup_ge_None_2 in Hlast by lia. }
  unfold Undo, UndoFromTo. simpl. rewrite He, Hlast. simpl.
  set (u1 := {| UndoBuffer := alter (fun st => removelast st) (smp - 1)%nat (UndoBuffer u);
                RedoBuffer := RedoBuffer u |}).
  destruct (capture_returns doc u1 SelRedo smp (redoType (changeType undo))
              (description undo) (changeStart undo) (changeEnd undo) Hb Hmax)
    as (pushed & u2 & doc2 & HP & Hsnd & Hlen);
    [unfold SlotsOk in *; simpl; by rewrite length_alter|done|done|].
  rewrite HP. simpl. rewrite Hsnd, Hrestore. simpl.
  simpl in Hlen. rewrite length_alter in Hlen.
  assert (SampleBufferExists (UndoBuffer u2) smp = true) as He2
    by (by rewrite (SampleBufferExists_length (UndoBuffer u))).
  pose proof (DeleteStep_last (UndoBuffer u2) smp undo' He2) as Hd. simpl in Hd.
  rewrite Hd. eexists _, _. split; [reflexivity|]. simpl. unfold GetSample. simpl.
  rewrite Nat.eqb_refl. split; [done|].
  apply RestoreData_step in Hrestore as (_ & Hname & _). split; [done|].
  (* the source buffer has lost the step, and maybe older ones *)
  apply PrepareBuffer_Prepared in HP.
  assert (forall k, length (steps (UndoBuffer u2) k) <= length (steps (UndoBuffer u1) k))%nat
    as Hshrunk.
  { intros k.
    destruct HP as [Hrej|b2 ? ? Hev ?|b2 u3 ? ? Hev ? ? Hr ? ? ?|b2 u3 ptr ? ? Hev ? ? Hr ?];
      simpl; try done.
    - apply RestrictRounds_Trimmed in Hr as [Ht _]. by apply Trimmed_length.
    - apply RestrictRounds_Trimmed in Hr as [Ht _]. by apply Trimmed_length. }
  specialize (Hshrunk smp). unfold u1 in Hshrunk. simpl in Hshrunk.
  apply SampleBufferExists_true in He.
  rewrite steps_alter, decide_True in Hshrunk by (done || lia).
  destruct (steps (UndoBuffer u) smp) as [|x l _] using rev_ind; [done|].
  rewrite removelast_last in Hshrunk. rewrite length_app. simpl. lia.
Qed.

(** *** Undo of an update, of a deletion and of a replacement *)

Lemma three_parts {A} (data : list A) (a n : nat) :
  take a data ++ take n (drop a data) ++ drop (a + n) data = data.
Proof. by rewrite <- drop_drop, !take_drop. Qed.

Lemma patch_back (data live : list Byte.byte) (off n : nat) :
  length live = length data -> (off + n <= length data)%nat ->
  (forall i, ~ (off <= i < off + n)%nat -> live !! i = data !! i) ->
  take off live ++ take n (drop off data) ++ drop (off + n) live = data.
Proof.
  intros Hlen Hin Hsame.
  transitivity (take off data ++ take n (drop off data) ++ drop (off + n) data);
    [|apply three_parts].
  f_equal; [|f_equal].
  - apply list_eq. intros i. destruct (decide (i < off)%nat).
    + rewrite !lookup_take_lt by done. apply Hsame. lia.
    + by rewrite !lookup_take_ge by lia.
  - apply list_eq. intros i. rewrite !lookup_drop. apply Hsame. lia.
Qed.

Lemma read_at_whole {A} (buf : list A) n :
  n = Z.of_nat (length buf) -> read_at buf 0 n = Some buf.
Proof.
  intros ->. rewrite read_at_in by lia. change (Z.to_nat 0) with 0%nat.
  rewrite drop_0, Nat2Z.id. by rewrite take_ge.
Qed.

Lemma memcpy_reinsert (data fresh : list Byte.byte) (a n t : nat) :
  length data = (a + n + t)%nat -> length fresh = length data ->
  (memcpy (Some fresh) 0 (Some (take a data ++ drop (a + n) data)) 0 (Z.of_nat a)
   ≫= fun n1 =>
   memcpy (Some n1) (Z.of_nat a) (Some (take n (drop a data))) 0 (Z.of_nat n)
   ≫= fun n2 =>
   memcpy (Some n2) (Z.of_nat (a + n))
     (Some (take a data ++ drop (a + n) data)) (Z.of_nat a) (Z.of_nat t))
  = Some data.
Proof.
  intros Hdata Hfresh. unfold memcpy. cbn [mbind option_bind].
  set (live := take a data ++ drop (a + n) data).
  assert (length (take a data) = a) as Hta by (rewrite length_take; lia).
  assert (length live = (a + t)%nat) as Hlive.
  { unfold live. rewrite length_app, Hta, length_drop. lia. }
  assert (length (take n (drop a data)) = n) as Htn
    by (rewrite length_take, length_drop; lia).
  assert (take a live = take a data) as Hbefore
    by (unfold live; by rewrite take_app_length').
  assert (take t (drop a live) = drop (a + n) data) as Hafter.
  { unfold live. rewrite drop_app_length' by done.
    apply take_ge. rewrite length_drop. lia. }
  rewrite (read_at_in live 0 (Z.of_nat a)) by lia.
  rewrite (read_at_in live (Z.of_nat a) (Z.of_nat t)) by lia.
  rewrite (read_at_whole (take n (drop a data)) (Z.of_nat n)) by lia.
  change (Z.to_nat 0) with 0%nat. rewrite drop_0, !Nat2Z.id, Hbefore, Hafter.
  cbn [mbind option_bind].
  (* the part before the deleted frames *)
  rewrite write_at_in by lia.
  change (Z.to_nat 0) with 0%nat. rewrite take_0, Hta. cbn [mbind option_bind app plus].
  (* the deleted frames *)
  rewrite write_at_in
    by (repeat first [rewrite length_app | rewrite length_drop | rewrite length_take]; lia).
  rewrite Nat2Z.id, Htn, take_app_length' by done. cbn [mbind option_bind].
  (* the part after them *)
  rewrite write_at_in
    by (repeat first [rewrite length_app | rewrite length_drop | rewrite length_take]; lia).
  rewrite Nat2Z.id.
  set (X := take a data ++ take n (drop a data)
            ++ drop (a + n) (take a data ++ drop a fresh)).
  assert (take (a + n) X = take a data ++ take n (drop a data)) as ->.
  { unfold X. rewrite app_assoc. apply take_app_length'. rewrite length_app. lia. }
  rewrite (drop_ge X)
    by (unfold X;
        repeat first [rewrite length_app | rewrite length_drop | rewrite length_take]; lia).
  rewrite app_nil_r, <- app_assoc. f_equal. apply three_parts.
Qed.

(** Property X13: [Undo] of an update.  For a history the engine can be in,
    when the most recent undo step of the sample is of kind [sundo_update] and
    owns the bytes that the sample data had in its frames, and the live sample
    still has a buffer of the same size that differs from that data in those
    frames only: [Undo] succeeds, and the sample is the saved header with the
    data as it was, after [PrecomputeLoops], with the flags that undo sets;
    the step has left the undo steps of the sample. *)
Theorem sample_Undo_update_restores_data doc u smp undo data live :
  let old := OldSample undo in
  let cur := GetSample (sndFile doc) smp in
  let bps := GetBytesPerSample old in
  0 <= budget -> 1 <= MAX_UNDO_LEVEL -> reachable budget u ->
  (0 < smp < MAX_SAMPLES)%nat ->
  last (steps (UndoBuffer u) smp) = Some undo ->
  changeType undo = sundo_update ->
  wf_sample old -> Z.of_nat (length data) = nLength old * bps ->
  0 <= changeStart undo <= changeEnd undo -> changeEnd undo <= nLength old ->
  HoldsFrames undo data ->
  wf_sample cur -> pData cur = Some live -> changeEnd undo <= nLength cur ->
  length live = length data ->
  (forall i : nat, ~ (changeStart undo * bps <= Z.of_nat i < changeEnd undo * bps) ->
                   live !! i = data !! i) ->
  exists u' doc',
    Undo budget doc u smp = Some (true, u', doc')
    /\ GetSample (sndFile doc') smp
       = with_uFlags (PrecomputeLoops (with_pData old (Some data)))
           (FlagsAfterUndo (flag_test (uFlags cur) SMP_KEEPONDISK) sundo_update
              (uFlags (PrecomputeLoops (with_pData old (Some data)))))
    /\ m_szNames (sndFile doc') smp = oldName undo
    /\ (length (steps (UndoBuffer u') smp) < length (steps (UndoBuffer u) smp))%nat.
Proof.
  intros old cur bps Hb Hmax Hreach Hsmp Hlast Hkind Hwf Hlen Hrange Hce Hholds
         Hwfc Hlive Hcec Hsize Hsame.
  subst old bps.
  pose proof Hwf as (Hn & Hbps & Hfit & _).
  destruct (frames_fit (OldSample undo) (changeStart undo) Hwf ltac:(lia)) as [_ Hmcs].
  destruct (frames_fit (OldSample undo) (changeEnd undo - changeStart undo) Hwf ltac:(lia))
    as [Hwlen Hmlen].
  assert (RestoreData cur undo = Some (Restored (Some data) None false undo)) as Hrestore.
  { unfold RestoreData. rewrite Hkind.
    destruct (Z.ltb_spec (nLength cur) (changeEnd undo)); [lia|].
    unfold smp_sub. rewrite Hwlen, Hmcs, Hmlen, Hlive, Hholds.
    unfold memcpy. cbn [mbind option_bind].
    rewrite read_at_whole by (rewrite length_take, length_drop; nia).
    cbn [mbind option_bind].
    rewrite write_at_in by (rewrite ?length_take, ?length_drop; nia).
    cbn [mbind option_bind]. do 3 f_equal.
    rewrite length_take, length_drop.
    replace (Z.to_nat ((changeEnd undo - changeStart undo) * (GetBytesPerSample (OldSample undo)))
               `min` (length data - Z.to_nat (changeStart undo * (GetBytesPerSample (OldSample undo)))))%nat
      with (Z.to_nat ((changeEnd undo - changeStart undo) * (GetBytesPerSample (OldSample undo)))) by nia.
    apply patch_back; [done|nia|]. intros i Hi. apply Hsame. nia. }
  assert (savesData (redoType (changeType undo))
          && HasSampleData (GetSample (sndFile doc) smp) = true ->
          wf_sample (GetSample (sndFile doc) smp)
          /\ is_Some (pData (GetSample (sndFile doc) smp))
          /\ 0 <= (forced doc smp (redoType (changeType undo))
                     (changeStart undo) (changeEnd undo)).1
          /\ (forced doc smp (redoType (changeType undo))
                (changeStart undo) (changeEnd undo)).2
             <= nLength (GetSample (sndFile doc) smp)) as Hdata.
  { rewrite Hkind. simpl. intros _. split; [done|]. split; [by eexists|].
    unfold forced, cur in *. simpl. lia. }
  destruct (Undo_runs doc u smp undo _ _ _ _ Hb Hmax Hreach Hsmp Hlast Hdata Hrestore)
    as (u' & doc' & Hrun & Hsample & Hname & Hshorter).
  exists u', doc'. split; [done|]. split; [|done].
  rewrite Hsample, RestoreHeader_flags. simpl. by rewrite Hkind.
Qed.

(** Property X14: [Undo] of a deletion.  For a history the engine can be in,
    when the most recent undo step of the sample is of kind [sundo_delete] and
    owns the bytes of the deleted frames of [data], the live sample holds
    [data] less those frames, and the buffer for the whole sample can be
    allocated: [Undo] succeeds and hands [ReplaceSample] a buffer that holds
    [data] again, with the saved length; the sample is the result, after
    [PrecomputeLoops], with the flags that undo sets. *)
Theorem sample_Undo_delete_reinserts_data doc u smp undo data :
  let old := OldSample undo in
  let cur := GetSample (sndFile doc) smp in
  let bps := GetBytesPerSample old in
  let live := take (Z.to_nat (changeStart undo * bps)) data
              ++ drop (Z.to_nat (changeEnd undo * bps)) data in
  0 <= budget -> 1 <= MAX_UNDO_LEVEL -> reachable budget u ->
  (0 < smp < MAX_SAMPLES)%nat ->
  last (steps (UndoBuffer u) smp) = Some undo ->
  changeType undo = sundo_delete ->
  wf_sample old -> Z.of_nat (length data) = nLength old * bps ->
  0 <= changeStart undo <= changeEnd undo -> changeEnd undo <= nLength old ->
  HoldsFrames undo data ->
  pData cur = Some live ->
  AllocateSample_ok (nLength old) bps = true ->
  exists u' doc',
    Undo budget doc u smp = Some (true, u', doc')
    /\ GetSample (sndFile doc') smp
       = with_uFlags
           (PrecomputeLoops
              (ReplaceSample (with_pData old (Some live)) (Some data) (nLength old)))
           (FlagsAfterUndo (flag_test (uFlags cur) SMP_KEEPONDISK) sundo_delete
              (uFlags (PrecomputeLoops
                         (ReplaceSample (with_pData old (Some live)) (Some data)
                            (nLength old)))))
    /\ m_szNames (sndFile doc') smp = oldName undo
    /\ (length (steps (UndoBuffer u') smp) < length (steps (UndoBuffer u) smp))%nat.
Proof.
  intros old cur bps live Hb Hmax Hreach Hsmp Hlast Hkind Hwf Hlen Hrange Hce Hholds
         Hlive Hmem.
  subst old bps.
  pose proof Hwf as (Hn & Hbps & Hfit & _).
  destruct (frames_fit (OldSample undo) (changeStart undo) Hwf ltac:(lia)) as [_ Hmcs].
  destruct (frames_fit (OldSample undo) (changeEnd undo) Hwf ltac:(lia)) as [_ Hmce].
  destruct (frames_fit (OldSample undo) (changeEnd undo - changeStart undo) Hwf ltac:(lia))
    as [Hwlen Hmlen].
  destruct (frames_fit (OldSample undo) (nLength (OldSample undo) - changeEnd undo) Hwf ltac:(lia))
    as [Hwtail Hmtail].
  assert (RestoreData cur undo = Some (Restored (Some live) (Some data) true undo))
    as Hrestore.
  { unfold RestoreData. rewrite Hkind.
    unfold AllocateSample. rewrite Hmem. unfold smp_sub.
    rewrite Hwlen, Hwtail, Hmcs, Hmce, Hmlen, Hmtail, Hlive, Hholds.
    set (a := Z.to_nat (changeStart undo * (GetBytesPerSample (OldSample undo)))).
    set (n := Z.to_nat ((changeEnd undo - changeStart undo) * (GetBytesPerSample (OldSample undo)))).
    set (t := Z.to_nat ((nLength (OldSample undo) - changeEnd undo) * (GetBytesPerSample (OldSample undo)))).
    pose proof (memcpy_reinsert data
                  (replicate (Z.to_nat (nLength (OldSample undo) * (GetBytesPerSample (OldSample undo)))) Byte.x00) a n t
                  ltac:(nia) ltac:(rewrite length_replicate; nia)) as Hre.
    replace (Z.of_nat a) with (changeStart undo * (GetBytesPerSample (OldSample undo))) in Hre by nia.
    replace (Z.of_nat n) with ((changeEnd undo - changeStart undo) * (GetBytesPerSample (OldSample undo))) in Hre by nia.
    replace (Z.of_nat t) with ((nLength (OldSample undo) - changeEnd undo) * (GetBytesPerSample (OldSample undo))) in Hre by nia.
    replace (Z.of_nat (a + n)) with (changeEnd undo * (GetBytesPerSample (OldSample undo))) in Hre by nia.
    replace (a + n)%nat with (Z.to_nat (changeEnd undo * (GetBytesPerSample (OldSample undo)))) in Hre by nia.
    change (take a data ++ drop (Z.to_nat (changeEnd undo * _)) data) with live in Hre.
    destruct (memcpy (Some (replicate _ _)) 0 (Some live) 0 _) as [n1|]; [|by simpl in Hre].
    cbn [mbind option_bind] in Hre |- *.
    destruct (memcpy (Some n1) _ _ 0 _) as [n2|]; [|by simpl in Hre].
    cbn [mbind option_bind] in Hre |- *.
    rewrite Hre. done. }
  assert (savesData (redoType (changeType undo))
          && HasSampleData (GetSample (sndFile doc) smp) = true ->
          wf_sample (GetSample (sndFile doc) smp)
          /\ is_Some (pData (GetSample (sndFile doc) smp))
          /\ 0 <= (forced doc smp (redoType (changeType undo))
                     (changeStart undo) (changeEnd undo)).1
          /\ (forced doc smp (redoType (changeType undo))
                (changeStart undo) (changeEnd undo)).2
             <= nLength (GetSample (sndFile doc) smp)) as Hdata.
  { rewrite Hkind. simpl. done. }
  destruct (Undo_runs doc u smp undo _ _ _ _ Hb Hmax Hreach Hsmp Hlast Hdata Hrestore)
    as (u' & doc' & Hrun & Hsample & Hname & Hshorter).
  exists u', doc'. split; [done|]. split; [|done].
  rewrite Hsample, RestoreHeader_flags. simpl. by rewrite Hkind.
Qed.

(** Property X15: [Undo] of a replacement.  For a history the engine can be
    in, when the most recent undo step of the sample is of kind
    [sundo_replace] (and the live sample, if it has data, has a well-formed
    header): [Undo] succeeds and hands [ReplaceSample] the buffer that the
    step owns, with the saved length; the sample is the result, after
    [PrecomputeLoops], with the flags that undo sets. *)
Theorem sample_Undo_replace_hands_back_buffer doc u smp undo :
  let old := OldSample undo in
  let cur := GetSample (sndFile doc) smp in
  0 <= budget -> 1 <= MAX_UNDO_LEVEL -> reachable budget u ->
  (0 < smp < MAX_SAMPLES)%nat ->
  last (steps (UndoBuffer u) smp) = Some undo ->
  changeType undo = sundo_replace ->
  (HasSampleData cur = true -> wf_sample cur /\ is_Some (pData cur)) ->
  exists u' doc',
    Undo budget doc u smp = Some (true, u', doc')
    /\ GetSample (sndFile doc') smp
       = with_uFlags
           (PrecomputeLoops
              (ReplaceSample (with_pData old (pData cur)) (samplePtr undo) (nLength old)))
           (FlagsAfterUndo (flag_test (uFlags cur) SMP_KEEPONDISK) sundo_replace
              (uFlags (PrecomputeLoops
                         (ReplaceSample (with_pData old (pData cur)) (samplePtr undo)
                            (nLength old)))))
    /\ m_szNames (sndFile doc') smp = oldName undo
    /\ (length (steps (UndoBuffer u') smp) < length (steps (UndoBuffer u) smp))%nat.
Proof.
  intros old cur Hb Hmax Hreach Hsmp Hlast Hkind Hcur. subst old.
  assert (RestoreData cur undo
          = Some (Restored (pData cur) (samplePtr undo) true
                    {| OldSample := OldSample undo; oldName := oldName undo;
                       description := description undo; changeType := changeType undo;
                       changeStart := changeStart undo; changeEnd := changeEnd undo;
                       samplePtr := None |})) as Hrestore.
  { unfold RestoreData. by rewrite Hkind. }
  assert (savesData (redoType (changeType undo))
          && HasSampleData (GetSample (sndFile doc) smp) = true ->
          wf_sample (GetSample (sndFile doc) smp)
          /\ is_Some (pData (GetSample (sndFile doc) smp))
          /\ 0 <= (forced doc smp (redoType (changeType undo))
                     (changeStart undo) (changeEnd undo)).1
          /\ (forced doc smp (redoType (changeType undo))
                (changeStart undo) (changeEnd undo)).2
             <= nLength (GetSample (sndFile doc) smp)) as Hdata.
  { rewrite Hkind. simpl. intros Hhas. destruct (Hcur Hhas) as [Hwf Hsome].
    split; [done|]. split; [done|]. unfold forced. simpl. lia. }
  destruct (Undo_runs doc u smp undo _ _ _ _ Hb Hmax Hreach Hsmp Hlast Hdata Hrestore)
    as (u' & doc' & Hrun & Hsample & Hname & Hshorter).
  exists u', doc'. split; [done|]. split; [|done].
  rewrite Hsample, RestoreHeader_flags. simpl. by rewrite Hkind.
Qed.

(** *** [RemoveLastUndoStep] *)

Lemma delete_last_step {A} (l : list A) : delete (length l - 1)%nat l = removelast l.
Proof.
  destruct l as [|x l _] using rev_ind; [done|].
  rewrite length_app, removelast_last. simpl.
  replace (length l + 1 - 1)%nat with (length l) by lia.
  rewrite delete_middle. by rewrite app_nil_r.
Qed.

(** Property X16: sample [RemoveLastUndoStep].  It removes the most recent
    undo step of the sample and nothing else: the redo buffer and the undo
    steps of the other samples are as they were, and so is everything when the
    sample has no undo step or its number is out of range. *)
Theorem sample_RemoveLastUndoStep_removes u smp :
  RedoBuffer (RemoveLastUndoStep u smp) = RedoBuffer u
  /\ (forall k, (0 < k)%nat ->
        steps (UndoBuffer (RemoveLastUndoStep u smp)) k
        = if decide (k = smp /\ (smp < MAX_SAMPLES)%nat)
          then removelast (steps (UndoBuffer u) k)
          else steps (UndoBuffer u) k)
  /\ (steps (UndoBuffer u) smp = [] -> RemoveLastUndoStep u smp = u).
Proof.
  unfold RemoveLastUndoStep.
  destruct (SampleBufferExists (UndoBuffer u) smp) eqn:Hex; simpl.
  - case_bool_decide as Hempty.
    + split; [done|]. split; [|done].
      intros k Hk. case_decide as Hd; [|done]. destruct Hd as [-> _]. by rewrite Hempty.
    + simpl. split; [done|]. split; [|done].
      apply SampleBufferExists_true in Hex as Hex'.
      intros k Hk. unfold DeleteStep. rewrite Hex. simpl.
      destruct (Nat.leb_spec (length (steps (UndoBuffer u) smp))
                  (length (steps (UndoBuffer u) smp) - 1)) as [Hle|_].
      { destruct (steps (UndoBuffer u) smp); [done|simpl in Hle; lia]. }
      rewrite steps_alter by lia.
      destruct (decide (k = smp)) as [->|Hne].
      * rewrite !decide_True by lia. apply delete_last_step.
      * rewrite !decide_False by (tauto || lia). done.
  - split; [done|]. split; [|done].
    intros k Hk. case_decide as Hd; [|done]. destruct Hd as [-> Hlt].
    unfold steps. rewrite lookup_ge_None_2; [done|].
    destruct (decide (smp <= length (UndoBuffer u))%nat); [|lia].
    assert (SampleBufferExists (UndoBuffer u) smp = true); [|congruence].
    apply SampleBufferExists_true. lia.
Qed.

(** *** The names of the next undo and redo items *)

(** Property X17: the names that the sample engine reports after an undo
    point.  After a successful [PrepareUndo] the sample can be undone and
    cannot be redone, the name of its next undo item is the description
    passed in, and the name of its next redo item is empty. *)
Theorem sample_PrepareUndo_sets_names doc u smp kind descr s e u' doc' :
  PrepareUndo budget doc u smp kind descr s e = Some (true, u', doc') ->
  CanUndo u' smp = true /\ CanRedo u' smp = false
  /\ GetUndoName u' smp = Some descr /\ GetRedoName u' smp = Some EmptyString.
Proof.
  unfold PrepareUndo. intros Hprep.
  destruct (PrepareBuffer budget doc u SelUndo smp kind descr s e)
    as [[[ok u1] doc1]|] eqn:Hbuf; [|done].
  simpl in Hprep. destruct ok; [|done]. injection Hprep as <- <-.
  destruct (PrepareBuffer_pushed _ _ _ _ _ _ _ _ _ _ Hbuf)
    as (u3 & ptr & Hslot & Hmax & -> & _).
  simpl in Hslot. cbn [set_buf get_buf UndoBuffer RedoBuffer].
  set (pushed := alter _ _ (UndoBuffer u3)).
  assert (SampleBufferExists pushed smp = true) as Hex.
  { apply SampleBufferExists_true. unfold pushed. rewrite length_alter. lia. }
  assert (last (steps pushed smp) = Some (captured doc smp kind descr s e ptr)) as Hlast
    by (apply last_steps_push; lia).
  assert (steps (ClearUndo (RedoBuffer u3) smp) smp = []) as Hredo.
  { rewrite ClearUndo_spec.
    destruct (SampleBufferExists (RedoBuffer u3) smp) eqn:Hr.
    - apply SampleBufferExists_true in Hr. rewrite steps_alter by lia.
      by rewrite decide_True.
    - unfold steps. rewrite lookup_ge_None_2; [done|].
      destruct (decide (smp <= length (RedoBuffer u3))%nat); [|lia].
      assert (SampleBufferExists (RedoBuffer u3) smp = true); [|congruence].
      apply SampleBufferExists_true. lia. }
  assert (bool_decide (steps pushed smp = []) = false) as Hfull.
  { apply bool_decide_eq_false_2. intros Hempty. by rewrite Hempty in Hlast. }
  unfold CanUndo, CanRedo, GetUndoName, GetRedoName, CanUndo, CanRedo.
  cbn [UndoBuffer RedoBuffer]. rewrite Hex, Hfull, Hredo, Hlast.
  rewrite bool_decide_eq_true_2 by done. by rewrite andb_false_r.
Qed.

End WithExternals.
End SampleHistory.

(** ** Instrument undo: captures, restores and round trips *)

Module InstrumentHistory.
Import CInstrumentUndo InstrumentProofs InstrumentSpec.

Section WithExternals.
Context `{Ext : Externals}.

Lemma delete_last {A} (l : list A) : delete (length l - 1)%nat l = removelast l.
Proof.
  destruct l as [|x l _] using rev_ind; [done|].
  rewrite length_app, removelast_last. simpl.
  replace (length l + 1 - 1)%nat with (length l) by lia.
  rewrite delete_middle. by rewrite app_nil_r.
Qed.

Lemma last_is_Some {A} (l : list A) x : last l = Some x -> l = removelast l ++ [x].
Proof.
  destruct l as [|y l _] using rev_ind; [done|].
  rewrite last_snoc, removelast_last. by intros [= ->].
Qed.

Lemma slot_alter (f : list UndoInfo -> list UndoInfo) (b : undobuf_t) (ins k : nat) :
  (0 < ins <= length b)%nat -> (0 < k)%nat ->
  steps (alter f (ins - 1)%nat b) k = if decide (k = ins) then f (steps b k) else steps b k.
Proof.
  intros Hins Hk. unfold steps. rewrite list_lookup_alter.
  case_decide as Hi; case_decide as Hki; try lia; [|done].
  subst k. destruct (lookup_lt_is_Some_2 b (ins - 1)%nat) as [x Hx]; [lia|].
  by rewrite Hx.
Qed.

Lemma slot_grown (b : undobuf_t) (ins k : nat) :
  steps (if (length b <? ins)%nat then resize ins [] b else b) k = steps b k.
Proof.
  destruct (Nat.ltb_spec (length b) ins) as [Hlt|Hge]; [|done].
  unfold steps. destruct (decide (k - 1 < length b)%nat) as [Hk|Hk].
  - by rewrite lookup_resize by lia.
  - rewrite (lookup_ge_None_2 b) by lia.
    destruct (decide (k - 1 < ins)%nat).
    + by rewrite lookup_resize_new by lia.
    + by rewrite lookup_ge_None_2 by (rewrite length_resize; lia).
Qed.

Lemma length_grown (b : undobuf_t) (ins : nat) :
  length (if (length b <? ins)%nat then resize ins [] b else b) = Nat.max (length b) ins.
Proof.
  destruct (Nat.ltb_spec (length b) ins); [rewrite length_resize|]; lia.
Qed.

Lemma slot_exists (b : undobuf_t) (ins : nat) x :
  (0 < ins < MAX_INSTRUMENTS)%nat -> last (steps b ins) = Some x ->
  InstrumentBufferExists b ins = true.
Proof.
  intros Hins Hlast. apply InstrumentBufferExists_true.
  repeat split; try lia.
  destruct (decide (ins <= length b)%nat) as [|Hn]; [done|].
  unfold steps in Hlast. by rewrite lookup_ge_None_2 in Hlast by lia.
Qed.

Lemma length_DeleteStep (b : undobuf_t) (ins step : nat) :
  length (DeleteStep b ins step) = length b.
Proof. unfold DeleteStep. destruct (_ || _); [done|apply length_alter]. Qed.

(** *** The cap on the number of steps *)

Lemma EvictOldest_suffix (l : list UndoInfo) :
  exists n, EvictOldest l = drop n l
    /\ (Z.of_nat (length l) < MAX_UNDO_LEVEL -> n = 0%nat).
Proof.
  unfold EvictOldest. destruct (Z.leb_spec MAX_UNDO_LEVEL (Z.of_nat (length l))).
  - eexists. split; [done|lia].
  - exists 0%nat. by rewrite drop_0.
Qed.

Lemma EvictOldest_room (l : list UndoInfo) x :
  1 <= MAX_UNDO_LEVEL -> Z.of_nat (length (EvictOldest l ++ [x])) <= MAX_UNDO_LEVEL.
Proof.
  intros Hmax. rewrite length_app. simpl. unfold EvictOldest.
  destruct (Z.leb_spec MAX_UNDO_LEVEL (Z.of_nat (length l))); [rewrite length_drop|]; lia.
Qed.

(** *** [PrepareBuffer] and [PrepareUndo] *)

Lemma PrepareBuffer_pushes doc (b : undobuf_t) ins descr env live :
  (0 < ins < MAX_INSTRUMENTS)%nat -> Instruments (sndFile doc) ins = Some live ->
  exists b' undo,
    PrepareBuffer doc b ins descr env = (true, b', UpdateAllViews doc)
    /\ description undo = descr /\ editedEnvelope undo = env
    /\ instr undo = (if is_envelope env
                     then SetEnvelope ModInstrument_default env (GetEnvelope live env)
                     else live)
    /\ (ins <= length b')%nat /\ (length b <= length b')%nat
    /\ forall k, (0 < k)%nat ->
         steps b' k = if decide (k = ins) then EvictOldest (steps b k) ++ [undo]
                      else steps b k.
Proof.
  intros Hins Hlive. unfold PrepareBuffer. rewrite Hlive.
  destruct (Nat.eqb_spec ins 0); [lia|].
  destruct (Nat.leb_spec MAX_INSTRUMENTS ins); [lia|]. simpl.
  eexists _, {| instr := if is_envelope env
                         then SetEnvelope ModInstrument_default env (GetEnvelope live env)
                         else live;
                description := descr; editedEnvelope := env |}.
  split; [reflexivity|].
  split; [done|]. split; [done|]. split; [done|].
  rewrite length_alter, length_grown. split; [lia|]. split; [lia|].
  intros k Hk. rewrite slot_alter by (try rewrite length_grown; lia).
  rewrite slot_grown. done.
Qed.

Lemma PrepareBuffer_fails doc (b : undobuf_t) ins descr env :
  ins = 0%nat \/ (MAX_INSTRUMENTS <= ins)%nat \/ Instruments (sndFile doc) ins = None ->
  PrepareBuffer doc b ins descr env = (false, b, doc).
Proof.
  intros H. unfold PrepareBuffer.
  destruct (Nat.eqb_spec ins 0); [done|].
  destruct (Nat.leb_spec MAX_INSTRUMENTS ins); [done|]. simpl.
  destruct H as [?|[?| ->]]; [lia|lia|done].
Qed.

Lemma slot_ClearUndo (b : undobuf_t) (ins k : nat) :
  (0 < k)%nat ->
  steps (ClearUndo b ins) k
  = if decide (k = ins /\ (ins < MAX_INSTRUMENTS)%nat) then [] else steps b k.
Proof.
  intros Hk. unfold ClearUndo.
  destruct (InstrumentBufferExists b ins) eqn:He; simpl.
  - apply InstrumentBufferExists_true in He. rewrite slot_alter by lia.
    repeat case_decide; try done; lia.
  - case_decide as Hd; [|done]. destruct Hd as [-> Hlt].
    unfold steps. rewrite lookup_ge_None_2; [done|].
    destruct (decide (ins <= length b)%nat); [|lia].
    assert (InstrumentBufferExists b ins = true); [|congruence].
    apply InstrumentBufferExists_true. lia.
Qed.

(** Property X18: what instrument [PrepareUndo] does.  It fails exactly when
    the instrument number is 0 or not below [MAX_INSTRUMENTS] or the document
    has no such instrument.  On success the step on top of the undo steps of
    the instrument has the description and the kind passed in and holds the
    instrument of the document (the whole instrument, or the envelope asked
    for); the redo steps of the instrument are gone; the steps of every other
    instrument are as they were; the document is unchanged but for one
    notification of the views. *)
Theorem instrument_PrepareUndo_captures doc u ins descr env ok u' doc' :
  PrepareUndo doc u ins descr env = (ok, u', doc') ->
  (ok = false <->
     ins = 0%nat \/ (MAX_INSTRUMENTS <= ins)%nat \/ Instruments (sndFile doc) ins = None)
  /\ (ok = true ->
      exists live undo,
        Instruments (sndFile doc) ins = Some live
        /\ last (steps (UndoBuffer u') ins) = Some undo
        /\ description undo = descr /\ editedEnvelope undo = env
        /\ (is_envelope env = false -> instr undo = live)
        /\ (is_envelope env = true ->
            GetEnvelope (instr undo) env = GetEnvelope live env)
        /\ steps (RedoBuffer u') ins = []
        /\ (forall k, (0 < k)%nat -> k <> ins ->
              steps (UndoBuffer u') k = steps (UndoBuffer u) k
              /\ steps (RedoBuffer u') k = steps (RedoBuffer u) k)
        /\ sndFile doc' = sndFile doc /\ updates doc' = S (updates doc)).
Proof.
  unfold PrepareUndo. intros Hrun.
  destruct (decide (ins = 0%nat \/ (MAX_INSTRUMENTS <= ins)%nat
                    \/ Instruments (sndFile doc) ins = None)) as [Hbad|Hgood].
  - rewrite (PrepareBuffer_fails _ _ _ _ _ Hbad) in Hrun. injection Hrun as <- <- <-.
    split; [done|]. done.
  - destruct (Instruments (sndFile doc) ins) as [live|] eqn:Hlive; [|tauto].
    assert (0 < ins < MAX_INSTRUMENTS)%nat as Hins by lia.
    destruct (PrepareBuffer_pushes doc (UndoBuffer u) ins descr env live Hins Hlive)
      as (b' & undo & Hpush & Hd & He & Hi & Hlen & _ & Hsteps).
    rewrite Hpush in Hrun. injection Hrun as <- <- <-.
    split; [split; [done|tauto]|]. intros _.
    exists live, undo. split; [done|]. simpl.
    split. { rewrite Hsteps by lia. rewrite decide_True by done. apply last_snoc. }
    split; [done|]. split; [done|].
    split. { intros Hw. by rewrite Hi, Hw. }
    split. { intros Hw. rewrite Hi, Hw. destruct env; done. }
    split. { rewrite slot_ClearUndo by lia. by rewrite decide_True by lia. }
    split; [|done].
    intros k Hk Hne. rewrite Hsteps by done. rewrite decide_False by done.
    split; [done|]. rewrite slot_ClearUndo by done. by rewrite decide_False by tauto.
Qed.

(** *** [Undo] and [Redo] between two buffers *)

(** The instrument that [Undo] leaves: the saved instrument, or the live one
    with the saved envelope. *)
Lemma UndoFromTo_runs doc (fromBuf toBuf : undobuf_t) ins live undo :
  (0 < ins < MAX_INSTRUMENTS)%nat ->
  Instruments (sndFile doc) ins = Some live ->
  last (steps fromBuf ins) = Some undo ->
  exists fromBuf' toBuf' doc' mirror,
    UndoFromTo doc fromBuf toBuf ins = Some (true, fromBuf', toBuf', doc')
    /\ length fromBuf' = length fromBuf
    /\ (ins <= length toBuf')%nat
    /\ (forall k, (0 < k)%nat ->
          steps fromBuf' k = if decide (k = ins) then removelast (steps fromBuf k)
                             else steps fromBuf k)
    /\ (forall k, (0 < k)%nat ->
          steps toBuf' k = if decide (k = ins) then EvictOldest (steps toBuf k) ++ [mirror]
                           else steps toBuf k)
    /\ description mirror = description undo
    /\ editedEnvelope mirror = editedEnvelope undo
    /\ instr mirror = (if is_envelope (editedEnvelope undo)
                       then SetEnvelope ModInstrument_default (editedEnvelope undo)
                              (GetEnvelope live (editedEnvelope undo))
                       else live)
    /\ (forall k, Instruments (sndFile doc') k
                  = if (k =? ins)%nat
                    then Some (if is_envelope (editedEnvelope undo)
                               then SetEnvelope live (editedEnvelope undo)
                                      (GetEnvelope (instr undo) (editedEnvelope undo))
                               else instr undo)
                    else Instruments (sndFile doc) k)
    /\ updates doc' = S (S (updates doc)) /\ modified doc' = true.
Proof.
  intros Hins Hlive Hlast. unfold UndoFromTo.
  rewrite InstrumentAt_in_range by lia. cbn [mbind option_bind]. rewrite Hlive.
  pose proof (slot_exists _ _ _ Hins Hlast) as Hex. rewrite Hex, Hlast. simpl.
  destruct (PrepareBuffer_pushes doc toBuf ins (description undo) (editedEnvelope undo)
              live Hins Hlive)
    as (b' & mirror & Hpush & Hd & He & Hi & Hlen & _ & Hsteps).
  rewrite Hpush.
  eexists _, b', _, mirror. split; [reflexivity|].
  apply InstrumentBufferExists_true in Hex as Hex'.
  split; [apply length_DeleteStep|].
  split; [done|].
  split.
  { intros k Hk. unfold DeleteStep. rewrite Hex. simpl.
    assert (steps fromBuf ins <> []) as Hne by (intros E; by rewrite E in Hlast).
    destruct (Nat.leb_spec (length (steps fromBuf ins)) (length (steps fromBuf ins) - 1))
      as [Hle|_].
    { destruct (steps fromBuf ins); [done|simpl in Hle; lia]. }
    rewrite slot_alter by lia. case_decide; [|done]. subst k. apply delete_last. }
  split; [done|]. split; [done|]. split; [done|]. split; [done|].
  split; [|done]. intros k. simpl. done.
Qed.

Lemma Undo_past_array doc u ins :
  (MAX_INSTRUMENTS <= ins)%nat -> Undo doc u ins = None /\ Redo doc u ins = None.
Proof.
  intros Hins. unfold Undo, Redo, UndoFromTo.
  by rewrite (proj2 (InstrumentAt_None _ _) Hins).
Qed.

(** Property X19: when instrument [Undo] fails.  [Undo] reads past the end
    of the array of instruments, before any check, exactly when the
    instrument number is [MAX_INSTRUMENTS] or above.  Otherwise it returns,
    and it returns [false] exactly when the document has no such instrument,
    the undo buffer has no slot for it (which includes the number 0) or the
    slot holds no step; then nothing is changed. *)
Theorem instrument_Undo_fails_exactly_when doc u ins :
  (Undo doc u ins = None <-> (MAX_INSTRUMENTS <= ins)%nat)
  /\ forall ok u' doc',
       Undo doc u ins = Some (ok, u', doc') ->
       (ok = false <->
          Instruments (sndFile doc) ins = None
          \/ InstrumentBufferExists (UndoBuffer u) ins = false
          \/ steps (UndoBuffer u) ins = [])
       /\ (ok = false -> u' = u /\ doc' = doc).
Proof.
  split.
  { split; [|by intros Hins; apply Undo_past_array].
    intros Hnone. destruct (Nat.lt_ge_cases ins MAX_INSTRUMENTS) as [Hlt|]; [|done].
    exfalso. revert Hnone. unfold Undo, UndoFromTo.
    rewrite InstrumentAt_in_range by done. cbn [mbind option_bind].
    destruct (Instruments (sndFile doc) ins) as [live|]; [|done].
    destruct (InstrumentBufferExists (UndoBuffer u) ins); simpl; [|done].
    destruct (last (steps (UndoBuffer u) ins)); [|done].
    by destruct (PrepareBuffer _ _ _ _ _) as [[? ?] ?]. }
  intros ok u' doc' Hrun. split; [|intros ->; by apply Undo_false in Hrun].
  revert Hrun. unfold Undo, UndoFromTo.
  destruct (InstrumentAt _ _) as [instrument|] eqn:Hat; [|done].
  cbn [mbind option_bind].
  assert (instrument = Instruments (sndFile doc) ins) as ->.
  { destruct (Nat.lt_ge_cases ins MAX_INSTRUMENTS) as [Hlt|Hge].
    - rewrite InstrumentAt_in_range in Hat by done. by injection Hat.
    - apply (InstrumentAt_None (sndFile doc)) in Hge. congruence. }
  destruct (Instruments (sndFile doc) ins) as [live|]; [|intros [= <- _ _]; tauto].
  destruct (InstrumentBufferExists (UndoBuffer u) ins); simpl;
    [|intros [= <- _ _]; tauto].
  destruct (steps (UndoBuffer u) ins) as [|x l] eqn:Hs; [intros [= <- _ _]; tauto|].
  destruct (last (x :: l)) eqn:Hl.
  - destruct (PrepareBuffer _ _ _ _ _) as [[? ?] ?]. intros [= <- _ _].
    split; [done|]. intros [?|[?|?]]; done.
  - exfalso. clear -Hl. revert x Hl. induction l as [|y l IH]; intros x; [done|].
    simpl. apply IH.
Qed.

(** Property X20: what instrument [Undo] does when the instrument has an undo
    step.  The instrument of the document becomes the saved one (for a step
    about one envelope: the live instrument with the saved envelope); the
    other instruments are untouched; the step leaves the undo steps; a step of
    the same kind and description that holds the state before the call is on
    top of the redo steps; the steps of the other instruments are untouched;
    the document is marked modified and the views are notified twice. *)
Theorem instrument_Undo_restores doc u ins live undo :
  (0 < ins < MAX_INSTRUMENTS)%nat ->
  Instruments (sndFile doc) ins = Some live ->
  last (steps (UndoBuffer u) ins) = Some undo ->
  exists u' doc' restored mirror,
    Undo doc u ins = Some (true, u', doc')
    /\ Instruments (sndFile doc') ins = Some restored
    /\ SameSubject (editedEnvelope undo) restored (instr undo)
    /\ SameRest (editedEnvelope undo) restored live
    /\ (forall k, k <> ins -> Instruments (sndFile doc') k = Instruments (sndFile doc) k)
    /\ steps (UndoBuffer u') ins = removelast (steps (UndoBuffer u) ins)
    /\ last (steps (RedoBuffer u') ins) = Some mirror
    /\ description mirror = description undo
    /\ editedEnvelope mirror = editedEnvelope undo
    /\ SameSubject (editedEnvelope undo) (instr mirror) live
    /\ (forall k, (0 < k)%nat -> k <> ins ->
          steps (UndoBuffer u') k = steps (UndoBuffer u) k
          /\ steps (RedoBuffer u') k = steps (RedoBuffer u) k)
    /\ modified doc' = true /\ updates doc' = S (S (updates doc)).
Proof.
  intros Hins Hlive Hlast.
  destruct (UndoFromTo_runs doc (UndoBuffer u) (RedoBuffer u) ins live undo Hins Hlive Hlast)
    as (f' & t' & doc' & mirror & Hrun & _ & _ & Hf & Ht & Hd & He & Hi & Hdoc & Hupd & Hmod).
  unfold Undo. rewrite Hrun. cbn [mbind option_bind].
  eexists _, doc', _, mirror. split; [reflexivity|]. simpl.
  split. { rewrite Hdoc. by rewrite Nat.eqb_refl. }
  split. { unfold SameSubject. destruct (editedEnvelope undo); done. }
  split. { unfold SameRest. destruct (editedEnvelope undo); simpl; [| |
             |done]; (split; [done|]); by intros []. }
  split. { intros k Hk. rewrite Hdoc. by destruct (Nat.eqb_spec k ins). }
  split. { rewrite Hf by lia. by rewrite decide_True. }
  split. { rewrite Ht by lia. rewrite decide_True by done. apply last_snoc. }
  split; [done|]. split; [done|].
  split. { unfold SameSubject. rewrite Hi. destruct (editedEnvelope undo); done. }
  split; [|done].
  intros k Hk Hne. rewrite Hf, Ht by done. by rewrite !decide_False by done.
Qed.

(** *** Undo followed by redo *)

Lemma SetEnvelope_back live e other :
  is_envelope e = true ->
  SetEnvelope (SetEnvelope live e other) e (GetEnvelope live e) = live.
Proof. destruct live, e; done. Qed.

(** Property X21: instrument [Undo] followed by [Redo].  When the instrument
    has an undo step, [Undo] and then [Redo] both succeed and leave every
    instrument of the document as it was before the two calls.  The redo steps
    are as they were if the instrument had fewer than [MAX_UNDO_LEVEL] of
    them; the undo steps of the instrument end again with a step of the same
    kind and description that holds what the undone step held, on the same
    earlier steps if there were no more than [MAX_UNDO_LEVEL]. *)
Theorem instrument_Undo_then_Redo doc u ins live undo :
  (0 < ins < MAX_INSTRUMENTS)%nat ->
  Instruments (sndFile doc) ins = Some live ->
  last (steps (UndoBuffer u) ins) = Some undo ->
  exists u1 doc1 u2 doc2 undo',
    Undo doc u ins = Some (true, u1, doc1)
    /\ Redo doc1 u1 ins = Some (true, u2, doc2)
    /\ (forall k, Instruments (sndFile doc2) k = Instruments (sndFile doc) k)
    /\ (Z.of_nat (length (steps (RedoBuffer u) ins)) < MAX_UNDO_LEVEL ->
        forall k, (0 < k)%nat -> steps (RedoBuffer u2) k = steps (RedoBuffer u) k)
    /\ (forall k, (0 < k)%nat -> k <> ins ->
          steps (UndoBuffer u2) k = steps (UndoBuffer u) k)
    /\ last (steps (UndoBuffer u2) ins) = Some undo'
    /\ description undo' = description undo
    /\ editedEnvelope undo' = editedEnvelope undo
    /\ SameSubject (editedEnvelope undo) (instr undo') (instr undo)
    /\ (Z.of_nat (length (steps (UndoBuffer u) ins)) <= MAX_UNDO_LEVEL ->
        removelast (steps (UndoBuffer u2) ins) = removelast (steps (UndoBuffer u) ins)).
Proof.
  intros Hins Hlive Hlast.
  destruct (UndoFromTo_runs doc (UndoBuffer u) (RedoBuffer u) ins live undo Hins Hlive Hlast)
    as (f1 & t1 & doc1 & mirror & Hrun1 & _ & _ & Hf1 & Ht1 & Hd1 & He1 & Hi1 & Hdoc1 & _).
  assert (Instruments (sndFile doc1) ins
          = Some (if is_envelope (editedEnvelope undo)
                  then SetEnvelope live (editedEnvelope undo)
                         (GetEnvelope (instr undo) (editedEnvelope undo))
                  else instr undo)) as Hlive1.
  { rewrite Hdoc1. by rewrite Nat.eqb_refl. }
  assert (last (steps t1 ins) = Some mirror) as Hlast1.
  { rewrite Ht1 by lia. rewrite decide_True by done. apply last_snoc. }
  destruct (UndoFromTo_runs doc1 t1 f1 ins _ mirror Hins Hlive1 Hlast1)
    as (f2 & t2 & doc2 & undo' & Hrun2 & _ & _ & Hf2 & Ht2 & Hd2 & He2 & Hi2 & Hdoc2 & _).
  exists {| UndoBuffer := f1; RedoBuffer := t1 |}, doc1,
         {| UndoBuffer := t2; RedoBuffer := f2 |}, doc2, undo'.
  unfold Undo, Redo. rewrite Hrun1. simpl. rewrite Hrun2. simpl.
  split; [done|]. split; [done|].
  split.
  { intros k. rewrite Hdoc2, Hdoc1. destruct (Nat.eqb_spec k ins) as [->|]; [|done].
    rewrite Hlive. f_equal. rewrite He1, Hi1.
    destruct (is_envelope (editedEnvelope undo)) eqn:Henv; [|done].
    replace (GetEnvelope (SetEnvelope ModInstrument_default (editedEnvelope undo)
                            (GetEnvelope live (editedEnvelope undo)))
               (editedEnvelope undo))
      with (GetEnvelope live (editedEnvelope undo))
      by (by destruct (editedEnvelope undo)).
    by apply SetEnvelope_back. }
  split.
  { intros Hroom k Hk. rewrite Hf2, Ht1 by done.
    case_decide as Hki; [|done]. subst k. rewrite removelast_last.
    destruct (EvictOldest_suffix (steps (RedoBuffer u) ins)) as (n & -> & Hn).
    by rewrite (Hn Hroom), drop_0. }
  split.
  { intros k Hk Hne. rewrite Ht2, Hf1 by done. by rewrite !decide_False by done. }
  split. { rewrite Ht2 by lia. rewrite decide_True by done. apply last_snoc. }
  split; [congruence|]. split; [congruence|].
  split.
  { unfold SameSubject. rewrite Hi2, He1.
    destruct (editedEnvelope undo); simpl; try done; by destruct live. }
  intros Hroom. rewrite Ht2, Hf1 by lia. rewrite !decide_True by done.
  rewrite removelast_last.
  destruct (EvictOldest_suffix (removelast (steps (UndoBuffer u) ins))) as (n & -> & Hn).
  rewrite Hn; [by rewrite drop_0|].
  rewrite (last_is_Some _ _ Hlast) in Hroom. rewrite length_app in Hroom. simpl in Hroom. lia.
Qed.

(** Property X22: an instrument undo point and its [Undo].  After a successful
    [PrepareUndo], whatever has become of the instrument since (as long as the
    document still has it), [Undo] brings back what the step is about as it
    was when the undo point was taken, and leaves the rest of the live
    instrument alone; the undo steps are those from before the undo point if
    there were fewer than [MAX_UNDO_LEVEL]. *)
Theorem instrument_Undo_after_PrepareUndo doc0 u ins descr env u1 doc1 doc edited :
  PrepareUndo doc0 u ins descr env = (true, u1, doc1) ->
  Instruments (sndFile doc) ins = Some edited ->
  exists u2 doc2 captured restored,
    Instruments (sndFile doc0) ins = Some captured
    /\ Undo doc u1 ins = Some (true, u2, doc2)
    /\ Instruments (sndFile doc2) ins = Some restored
    /\ SameSubject env restored captured
    /\ SameRest env restored edited
    /\ (Z.of_nat (length (steps (UndoBuffer u) ins)) < MAX_UNDO_LEVEL ->
        forall k, (0 < k)%nat -> steps (UndoBuffer u2) k = steps (UndoBuffer u) k).
Proof.
  unfold PrepareUndo. intros Hprep Hedited.
  destruct (decide (ins = 0%nat \/ (MAX_INSTRUMENTS <= ins)%nat
                    \/ Instruments (sndFile doc0) ins = None)) as [Hbad|Hgood].
  { by rewrite (PrepareBuffer_fails _ _ _ _ _ Hbad) in Hprep. }
  destruct (Instruments (sndFile doc0) ins) as [captured|] eqn:Hcap; [|tauto].
  assert (0 < ins < MAX_INSTRUMENTS)%nat as Hins by lia.
  destruct (PrepareBuffer_pushes doc0 (UndoBuffer u) ins descr env captured Hins Hcap)
    as (b' & undo & Hpush & Hd & He & Hi & _ & _ & Hsteps).
  rewrite Hpush in Hprep. injection Hprep as <- <-.
  assert (last (steps b' ins) = Some undo) as Hlast.
  { rewrite Hsteps by lia. rewrite decide_True by done. apply last_snoc. }
  destruct (UndoFromTo_runs doc b' (ClearUndo (RedoBuffer u) ins) ins edited undo
              Hins Hedited Hlast)
    as (f2 & t2 & doc2 & mirror & Hrun & _ & _ & Hf & _ & _ & _ & _ & Hdoc & _).
  unfold Undo. simpl. rewrite Hrun.
  eexists _, doc2, captured, _. split; [done|]. split; [reflexivity|]. simpl.
  split. { rewrite Hdoc. by rewrite Nat.eqb_refl. }
  rewrite He, Hi.
  split. { unfold SameSubject. destruct env; simpl; try done. }
  split. { unfold SameRest. destruct env; simpl; [| | |done]; (split; [done|]); by intros []. }
  intros Hroom k Hk. rewrite Hf, Hsteps by done.
  case_decide as Hki; [|done]. subst k. rewrite removelast_last.
  destruct (EvictOldest_suffix (steps (UndoBuffer u) ins)) as (n & -> & Hn).
  by rewrite (Hn Hroom), drop_0.
Qed.

(** *** [RemoveLastUndoStep] *)

Lemma RemoveLastUndoStep_slots u ins :
  RedoBuffer (RemoveLastUndoStep u ins) = RedoBuffer u
  /\ length (UndoBuffer (RemoveLastUndoStep u ins)) = length (UndoBuffer u)
  /\ (forall k, (0 < k)%nat ->
        steps (UndoBuffer (RemoveLastUndoStep u ins)) k
        = if decide (k = ins /\ (ins < MAX_INSTRUMENTS)%nat)
          then removelast (steps (UndoBuffer u) k)
          else steps (UndoBuffer u) k).
Proof.
  unfold RemoveLastUndoStep, CanUndo.
  destruct (InstrumentBufferExists (UndoBuffer u) ins) eqn:Hex; simpl.
  - case_bool_decide as Hempty.
    + split; [done|]. split; [done|].
      intros k Hk. case_decide as Hd; [|done]. destruct Hd as [-> _]. by rewrite Hempty.
    + simpl. split; [done|]. split; [apply length_DeleteStep|].
      apply InstrumentBufferExists_true in Hex as Hex'.
      intros k Hk. unfold DeleteStep. rewrite Hex. simpl.
      destruct (Nat.leb_spec (length (steps (UndoBuffer u) ins))
                  (length (steps (UndoBuffer u) ins) - 1)) as [Hle|_].
      { destruct (steps (UndoBuffer u) ins); [done|simpl in Hle; lia]. }
      rewrite slot_alter by lia.
      case_decide as Hki; case_decide as Hd; try lia; [|done].
      subst k. apply delete_last.
  - split; [done|]. split; [done|].
    intros k Hk. case_decide as Hd; [|done]. destruct Hd as [-> Hlt].
    unfold steps. rewrite lookup_ge_None_2; [done|].
    destruct (decide (ins <= length (UndoBuffer u))%nat); [|lia].
    assert (InstrumentBufferExists (UndoBuffer u) ins = true); [|congruence].
    apply InstrumentBufferExists_true. lia.
Qed.

(** Property X23: instrument [RemoveLastUndoStep].  It removes the most recent
    undo step of the instrument and nothing else: the redo buffer and the undo
    steps of the other instruments are as they were, and so is everything when
    the instrument has no undo step or its number is out of range.  Taken
    right after a successful [PrepareUndo] on a history below the cap, it
    gives back the undo steps from before the undo point. *)
Theorem instrument_RemoveLastUndoStep_removes u ins :
  RedoBuffer (RemoveLastUndoStep u ins) = RedoBuffer u
  /\ (forall k, (0 < k)%nat ->
        steps (UndoBuffer (RemoveLastUndoStep u ins)) k
        = if decide (k = ins /\ (ins < MAX_INSTRUMENTS)%nat)
          then removelast (steps (UndoBuffer u) k)
          else steps (UndoBuffer u) k)
  /\ (steps (UndoBuffer u) ins = [] -> RemoveLastUndoStep u ins = u)
  /\ (forall doc u0 descr env doc',
        PrepareUndo doc u0 ins descr env = (true, u, doc') ->
        Z.of_nat (length (steps (UndoBuffer u0) ins)) < MAX_UNDO_LEVEL ->
        forall k, (0 < k)%nat ->
          steps (UndoBuffer (RemoveLastUndoStep u ins)) k = steps (UndoBuffer u0) k).
Proof.
  destruct (RemoveLastUndoStep_slots u ins) as (Hredo & _ & Hslots).
  split; [done|]. split; [done|]. split.
  { intros Hempty. unfold RemoveLastUndoStep, CanUndo. rewrite Hempty.
    rewrite bool_decide_eq_true_2 by done. by rewrite andb_false_r. }
  intros doc u0 descr env doc'. unfold PrepareUndo. intros Hprep Hroom k Hk.
  destruct (decide (ins = 0%nat \/ (MAX_INSTRUMENTS <= ins)%nat
                    \/ Instruments (sndFile doc) ins = None)) as [Hbad|Hgood].
  { by rewrite (PrepareBuffer_fails _ _ _ _ _ Hbad) in Hprep. }
  destruct (Instruments (sndFile doc) ins) as [live|] eqn:Hlive; [|tauto].
  assert (0 < ins < MAX_INSTRUMENTS)%nat as Hins by lia.
  destruct (PrepareBuffer_pushes doc (UndoBuffer u0) ins descr env live Hins Hlive)
    as (b' & undo & Hpush & _ & _ & _ & _ & _ & Hsteps).
  rewrite Hpush in Hprep. injection Hprep as <- <-.
  rewrite Hslots by done. simpl. rewrite Hsteps by done.
  destruct (decide (k = ins)) as [->|Hne].
  - rewrite decide_True by lia. rewrite removelast_last.
    destruct (EvictOldest_suffix (steps (UndoBuffer u0) ins)) as (n & -> & Hn).
    by rewrite (Hn Hroom), drop_0.
  - by rewrite decide_False by tauto.
Qed.

Lemma RearrangeSamples_length doc (b : undobuf_t) ins newIndex b' k :
  RearrangeSamples doc b ins newIndex = Some b' ->
  length (steps b' k) = length (steps b k).
Proof.
  unfold RearrangeSamples. destruct (InstrumentAt _ _) as [instrument|]; [|done].
  cbn [mbind option_bind].
  destruct instrument; [|by intros [= <-]].
  destruct (_ || _); intros [= <-]; [done|].
  unfold steps. rewrite list_lookup_alter. case_decide as Hi; [|done].
  rewrite Hi. destruct (b !! (k - 1)%nat); simpl; [|done]. by rewrite length_fmap.
Qed.

(** *** The cap holds after any sequence of operations *)

Lemma steps_zero (b : undobuf_t) : steps b 0 = steps b 1.
Proof. done. Qed.

Lemma Bounded_from_positive (u : CInstrumentUndo) :
  (forall k, (0 < k)%nat ->
     Z.of_nat (length (steps (UndoBuffer u) k)) <= MAX_UNDO_LEVEL
     /\ Z.of_nat (length (steps (RedoBuffer u) k)) <= MAX_UNDO_LEVEL) ->
  Bounded u.
Proof.
  intros H k. destruct k as [|k]; [rewrite !steps_zero|]; apply H; lia.
Qed.

Lemma length_removelast_le {A} (l : list A) : (length (removelast l) <= length l)%nat.
Proof.
  destruct l as [|x l _] using rev_ind; [done|].
  rewrite removelast_last, length_app. lia.
Qed.

Lemma UndoFromTo_Bounded doc (fromBuf toBuf : undobuf_t) ins ok f t doc' :
  1 <= MAX_UNDO_LEVEL ->
  UndoFromTo doc fromBuf toBuf ins = Some (ok, f, t, doc') ->
  (forall k, Z.of_nat (length (steps fromBuf k)) <= MAX_UNDO_LEVEL) ->
  (forall k, Z.of_nat (length (steps toBuf k)) <= MAX_UNDO_LEVEL) ->
  forall k, (0 < k)%nat ->
    Z.of_nat (length (steps f k)) <= MAX_UNDO_LEVEL
    /\ Z.of_nat (length (steps t k)) <= MAX_UNDO_LEVEL.
Proof.
  intros Hmax Hrun Hfrom Hto k Hk.
  destruct ok; [|apply UndoFromTo_false in Hrun as (-> & -> & _); done].
  assert (exists live undo,
            (0 < ins < MAX_INSTRUMENTS)%nat
            /\ Instruments (sndFile doc) ins = Some live
            /\ last (steps fromBuf ins) = Some undo) as (live & undo & Hins & Hlive & Hlast).
  { revert Hrun. unfold UndoFromTo.
    destruct (InstrumentAt _ _) as [instrument|] eqn:Hat; [|done].
    cbn [mbind option_bind].
    destruct (Nat.lt_ge_cases ins MAX_INSTRUMENTS) as [Hlt|Hge];
      [|apply (InstrumentAt_None (sndFile doc)) in Hge; congruence].
    rewrite InstrumentAt_in_range in Hat by done. injection Hat as <-.
    destruct (Instruments (sndFile doc) ins) as [live|]; [|done].
    destruct (InstrumentBufferExists fromBuf ins) eqn:Hex; simpl; [|done].
    destruct (last (steps fromBuf ins)) as [undo|]; [|done].
    apply InstrumentBufferExists_true in Hex. intros _. exists live, undo.
    split; [lia|done]. }
  destruct (UndoFromTo_runs doc fromBuf toBuf ins live undo Hins Hlive Hlast)
    as (f' & t' & doc2 & mirror & Hrun' & _ & _ & Hf & Ht & _).
  rewrite Hrun in Hrun'. injection Hrun' as <- <- <-.
  rewrite Hf, Ht by done. case_decide.
  - split; [|by apply EvictOldest_room].
    pose proof (length_removelast_le (steps fromBuf k)). specialize (Hfrom k). lia.
  - done.
Qed.

(** Property X24: the cap on instrument histories.  When [MAX_UNDO_LEVEL] is
    at least 1, after any sequence of [PrepareUndo], [Undo], [Redo],
    [RemoveLastUndoStep] and [RearrangeSamples] from the empty history, no
    instrument has more than [MAX_UNDO_LEVEL] undo steps or more than
    [MAX_UNDO_LEVEL] redo steps. *)
Theorem instrument_history_bounded u :
  1 <= MAX_UNDO_LEVEL -> reachable u -> Bounded u.
Proof.
  intros Hmax Hreach. induction Hreach as [|u u' _ IH Hstep].
  - intros k. unfold steps, initial. cbn [UndoBuffer RedoBuffer].
    rewrite lookup_nil. simpl. lia.
  - destruct Hstep as [doc u ins descr env ok u' doc' Hrun
                      |doc u ins ok u' doc' Hrun
                      |doc u ins ok u' doc' Hrun
                      |u ins
                      |doc u ins newIndex undoBuf redoBuf Hundo Hredo];
      apply Bounded_from_positive; intros k Hk.
    + revert Hrun. unfold PrepareUndo.
      destruct (decide (ins = 0%nat \/ (MAX_INSTRUMENTS <= ins)%nat
                        \/ Instruments (sndFile doc) ins = None)) as [Hbad|Hgood].
      { rewrite (PrepareBuffer_fails _ _ _ _ _ Hbad). intros [= <- <- <-]. apply IH. }
      destruct (Instruments (sndFile doc) ins) as [live|] eqn:Hlive; [|tauto].
      assert (0 < ins < MAX_INSTRUMENTS)%nat as Hins by lia.
      destruct (PrepareBuffer_pushes doc (UndoBuffer u) ins descr env live Hins Hlive)
        as (b' & undo & Hpush & _ & _ & _ & _ & _ & Hsteps).
      rewrite Hpush. intros [= <- <- <-]. simpl.
      rewrite Hsteps, slot_ClearUndo by done.
      split.
      * case_decide; [by apply EvictOldest_room|apply IH].
      * case_decide; [simpl; lia|apply IH].
    + unfold Undo in Hrun.
      destruct (UndoFromTo doc (UndoBuffer u) (RedoBuffer u) ins)
        as [[[[ok1 f] t] doc1]|] eqn:Hrun1; [|done].
      injection Hrun as <- <- <-. simpl.
      eapply UndoFromTo_Bounded; eauto; intros j; apply IH.
    + unfold Redo in Hrun.
      destruct (UndoFromTo doc (RedoBuffer u) (UndoBuffer u) ins)
        as [[[[ok1 f] t] doc1]|] eqn:Hrun1; [|done].
      injection Hrun as <- <- <-. simpl.
      apply and_comm. eapply UndoFromTo_Bounded; eauto; intros j; apply IH.
    + destruct (RemoveLastUndoStep_slots u ins) as (-> & _ & Hs).
      rewrite Hs by done. clear Hs. destruct (IH k) as [IHu IHr]. split; [|done].
      case_decide; [|done].
      pose proof (length_removelast_le (steps (UndoBuffer u) k)). lia.
    + simpl. rewrite (RearrangeSamples_length _ _ _ _ _ k Hundo).
      rewrite (RearrangeSamples_length _ _ _ _ _ k Hredo). apply IH.
Qed.

(** *** The names of the next undo and redo items *)

Lemma name_of_slot (b : undobuf_t) ins :
  (0 < ins < MAX_INSTRUMENTS)%nat ->
  (if negb (InstrumentBufferExists b ins && negb (bool_decide (steps b ins = [])))
   then Some EmptyString
   else description <$> last (steps b ins))
  = Some (match last (steps b ins) with
          | Some undo => description undo
          | None => EmptyString
          end).
Proof.
  intros Hins. destruct (last (steps b ins)) as [undo|] eqn:Hlast.
  - rewrite (slot_exists b ins undo Hins Hlast).
    rewrite bool_decide_eq_false_2; [done|].
    intros Hempty. by rewrite Hempty in Hlast.
  - apply last_None in Hlast. rewrite Hlast.
    rewrite bool_decide_eq_true_2 by done. by rewrite andb_false_r.
Qed.

(** Property X25: the names that the instrument engine reports.  After a
    successful [PrepareUndo] the instrument can be undone and cannot be
    redone, the name of its next undo item is the description passed in and
    the name of its next redo item is empty.  After the [Undo] that follows
    (on a document that still has the instrument) the name of the next redo
    item is that description, and the name of the next undo item is the one
    from before the undo point if the instrument had fewer than
    [MAX_UNDO_LEVEL] undo steps. *)
Theorem instrument_names_follow_history doc0 u ins descr env u1 doc1 doc live :
  PrepareUndo doc0 u ins descr env = (true, u1, doc1) ->
  Instruments (sndFile doc) ins = Some live ->
  CanUndo u1 ins = true /\ CanRedo u1 ins = false
  /\ GetUndoName u1 ins = Some descr /\ GetRedoName u1 ins = Some EmptyString
  /\ exists u2 doc2,
       Undo doc u1 ins = Some (true, u2, doc2)
       /\ CanRedo u2 ins = true
       /\ GetRedoName u2 ins = Some descr
       /\ (Z.of_nat (length (steps (UndoBuffer u) ins)) < MAX_UNDO_LEVEL ->
           GetUndoName u2 ins = GetUndoName u ins).
Proof.
  unfold PrepareUndo. intros Hprep Hlive.
  destruct (decide (ins = 0%nat \/ (MAX_INSTRUMENTS <= ins)%nat
                    \/ Instruments (sndFile doc0) ins = None)) as [Hbad|Hgood].
  { by rewrite (PrepareBuffer_fails _ _ _ _ _ Hbad) in Hprep. }
  destruct (Instruments (sndFile doc0) ins) as [captured|] eqn:Hcap; [|tauto].
  assert (0 < ins < MAX_INSTRUMENTS)%nat as Hins by lia.
  destruct (PrepareBuffer_pushes doc0 (UndoBuffer u) ins descr env captured Hins Hcap)
    as (b' & undo & Hpush & Hd & _ & _ & _ & _ & Hsteps).
  rewrite Hpush in Hprep. injection Hprep as <- <-.
  assert (steps b' ins = EvictOldest (steps (UndoBuffer u) ins) ++ [undo]) as Htop.
  { rewrite Hsteps by lia. by rewrite decide_True. }
  assert (last (steps b' ins) = Some undo) as Hlast by (rewrite Htop; apply last_snoc).
  assert (steps (ClearUndo (RedoBuffer u) ins) ins = []) as Hredo.
  { rewrite slot_ClearUndo by lia. by rewrite decide_True by (split; [done|lia]). }
  split.
  { unfold CanUndo. cbn [UndoBuffer]. rewrite (slot_exists b' ins undo Hins Hlast), Htop.
    rewrite bool_decide_eq_false_2; [done|]. by destruct (EvictOldest _). }
  split.
  { unfold CanRedo. cbn [RedoBuffer]. rewrite Hredo.
    rewrite bool_decide_eq_true_2 by done. apply andb_false_r. }
  split.
  { unfold GetUndoName, CanUndo. cbn [UndoBuffer].
    rewrite name_of_slot by done. by rewrite Hlast, Hd. }
  split.
  { unfold GetRedoName, CanRedo. cbn [RedoBuffer].
    rewrite name_of_slot by done. by rewrite Hredo. }
  destruct (UndoFromTo_runs doc b' (ClearUndo (RedoBuffer u) ins) ins live undo
              Hins Hlive Hlast)
    as (f2 & t2 & doc2 & mirror & Hrun & _ & _ & Hf & Ht & Hdm & _).
  unfold Undo. cbn [UndoBuffer RedoBuffer]. rewrite Hrun.
  eexists _, doc2. split; [reflexivity|].
  assert (last (steps t2 ins) = Some mirror) as Hmirror.
  { rewrite Ht by lia. rewrite decide_True by done. apply last_snoc. }
  split.
  { unfold CanRedo. cbn [RedoBuffer]. rewrite (slot_exists t2 ins mirror Hins Hmirror).
    rewrite bool_decide_eq_false_2; [done|].
    intros Hempty. by rewrite Hempty in Hmirror. }
  split.
  { unfold GetRedoName, CanRedo. cbn [RedoBuffer].
    rewrite name_of_slot by done. by rewrite Hmirror, Hdm, Hd. }
  intros Hroom. unfold GetUndoName, CanUndo. cbn [UndoBuffer].
  rewrite !name_of_slot by done. rewrite Hf by lia. rewrite decide_True by done.
  rewrite Htop, removelast_last.
  destruct (EvictOldest_suffix (steps (UndoBuffer u) ins)) as (n & -> & Hn).
  by rewrite (Hn Hroom), drop_0.
Qed.

End WithExternals.
End InstrumentHistory.

(** * Failures across the engines *)

Section Failures.
Context `{PE : CPatternUndo.Externals} `{SE : CSampleUndo.Externals}
        `{IE : CInstrumentUndo.Externals}.

(** Claim C2 (amended).  An operation that returns failure from its opening
    checks leaves the undo buffer and the redo buffer of every entity as they
    were: pattern [PrepareUndo] for an invalid pattern, an origin outside the
    pattern or an empty rectangle; pattern [Undo] and [Redo] on an empty
    source buffer; sample [PrepareUndo] for an invalid sample or a budget of
    zero; sample [Undo] and [Redo] for a sample without a step; and every
    failure of instrument [PrepareUndo], [Undo] and [Redo].  A pattern
    [PrepareUndo] that fails later leaves them as they were when the undo
    buffer is below [MAX_UNDO_LEVEL].  A sample [Undo] or [Redo] that fails
    once it has taken the step has removed it from the source buffer (of
    which at most some oldest steps are gone besides) and has left the sound
    file as it was; the capture on the other buffer, whose result is not
    looked at, has either pushed a step of the mirror kind with the same
    description, or has been refused and has pushed nothing. *)
Theorem failed_opening_checks_change_no_buffer :
  (forall doc u pat fc fr nc nr descr link store,
      CPatternUndo.ClampRect (CPatternUndo.sndFile doc) pat fc fr nc nr = None ->
      CPatternUndo.PrepareUndo doc u pat fc fr nc nr descr link store
      = Some (false, u, doc))
  /\ (forall doc u pat fc fr nc nr descr link store u' doc',
      CPatternUndo.PrepareUndo doc u pat fc fr nc nr descr link store
      = Some (false, u', doc') ->
      Z.of_nat (length (CPatternUndo.UndoBuffer u)) < CPatternUndo.MAX_UNDO_LEVEL ->
      u' = u)
  /\ (forall doc u,
      CPatternUndo.UndoBuffer u = [] ->
      CPatternUndo.Undo doc u = Some (CPatternUndo.PATTERNINDEX_INVALID, u, doc))
  /\ (forall doc u,
      CPatternUndo.RedoBuffer u = [] ->
      CPatternUndo.Redo doc u = Some (CPatternUndo.PATTERNINDEX_INVALID, u, doc))
  /\ (forall budget doc u smp kind descr s e,
      smp = 0%nat \/ (CSampleUndo.MAX_SAMPLES <= smp)%nat \/ budget = 0 ->
      CSampleUndo.PrepareUndo budget doc u smp kind descr s e = Some (false, u, doc))
  /\ (forall budget doc u smp,
      CSampleUndo.SampleBufferExists (CSampleUndo.UndoBuffer u) smp = false
      \/ CSampleUndo.steps (CSampleUndo.UndoBuffer u) smp = [] ->
      CSampleUndo.Undo budget doc u smp = Some (false, u, doc))
  /\ (forall budget doc u smp,
      CSampleUndo.SampleBufferExists (CSampleUndo.RedoBuffer u) smp = false
      \/ CSampleUndo.steps (CSampleUndo.RedoBuffer u) smp = [] ->
      CSampleUndo.Redo budget doc u smp = Some (false, u, doc))
  /\ (forall doc u ins descr env u' doc',
      CInstrumentUndo.PrepareUndo doc u ins descr env = (false, u', doc') -> u' = u)
  /\ (forall doc u ins u' doc',
      CInstrumentUndo.Undo doc u ins = Some (false, u', doc') -> u' = u)
  /\ (forall doc u ins u' doc',
      CInstrumentUndo.Redo doc u ins = Some (false, u', doc') -> u' = u)
  /\ (forall budget doc u from smp undo u' doc',
      CSampleUndo.SampleBufferExists (CSampleUndo.get_buf from u) smp = true ->
      last (CSampleUndo.steps (CSampleUndo.get_buf from u) smp) = Some undo ->
      CSampleUndo.UndoFromTo budget doc u from smp = Some (false, u', doc') ->
      (exists n,
          CSampleUndo.steps (CSampleUndo.get_buf from u') smp
          = drop n (removelast (CSampleUndo.steps (CSampleUndo.get_buf from u) smp)))
      /\ CSampleUndo.sndFile doc' = CSampleUndo.sndFile doc
      /\ exists pushed doc2,
           CSampleUndo.PrepareBuffer budget doc
             (CSampleUndo.set_buf from u
                (alter (fun st => removelast st) (smp - 1)%nat
                   (CSampleUndo.get_buf from u)))
             (CSampleUndo.other from) smp
             (CSampleUndo.redoType (CSampleUndo.changeType undo))
             (CSampleUndo.description undo)
             (CSampleUndo.changeStart undo) (CSampleUndo.changeEnd undo)
           = Some (pushed, u', doc2)
           /\ (pushed = true ->
               exists mirror,
                 last (CSampleUndo.steps
                         (CSampleUndo.get_buf (CSampleUndo.other from) u') smp)
                 = Some mirror
                 /\ CSampleUndo.changeType mirror
                    = CSampleUndo.redoType (CSampleUndo.changeType undo)
                 /\ CSampleUndo.description mirror = CSampleUndo.description undo)
           /\ (pushed = false ->
               exists n,
                 CSampleUndo.steps
                   (CSampleUndo.get_buf (CSampleUndo.other from) u') smp
                 = drop n (CSampleUndo.steps
                             (CSampleUndo.get_buf (CSampleUndo.other from) u) smp))).
Proof.
  split; [|split; [|split; [|split; [|split; [|split; [|split; [|split; [|split;
    [|split]]]]]]]]].
  - intros. by apply PatternProofs.PrepareUndo_rejected.
  - intros * H Hcap. by destruct (PatternProofs.PrepareUndo_failed_below_cap _ _ _ _ _ _ _ _ _ _ _ _ H Hcap).
  - intros. by apply PatternProofs.Undo_nothing.
  - intros. by apply PatternProofs.Redo_nothing.
  - intros. by apply SampleProofs.PrepareUndo_refused.
  - intros. by apply (SampleProofs.UndoFromTo_nothing budget doc u CSampleUndo.SelUndo).
  - intros. by apply (SampleProofs.UndoFromTo_nothing budget doc u CSampleUndo.SelRedo).
  - intros * H. by destruct (InstrumentProofs.PrepareUndo_false _ _ _ _ _ _ _ H).
  - intros * H. by destruct (InstrumentProofs.Undo_false _ _ _ _ _ H).
  - intros * H. by destruct (InstrumentProofs.Redo_false _ _ _ _ _ H).
  - intros budget doc u from smp undo u' doc' Hex Hlast Hrun.
    by apply (SampleHistory.UndoFromTo_failed_midway budget doc u from smp undo u' doc').
Qed.

End Failures.

(** * The engines at work *)

Module Examples.

(** *** Inputs on which a claim of the specification fails *)

(** Claim C1 fails: after one [PrepareUndo] of a two-byte sample under a
    budget of one byte, the buffers hold two bytes. *)
Lemma one_prepare_exceeds_budget :
  SampleSpec.reachable (Ext := Host.sample true) 1 SampleScenario.after_replace
  /\ 1 < SampleSpec.heldBytes (Ext := Host.sample true) SampleScenario.after_replace.
Proof.
  split.
  - eapply SampleSpec.reachable_step; [apply SampleSpec.reachable_initial|].
    apply (SampleSpec.step_PrepareUndo (Ext := Host.sample true) 1
             (SampleScenario.document SampleScenario.two_bytes) SampleSpec.initial
             1%nat CSampleUndo.sundo_replace EmptyString 0 0 true
             SampleScenario.after_replace
             (CSampleUndo.UpdateAllViews
                (SampleScenario.document SampleScenario.two_bytes))).
    vm_compute. reflexivity.
  - vm_compute. reflexivity.
Qed.

(** Claim C2 fails: [Undo] of an update step whose end lies beyond the
    emptied sample returns failure, yet the step has left the undo buffer and
    a new step has entered the redo buffer. *)
Lemma failed_sample_undo_moves_steps :
  (fun r => r.1) <$>
    CSampleUndo.Undo (Ext := Host.sample true) 1000
      (SampleScenario.document SampleScenario.no_sample)
      (SampleScenario.one_step SampleScenario.update_step) 1%nat
  = Some (false, SampleScenario.after_failed_undo)
  /\ SampleScenario.after_failed_undo
     <> SampleScenario.one_step SampleScenario.update_step.
Proof. split; [vm_compute; reflexivity|discriminate]. Qed.

(** When the capture on the redo buffer is refused as well (the step starts
    beyond the end of the emptied sample), the step has left the undo buffer
    and nothing has entered the redo buffer. *)
Lemma failed_sample_undo_pushes_nothing :
  (fun r => r.1) <$>
    CSampleUndo.Undo (Ext := Host.sample true) 1000
      (SampleScenario.document SampleScenario.no_sample)
      (SampleScenario.one_step
         (SampleScenario.step_of SampleScenario.two_bytes CSampleUndo.sundo_update 1 2
            (Some [Byte.x02]))) 1%nat
  = Some (false, {| CSampleUndo.UndoBuffer := [[]]; CSampleUndo.RedoBuffer := [[]] |}).
Proof. vm_compute. reflexivity. Qed.




(** Claim C9 fails: while the document has no instrument 1, the stored
    snapshot of the whole instrument keeps its table. *)
Lemma absent_instrument_is_not_remapped :
  CInstrumentUndo.RearrangeSamples (Ext := Host.instrument)
    (InstrumentScenario.document None) InstrumentScenario.two_snapshots 1%nat
    [0; 2]%nat
  = Some InstrumentScenario.two_snapshots
  /\ CInstrumentUndo.steps InstrumentScenario.two_snapshots 1%nat
     <> CInstrumentUndo.RearrangeStep (Ext := Host.instrument) [0; 2]%nat
          <$> CInstrumentUndo.steps InstrumentScenario.two_snapshots 1%nat.
Proof. split; [vm_compute; reflexivity|vm_compute; discriminate]. Qed.


(** *** Inputs on which the theorems apply *)

Lemma cells_fit_host (mem : bool) :
  1024 * 127 < 2 ^ CPatternUndo.ROWINDEX_bits (Externals := Host.pattern mem).
Proof. reflexivity. Qed.

Lemma document_wf (mem : bool) (rows nch : nat) :
  (rows <= 1024)%nat -> (nch <= 127)%nat ->
  PatternSpec.wf_sndFile (Ext := Host.pattern mem) 1024 127
    (CPatternUndo.sndFile (PatternScenario.document mem rows nch)).
Proof.
  intros Hrows Hnch. apply PatternProofs.wf_sndFile_intro; simpl.
  - unfold CPatternUndo.GetNumChannels. simpl. lia.
  - unfold CPatternUndo.GetNumChannels. simpl. lia.
  - constructor; [|constructor]. split; simpl; [lia|].
    unfold CPatternUndo.GetNumChannels. simpl.
    rewrite length_fmap, length_seq. lia.
Qed.

Lemma captured_step_wf (link : bool) :
  PatternSpec.wf_undo (Ext := Host.pattern true) 1024 127
    (PatternScenario.captured_step link).
Proof. destruct link; unfold PatternSpec.wf_undo; simpl; repeat split; lia. Qed.

Lemma after_replace_reachable :
  SampleSpec.reachable (Ext := Host.sample true) 1 SampleScenario.after_replace.
Proof.
  eapply SampleSpec.reachable_step; [apply SampleSpec.reachable_initial|].
  apply (SampleSpec.step_PrepareUndo (Ext := Host.sample true) 1
           (SampleScenario.document SampleScenario.two_bytes) SampleSpec.initial
           1%nat CSampleUndo.sundo_replace EmptyString 0 0 true
           SampleScenario.after_replace
           (CSampleUndo.UpdateAllViews
              (SampleScenario.document SampleScenario.two_bytes))).
  vm_compute. reflexivity.
Qed.

(** Claim C1 (amended), on the history that holds two bytes under a budget of
    one. *)
Lemma budget_bound_witness :
  0 <= CSampleUndo.SmpLength_bits (Externals := Host.sample true)
  /\ 0 <= 1
  /\ SampleSpec.reachable (Ext := Host.sample true) 1 SampleScenario.after_replace
  /\ SampleSpec.heldBytes (Ext := Host.sample true) SampleScenario.after_replace
     <= 1 + SampleSpec.largest (Ext := Host.sample true)
              (SampleSpec.allSteps SampleScenario.after_replace).
Proof.
  assert (0 <= CSampleUndo.SmpLength_bits (Externals := Host.sample true)) as Hbits
    by (simpl; lia).
  assert (0 <= 1) as Hbudget by lia.
  split; [exact Hbits|]. split; [exact Hbudget|].
  split; [exact after_replace_reachable|].
  exact (proj1 (SampleProofs.budget_exceeded_by_one_buffer_at_most
                  (Ext := Host.sample true) 1 Hbits SampleScenario.after_replace
                  Hbudget after_replace_reachable)).
Defined.


(** Claim C5, on the undo of a deletion: the state is captured as an
    insertion. *)
Lemma mirror_kind_witness :
  exists mirror,
    last (CSampleUndo.steps
            (CSampleUndo.RedoBuffer
               (SampleScenario.result_state
                  (CSampleUndo.Undo (Ext := Host.sample true) 1000
                     (SampleScenario.document SampleScenario.one_byte)
                     (SampleScenario.one_step SampleScenario.delete_step) 1%nat)
                  SampleSpec.initial)) 1%nat) = Some mirror
    /\ CSampleUndo.changeType mirror = CSampleUndo.sundo_insert.
Proof.
  destruct (SampleProofs.mirror_captured_under_opposite_kind (Ext := Host.sample true)
              1000 (SampleScenario.document SampleScenario.one_byte)
              (SampleScenario.one_step SampleScenario.delete_step)
              CSampleUndo.SelUndo 1%nat SampleScenario.delete_step true
              (SampleScenario.result_state
                 (CSampleUndo.Undo (Ext := Host.sample true) 1000
                    (SampleScenario.document SampleScenario.one_byte)
                    (SampleScenario.one_step SampleScenario.delete_step) 1%nat)
                 SampleSpec.initial)
              (SampleScenario.result_doc
                 (CSampleUndo.Undo (Ext := Host.sample true) 1000
                    (SampleScenario.document SampleScenario.one_byte)
                    (SampleScenario.one_step SampleScenario.delete_step) 1%nat)
                 (SampleScenario.document SampleScenario.one_byte)))
    as [_ (pushed & u2 & doc2 & HP & _ & Hmirror)].
  - vm_compute. reflexivity.
  - reflexivity.
  - vm_compute. reflexivity.
  - assert (pushed = true) as -> by (vm_compute in HP; congruence).
    exact (Hmirror eq_refl).
Defined.


(** Claim C7, on the step captured for 4 rows and 8 channels at row 2,
    channel 1, undone when the pattern has three rows. *)
Lemma restore_witness :
  exists undo nPattern toBuf' doc' link',
    last [PatternScenario.captured_step false] = Some undo
    /\ CPatternUndo.UndoStep (Ext := Host.pattern true)
         (PatternScenario.document true 3 10) ([] ++ [undo]) [] false undo
       = Some (nPattern, [], toBuf', doc', link')
    /\ PatternSpec.wf_sndFile (Ext := Host.pattern true) 1024 127
         (CPatternUndo.sndFile doc').
Proof.
  destruct (PatternProofs.restore_stays_inside_pattern (Ext := Host.pattern true)
              1024 127 (cells_fit_host true)
              (PatternScenario.document true 16 10) [] 0 1 2 8 4 EmptyString false
              [PatternScenario.captured_step false]
              (CPatternUndo.UpdateAllViews (PatternScenario.document true 16 10))
              (PatternScenario.document true 3 10) [] [] false)
    as (undo & Hlast & _ & _ & _ & nPattern & toBuf' & doc' & link' & Hstep & Hwf & _).
  - apply document_wf; lia.
  - lia.
  - lia.
  - vm_compute. reflexivity.
  - apply document_wf; lia.
  - by exists undo, nPattern, toBuf', doc', link'.
Defined.

(** Claim C8, on the undo of a step whose saved header has the keep-on-disk
    flag while the live sample has not. *)
Lemma keep_on_disk_witness :
  CSampleUndo.flag_test (CSampleUndo.uFlags (CSampleUndo.OldSample SampleScenario.kept_step))
    (CSampleUndo.SMP_KEEPONDISK (Externals := Host.sample true)) = true
  /\ CSampleUndo.flag_test
       (CSampleUndo.uFlags
          (CSampleUndo.GetSample
             (CSampleUndo.sndFile
                (SampleScenario.result_doc
                   (CSampleUndo.Undo (Ext := Host.sample true) 1000
                      (SampleScenario.document SampleScenario.two_bytes)
                      (SampleScenario.one_step SampleScenario.kept_step) 1%nat)
                   (SampleScenario.document SampleScenario.no_sample))) 1%nat))
       (CSampleUndo.SMP_KEEPONDISK (Externals := Host.sample true)) = false.
Proof.
  split; [reflexivity|].
  apply (SampleProofs.keep_on_disk_never_reenabled (Ext := Host.sample true) 1000
           (SampleScenario.document SampleScenario.two_bytes)
           (SampleScenario.one_step SampleScenario.kept_step)
           CSampleUndo.SelUndo 1%nat true
           (SampleScenario.result_state
              (CSampleUndo.Undo (Ext := Host.sample true) 1000
                 (SampleScenario.document SampleScenario.two_bytes)
                 (SampleScenario.one_step SampleScenario.kept_step) 1%nat)
              SampleSpec.initial)).
  - vm_compute. reflexivity.
  - reflexivity.
Defined.

(** Claim C9 (amended), on a document that has instrument 1. *)
Lemma remap_witness :
  exists b',
    CInstrumentUndo.RearrangeSamples (Ext := Host.instrument)
      (InstrumentScenario.document
         (Some (InstrumentScenario.instrument_with [5; 1]%nat)))
      InstrumentScenario.two_snapshots 1%nat [0; 2]%nat
    = Some b'
    /\ CInstrumentUndo.Keyboard ∘ CInstrumentUndo.instr <$> CInstrumentUndo.steps b' 1%nat
       = [[0; 2]; [5; 1]]%nat
    /\ length (CInstrumentUndo.steps b' 1%nat)
       = length (CInstrumentUndo.steps InstrumentScenario.two_snapshots 1%nat).
Proof.
  destruct (InstrumentProofs.RearrangeSamples_remaps_whole_snapshots
              (Ext := Host.instrument)
              (InstrumentScenario.document
                 (Some (InstrumentScenario.instrument_with [5; 1]%nat)))
              InstrumentScenario.two_snapshots 1%nat [0; 2]%nat
              (InstrumentScenario.instrument_with [5; 1]%nat))
    as (b' & Hrun & Hlen & _).
  - reflexivity.
  - simpl. lia.
  - exists b'. split; [exact Hrun|]. split; [|exact Hlen].
    vm_compute in Hrun. injection Hrun as <-. reflexivity.
Defined.

(** Claim C10, on a step of 8 channels from channel 1 in a document that has
    four channels left. *)
Lemma unfitting_step_witness :
  exists toBuf' doc',
    CPatternUndo.Undo (Ext := Host.pattern true) (PatternScenario.document true 16 4)
      {| CPatternUndo.UndoBuffer :=
           [PatternScenario.captured_step false] ++ [PatternScenario.captured_step true];
         CPatternUndo.RedoBuffer := [] |}
    = Some (CPatternUndo.pattern (PatternScenario.captured_step true),
            {| CPatternUndo.UndoBuffer := [PatternScenario.captured_step false];
               CPatternUndo.RedoBuffer := toBuf' |},
            doc')
    /\ CPatternUndo.sndFile doc'
       = CPatternUndo.sndFile (PatternScenario.document true 16 4)
    /\ (CPatternUndo.updates (PatternScenario.document true 16 4)
        < CPatternUndo.updates doc')%nat.
Proof.
  apply (PatternProofs.unfitting_step_is_dropped (Ext := Host.pattern true)
           1024 127 (cells_fit_host true) (PatternScenario.document true 16 4)
           [PatternScenario.captured_step false] []
           (PatternScenario.captured_step true)).
  - apply document_wf; lia.
  - apply captured_step_wf.
  - reflexivity.
  - unfold CPatternUndo.GetNumChannels. simpl. lia.
Defined.


(** Claim C2 (amended), on the host: a sample id of 0 is refused and the
    history is the one passed in. *)
Lemma opening_check_witness :
  CSampleUndo.PrepareUndo (Ext := Host.sample true) 1000
    (SampleScenario.document SampleScenario.two_bytes)
    (SampleScenario.one_step SampleScenario.kept_step)
    0%nat CSampleUndo.sundo_replace EmptyString 0 0
  = Some (false, SampleScenario.one_step SampleScenario.kept_step,
          SampleScenario.document SampleScenario.two_bytes).
Proof.
  destruct (failed_opening_checks_change_no_buffer
              (PE := Host.pattern true) (SE := Host.sample true) (IE := Host.instrument))
    as (_ & _ & _ & _ & Hsample & _).
  apply Hsample. by left.
Defined.


End Examples.

(** ** The further properties on concrete documents and histories *)

(** *** Instruments *)

Module InstrumentExamples.
Import CInstrumentUndo InstrumentScenario InstrumentEdits.

Local Existing Instance InstrumentScenario.host.

(** An undo point for the whole of instrument 1 holds the instrument. *)
Lemma instrument_capture_witness :
  exists undo,
    last (steps (UndoBuffer undo_point.1.2) 1%nat) = Some undo
    /\ instr undo = played.
Proof.
  destruct (InstrumentHistory.instrument_PrepareUndo_captures
              (document (Some played)) InstrumentSpec.initial 1%nat EmptyString
              ENV_MAXTYPES true undo_point.1.2 undo_point.2 eq_refl) as [_ Hok].
  destruct (Hok eq_refl) as (live & undo & Hlive & Hlast & _ & _ & Hwhole & _).
  exists undo. split; [exact Hlast|].
  rewrite (Hwhole eq_refl). by injection Hlive as <-.
Defined.

(** [Undo] on a document that has lost the instrument fails, for the first
    of the three reasons. *)
Lemma instrument_undo_failure_witness :
  Undo (document None) history 1%nat = Some (false, history, document None)
  /\ (Instruments (sndFile (document None)) 1%nat = None
      \/ InstrumentBufferExists (UndoBuffer history) 1%nat = false
      \/ steps (UndoBuffer history) 1%nat = []).
Proof.
  split; [reflexivity|].
  destruct (InstrumentHistory.instrument_Undo_fails_exactly_when
              (document None) history 1%nat) as [_ Hfails].
  by apply (Hfails false history (document None) eq_refl).
Defined.

(** [Undo] of the envelope step of instrument 1. *)
Lemma instrument_restore_witness :
  exists u' doc' restored,
    Undo (document (Some played)) history 1%nat = Some (true, u', doc')
    /\ Instruments (sndFile doc') 1%nat = Some restored
    /\ GetEnvelope restored ENV_VOLUME = GetEnvelope played ENV_VOLUME
    /\ modified doc' = true.
Proof.
  destruct (InstrumentHistory.instrument_Undo_restores
              (document (Some played)) history 1%nat played volume_step)
    as (u' & doc' & restored & mirror & HU & Hins & Hsubject & _ & _ & _ & _ & _ & _
        & _ & _ & Hmod & _).
  - vm_compute. lia.
  - reflexivity.
  - reflexivity.
  - exists u', doc', restored. split; [exact HU|]. split; [exact Hins|].
    split; [exact Hsubject|exact Hmod].
Defined.

(** [Undo] and then [Redo] of the envelope step of instrument 1. *)
Lemma instrument_round_trip_witness :
  exists u1 doc1 u2 doc2,
    Undo (document (Some played)) history 1%nat = Some (true, u1, doc1)
    /\ Redo doc1 u1 1%nat = Some (true, u2, doc2)
    /\ forall k, Instruments (sndFile doc2) k
                 = Instruments (sndFile (document (Some played))) k.
Proof.
  destruct (InstrumentHistory.instrument_Undo_then_Redo
              (document (Some played)) history 1%nat played volume_step)
    as (u1 & doc1 & u2 & doc2 & undo' & HU & HR & Hsame & _).
  - vm_compute. lia.
  - reflexivity.
  - reflexivity.
  - by exists u1, doc1, u2, doc2.
Defined.

(** An undo point for the whole of instrument 1, the instrument replaced,
    then [Undo]. *)
Lemma instrument_undo_point_witness :
  exists u2 doc2,
    Undo (document (Some replaced)) undo_point.1.2 1%nat = Some (true, u2, doc2)
    /\ Instruments (sndFile doc2) 1%nat = Some played.
Proof.
  destruct (InstrumentHistory.instrument_Undo_after_PrepareUndo
              (document (Some played)) InstrumentSpec.initial 1%nat EmptyString
              ENV_MAXTYPES undo_point.1.2 undo_point.2
              (document (Some replaced)) replaced eq_refl eq_refl)
    as (u2 & doc2 & captured & restored & Hcap & HU & Hins & Hsubject & _).
  exists u2, doc2. split; [exact HU|].
  rewrite Hins. injection Hcap as <-. f_equal. exact Hsubject.
Defined.

(** The history after one undo point is within the cap. *)
Lemma instrument_cap_witness :
  InstrumentSpec.Bounded undo_point.1.2.
Proof.
  apply InstrumentHistory.instrument_history_bounded.
  - vm_compute. discriminate.
  - eapply InstrumentSpec.reachable_step; [apply InstrumentSpec.reachable_initial|].
    apply (InstrumentSpec.step_PrepareUndo (document (Some played))
             InstrumentSpec.initial 1%nat EmptyString ENV_MAXTYPES true _ undo_point.2).
    reflexivity.
Defined.

(** The names after an undo point called "Envelope" and after its [Undo]. *)
Lemma instrument_names_witness :
  GetUndoName named_undo_point.1.2 1%nat = Some "Envelope"%string
  /\ exists u2 doc2,
       Undo (document (Some replaced)) named_undo_point.1.2 1%nat
       = Some (true, u2, doc2)
       /\ GetRedoName u2 1%nat = Some "Envelope"%string.
Proof.
  destruct (InstrumentHistory.instrument_names_follow_history
              (document (Some played)) InstrumentSpec.initial 1%nat "Envelope" ENV_VOLUME
              named_undo_point.1.2 named_undo_point.2
              (document (Some replaced)) replaced eq_refl eq_refl)
    as (_ & _ & Hundo & _ & u2 & doc2 & HU & _ & Hredo & _).
  split; [exact Hundo|]. by exists u2, doc2.
Defined.

End InstrumentExamples.


(** *** Patterns *)

Module PatternExamples.
Import CPatternUndo PatternScenario PatternEdits.

(** The document whose pattern has the cell of row 2, channel 1 emptied is
    well formed, and its pattern differs from the numbered one in that cell
    only. *)
Lemma edited_document_wf :
  PatternSpec.wf_sndFile (Ext := Host.pattern true) 1024 127
    (sndFile (edited_document true 16 10 21)).
Proof.
  apply PatternProofs.wf_sndFile_intro; simpl.
  - unfold GetNumChannels. simpl. lia.
  - unfold GetNumChannels. simpl. lia.
  - constructor; [|constructor]. split; simpl; [lia|].
    unfold GetNumChannels. simpl. lia.
Qed.

Lemma edited_inside_rectangle :
  PatternCells.SameOutsideRect (Ext := Host.pattern true) 10 1 2 8 4
    (numbered true 16 10) (edited true 16 10 21).
Proof.
  intros r c Hr Hc Hout. unfold PatternCells.cell, edited, numbered.
  cbn [m_ModCommands]. apply list_lookup_insert_ne. lia.
Qed.

Lemma cell_step_wf (mem : bool) (pat : Z) (info : list Z) :
  0 <= pat -> (length info <= 127)%nat ->
  PatternSpec.wf_undo (Ext := Host.pattern mem) 1024 127 (cell_step mem pat info).
Proof. intros Hpat Hinfo. unfold PatternSpec.wf_undo. simpl. repeat split; lia. Qed.

Lemma one_undo_point :
  PrepareUndo (Ext := Host.pattern true) (document true 16 10) (empty true) 0 1 2 8 4
    EmptyString false false
  = Some (true, {| UndoBuffer := [captured_step false]; RedoBuffer := [] |},
          UpdateAllViews (document true 16 10)).
Proof. vm_compute. reflexivity. Qed.

(** The undo point for 4 rows and 8 channels at row 2, channel 1 of the
    numbered pattern. *)
Lemma pattern_capture_witness :
  exists p undo,
    GetPattern (sndFile (document true 16 10)) 0 = Some p
    /\ PatternCells.HoldsRect (Ext := Host.pattern true) 10 undo p
    /\ numChannels undo = 8 /\ numRows undo = 4.
Proof.
  destruct (PatternHistory.pattern_PrepareUndo_saves_rectangle (Ext := Host.pattern true)
              1024 127 (Examples.cells_fit_host true)
              (document true 16 10) (empty true) 0 1 2 8 4 EmptyString false false
              {| UndoBuffer := [captured_step false]; RedoBuffer := [] |}
              (UpdateAllViews (document true 16 10)))
    as (p & undo & Hp & _ & _ & Hholds & _ & _ & Hnc & Hnr & _).
  - apply Examples.document_wf; lia.
  - lia.
  - lia.
  - exact one_undo_point.
  - exists p, undo. split; [exact Hp|]. split; [exact Hholds|].
    split; [exact Hnc|]. rewrite Hnr. by injection Hp as <-.
Defined.

(** The undo point, an edit inside its rectangle, then [Undo]. *)
Lemma pattern_undo_point_witness :
  exists u2 doc2,
    Undo (Ext := Host.pattern true) (edited_document true 16 10 21)
      {| UndoBuffer := [captured_step false]; RedoBuffer := [] |}
    = Some (0, u2, doc2)
    /\ GetPattern (sndFile doc2) 0 = Some (numbered true 16 10).
Proof.
  destruct (PatternHistory.pattern_Undo_after_PrepareUndo (Ext := Host.pattern true)
              1024 127 (Examples.cells_fit_host true)
              (document true 16 10) (empty true) 0 1 2 8 4 EmptyString
              {| UndoBuffer := [captured_step false]; RedoBuffer := [] |}
              (UpdateAllViews (document true 16 10))
              (numbered true 16 10) (edited_document true 16 10 21) (edited true 16 10 21))
    as (u2 & doc2 & HU & Hp & _).
  - apply Examples.document_wf; lia.
  - lia.
  - lia.
  - exact one_undo_point.
  - reflexivity.
  - exact edited_document_wf.
  - reflexivity.
  - reflexivity.
  - reflexivity.
  - exact edited_inside_rectangle.
  - by exists u2, doc2.
Defined.

(** [Undo] and then [Redo] of the captured step on the numbered pattern. *)
Lemma pattern_round_trip_witness :
  exists u1 doc1 doc2,
    Undo (Ext := Host.pattern true) (document true 16 10)
      {| UndoBuffer := [] ++ [captured_step false]; RedoBuffer := [] |}
    = Some (0, u1, doc1)
    /\ Redo doc1 u1
       = Some (0, {| UndoBuffer := [captured_step false]; RedoBuffer := [] |}, doc2)
    /\ sndFile doc2 = sndFile (document true 16 10).
Proof.
  destruct (PatternHistory.pattern_Undo_then_Redo (Ext := Host.pattern true)
              1024 127 (Examples.cells_fit_host true)
              (document true 16 10) [] [] (captured_step false) (numbered true 16 10))
    as (u1 & doc1 & doc2 & HU & HR & Hsnd & _).
  - apply Examples.document_wf; lia.
  - apply Examples.captured_step_wf.
  - reflexivity.
  - reflexivity.
  - unfold GetNumChannels. simpl. lia.
  - reflexivity.
  - reflexivity.
  - reflexivity.
  - by exists u1, doc1, doc2.
Defined.

(** [Undo] of a step for pattern 5, which the document lacks and which
    cannot be inserted. *)
Lemma pattern_lost_witness :
  Undo (Ext := Host.pattern false) (document false 16 10)
    {| UndoBuffer := [] ++ [cell_step false 5 []]; RedoBuffer := [] |}
  = Some (PATTERNINDEX_INVALID (Externals := Host.pattern false),
          {| UndoBuffer := []; RedoBuffer := [] |}, document false 16 10).
Proof.
  apply (PatternHistory.pattern_Undo_drops_step_without_pattern (Ext := Host.pattern false)
           1024 127 (Examples.cells_fit_host false)
           (document false 16 10) [] [] (cell_step false 5 [])).
  - apply Examples.document_wf; lia.
  - apply cell_step_wf; simpl; lia.
  - reflexivity.
  - unfold GetNumChannels. simpl. lia.
  - reflexivity.
  - reflexivity.
Defined.

(** [Undo] of a step that holds two channel settings, on a document of ten
    channels. *)
Lemma pattern_settings_witness :
  exists pat toBuf' doc',
    Undo (Ext := Host.pattern true) (document true 16 10)
      {| UndoBuffer := [] ++ [cell_step true 0 [7; 9]]; RedoBuffer := [] |}
    = Some (pat, {| UndoBuffer := []; RedoBuffer := toBuf' |}, doc')
    /\ GetNumChannels (sndFile doc') = 2
    /\ take 2 (ChnSettings (sndFile doc')) = [7; 9].
Proof.
  destruct (PatternHistory.pattern_Undo_restores_channel_settings (Ext := Host.pattern true)
              1024 127 (Examples.cells_fit_host true)
              (document true 16 10) [] [] (cell_step true 0 [7; 9]))
    as (pat & toBuf' & doc' & HU & _ & Hnch & Hset).
  - apply Examples.document_wf; lia.
  - apply cell_step_wf; simpl; lia.
  - discriminate.
  - reflexivity.
  - by exists pat, toBuf', doc'.
Defined.

(** [RemoveLastUndoStep] right after the undo point. *)
Lemma pattern_remove_witness :
  RemoveLastUndoStep (Ext := Host.pattern true)
    {| UndoBuffer := [captured_step false]; RedoBuffer := [] |}
  = empty true.
Proof.
  destruct (PatternHistory.pattern_RemoveLastUndoStep_after_PrepareUndo
              (Ext := Host.pattern true)
              (document true 16 10) (empty true) 0 1 2 8 4 EmptyString false false
              {| UndoBuffer := [captured_step false]; RedoBuffer := [] |}
              (UpdateAllViews (document true 16 10)) one_undo_point)
    as [Hremoved _].
  exact Hremoved.
Defined.

(** The history after the undo point is within the cap. *)
Lemma pattern_cap_witness :
  PatternCells.Bounded (Ext := Host.pattern true)
    {| UndoBuffer := [captured_step false]; RedoBuffer := [] |}.
Proof.
  apply PatternHistory.pattern_history_bounded.
  - vm_compute. discriminate.
  - eapply PatternCells.reachable_step; [apply PatternCells.reachable_initial|].
    exact (PatternCells.step_PrepareUndo (Ext := Host.pattern true)
             (document true 16 10) (empty true) 0 1 2 8 4 EmptyString false false true _
             (UpdateAllViews (document true 16 10)) one_undo_point).
Defined.

End PatternExamples.

(** *** Samples *)

Module SampleExamples.
Import CSampleUndo SampleScenario.

Lemma bits_host (mem : bool) : 0 <= SmpLength_bits (Externals := Host.sample mem).
Proof. by vm_compute. Qed.

Lemma sample_of_wf (mem : bool) (data : list Byte.byte) :
  Z.of_nat (length data) < 2 ^ 32 ->
  SampleData.wf_sample (Ext := Host.sample mem) (sample_of 0 data).
Proof.
  intros Hfit. unfold SampleData.wf_sample, sample_of. simpl.
  change (Host.bytes_per_sample _) with 1.
  repeat split; try lia. intros d [= <-]. lia.
Qed.

Lemma update_step_reachable :
  SampleSpec.reachable (Ext := Host.sample true) 1000 (one_step update_step).
Proof.
  eapply SampleSpec.reachable_step; [apply SampleSpec.reachable_initial|].
  apply (SampleSpec.step_PrepareUndo (Ext := Host.sample true) 1000
           (document two_bytes) SampleSpec.initial 1%nat sundo_update EmptyString 0 2
           true (one_step update_step) (UpdateAllViews (document two_bytes))).
  vm_compute. reflexivity.
Qed.

Lemma delete_step_reachable :
  SampleSpec.reachable (Ext := Host.sample true) 1000 (one_step delete_step).
Proof.
  eapply SampleSpec.reachable_step; [apply SampleSpec.reachable_initial|].
  apply (SampleSpec.step_PrepareUndo (Ext := Host.sample true) 1000
           (document two_bytes) SampleSpec.initial 1%nat sundo_delete EmptyString 0 1
           true (one_step delete_step) (UpdateAllViews (document two_bytes))).
  vm_compute. reflexivity.
Qed.

(** Under a budget of one byte, the history that holds two bytes is cut
    down. *)
Lemma restrict_witness :
  exists u',
    RestrictBufferSize (Ext := Host.sample true) 1 after_replace = Some u'
    /\ SampleSpec.heldBytes (Ext := Host.sample true) u' <= 1.
Proof.
  destruct (SampleHistory.RestrictBufferSize_drops_oldest_steps (Ext := Host.sample true)
              1 (bits_host true) after_replace)
    as (u' & Hrun & _ & _ & Hheld & _).
  - lia.
  - unfold SampleSpec.SlotsOk. simpl. lia.
  - unfold SampleSpec.SlotsOk. simpl. lia.
  - by exists u'.
Defined.

(** The history after one undo point is within the cap. *)
Lemma sample_cap_witness :
  SampleData.Bounded (Ext := Host.sample true) after_replace.
Proof.
  apply (SampleHistory.sample_history_bounded (Ext := Host.sample true) 1).
  - by vm_compute.
  - exact Examples.after_replace_reachable.
Defined.

(** [Undo] on sample 1 leaves sample 2 alone. *)
Lemma sample_undo_elsewhere_witness :
  GetSample
    (sndFile (result_doc (Undo (Ext := Host.sample true) 1000 (document two_bytes)
                            (one_step kept_step) 1%nat)
                (document no_sample))) 2%nat
  = GetSample (sndFile (document two_bytes)) 2%nat.
Proof.
  destruct (SampleHistory.sample_Undo_touches_only_its_sample (Ext := Host.sample true)
              1000 (document two_bytes) (one_step kept_step) SelUndo 1%nat true
              (result_state (Undo (Ext := Host.sample true) 1000 (document two_bytes)
                               (one_step kept_step) 1%nat) SampleSpec.initial)
              (result_doc (Undo (Ext := Host.sample true) 1000 (document two_bytes)
                             (one_step kept_step) 1%nat) (document no_sample)))
    as [Hother _].
  - vm_compute. reflexivity.
  - by destruct (Hother 2%nat ltac:(lia)).
Defined.

(** An undo point of kind [sundo_update] for the second byte of the two-byte
    sample owns that byte. *)
Lemma sample_capture_witness :
  exists undo,
    last (steps (UndoBuffer
                   (result_state
                      (PrepareUndo (Ext := Host.sample true) 1000 (document two_bytes)
                         SampleSpec.initial 1%nat sundo_update EmptyString 1 2)
                      SampleSpec.initial)) 1%nat) = Some undo
    /\ samplePtr undo = Some [Byte.x02].
Proof.
  destruct (SampleHistory.sample_PrepareUndo_saves_data (Ext := Host.sample true)
              1000 (bits_host true) (document two_bytes) SampleSpec.initial 1%nat
              sundo_update EmptyString 1 2
              (result_state
                 (PrepareUndo (Ext := Host.sample true) 1000 (document two_bytes)
                    SampleSpec.initial 1%nat sundo_update EmptyString 1 2)
                 SampleSpec.initial)
              (result_doc
                 (PrepareUndo (Ext := Host.sample true) 1000 (document two_bytes)
                    SampleSpec.initial 1%nat sundo_update EmptyString 1 2)
                 (document no_sample))
              [Byte.x01; Byte.x02])
    as (undo & Hlast & Hptr & _).
  - apply sample_of_wf. simpl. lia.
  - reflexivity.
  - reflexivity.
  - reflexivity.
  - simpl. lia.
  - simpl. lia.
  - vm_compute. reflexivity.
  - exists undo. split; [exact Hlast|]. rewrite Hptr. reflexivity.
Defined.

(** [Undo] of the update step when both bytes of the sample have been
    overwritten. *)
Lemma sample_update_witness :
  exists u' doc',
    Undo (Ext := Host.sample true) 1000
      (document (sample_of 0 [Byte.x05; Byte.x06])) (one_step update_step) 1%nat
    = Some (true, u', doc')
    /\ pData (GetSample (sndFile doc') 1%nat) = Some [Byte.x01; Byte.x02].
Proof.
  destruct (SampleHistory.sample_Undo_update_restores_data (Ext := Host.sample true)
              1000 (bits_host true)
              (document (sample_of 0 [Byte.x05; Byte.x06])) (one_step update_step) 1%nat
              update_step [Byte.x01; Byte.x02] [Byte.x05; Byte.x06])
    as (u' & doc' & Hrun & Hsample & _).
  - lia.
  - by vm_compute.
  - exact update_step_reachable.
  - vm_compute. lia.
  - reflexivity.
  - reflexivity.
  - apply sample_of_wf. simpl. lia.
  - reflexivity.
  - simpl. lia.
  - simpl. lia.
  - reflexivity.
  - apply sample_of_wf. simpl. lia.
  - reflexivity.
  - simpl. lia.
  - reflexivity.
  - intros i Hi. change (~ (0 * 1 <= Z.of_nat i < 2 * 1)) in Hi.
    destruct i as [|[|i]]; [lia|lia|reflexivity].
  - exists u', doc'. split; [exact Hrun|]. rewrite Hsample. reflexivity.
Defined.

(** [Undo] of the deletion of the first byte of the two-byte sample. *)
Lemma sample_delete_witness :
  exists u' doc',
    Undo (Ext := Host.sample true) 1000 (document one_byte) (one_step delete_step) 1%nat
    = Some (true, u', doc')
    /\ pData (GetSample (sndFile doc') 1%nat) = Some [Byte.x01; Byte.x02]
    /\ nLength (GetSample (sndFile doc') 1%nat) = 2.
Proof.
  destruct (SampleHistory.sample_Undo_delete_reinserts_data (Ext := Host.sample true)
              1000 (bits_host true) (document one_byte) (one_step delete_step) 1%nat
              delete_step [Byte.x01; Byte.x02])
    as (u' & doc' & Hrun & Hsample & _).
  - lia.
  - by vm_compute.
  - exact delete_step_reachable.
  - vm_compute. lia.
  - reflexivity.
  - reflexivity.
  - apply sample_of_wf. simpl. lia.
  - reflexivity.
  - simpl. lia.
  - simpl. lia.
  - reflexivity.
  - reflexivity.
  - reflexivity.
  - exists u', doc'. split; [exact Hrun|]. rewrite Hsample. split; reflexivity.
Defined.

(** [Undo] of the replacement of the two-byte sample. *)
Lemma sample_replace_witness :
  exists u' doc',
    Undo (Ext := Host.sample true) 1 (document one_byte) after_replace 1%nat
    = Some (true, u', doc')
    /\ pData (GetSample (sndFile doc') 1%nat) = Some [Byte.x01; Byte.x02].
Proof.
  destruct (SampleHistory.sample_Undo_replace_hands_back_buffer (Ext := Host.sample true)
              1 (bits_host true) (document one_byte) after_replace 1%nat
              (step_of two_bytes sundo_replace 0 2 (Some [Byte.x01; Byte.x02])))
    as (u' & doc' & Hrun & Hsample & _).
  - lia.
  - by vm_compute.
  - exact Examples.after_replace_reachable.
  - vm_compute. lia.
  - reflexivity.
  - reflexivity.
  - intros _. split; [apply sample_of_wf; simpl; lia|by eexists].
  - exists u', doc'. split; [exact Hrun|]. rewrite Hsample. reflexivity.
Defined.

(** The names after an undo point called "Fade". *)
Lemma sample_names_witness :
  GetUndoName (Ext := Host.sample true)
    (result_state
       (PrepareUndo (Ext := Host.sample true) 1000 (document two_bytes)
          SampleSpec.initial 1%nat sundo_update "Fade" 0 2)
       SampleSpec.initial) 1%nat = Some "Fade"%string
  /\ GetRedoName (Ext := Host.sample true)
       (result_state
          (PrepareUndo (Ext := Host.sample true) 1000 (document two_bytes)
             SampleSpec.initial 1%nat sundo_update "Fade" 0 2)
          SampleSpec.initial) 1%nat = Some EmptyString.
Proof.
  destruct (SampleHistory.sample_PrepareUndo_sets_names (Ext := Host.sample true) 1000
              (document two_bytes) SampleSpec.initial 1%nat sundo_update "Fade" 0 2
              (result_state
                 (PrepareUndo (Ext := Host.sample true) 1000 (document two_bytes)
                    SampleSpec.initial 1%nat sundo_update "Fade" 0 2)
                 SampleSpec.initial)
              (result_doc
                 (PrepareUndo (Ext := Host.sample true) 1000 (document two_bytes)
                    SampleSpec.initial 1%nat sundo_update "Fade" 0 2)
                 (document no_sample)))
    as (_ & _ & Hundo & Hredo).
  - vm_compute. reflexivity.
  - by split.
Defined.

End SampleExamples.
